(** * ai-slop-detector backend: authorization and orchestration layer

    A shallow embedding of the TypeScript backend (auth.service,
    auth.middleware, rate-limit.service, cache.service,
    analysis.service, validation.service, the two controllers, the
    routes and the entry point) together with the properties of the
    specification that concern it.

    Conventions of the embedding:
    - a JavaScript string is the [string] of the bytes of its UTF-8
      encoding; searching, splitting and cutting at ASCII characters are
      computed on the bytes, and what depends on the Unicode character
      database ([toLowerCase], [trim], the white space of regular
      expressions) or counts UTF-16 code units ([length], [substring]
      of an arbitrary text) is a function of the platform, a parameter;
    - an instant ([Date], ISO-8601 text) is its number of milliseconds
      since the epoch, a [Z]; a calendar date [YYYY-MM-DD] in UTC is its
      day number; the local midnight of the host is a parameter;
    - what the store hands back for a JSON column is a parameter;
    - a value that went through [JSON.parse] is a [Json] document and a
      possibly [undefined] one a [JsVal];
    - an [async] method is a computation of the monad [M] over the
      [World]: the tables of the store, the clock, the scripted behaviour
      of the environment (store faults, HTTP replies, latencies) and the
      trace of the I/O performed. *)

From Stdlib Require Import String Ascii List ZArith QArith Lia Bool DecimalString.
From Stdlib Require DecimalZ.
From stdpp Require countable strings.
Import ListNotations.

Open Scope string_scope.
Open Scope Z_scope.

(* ------------------------------------------------------------------ *)
(** ** JavaScript string primitives *)

Module JsString.

(** [s.startsWith(p)]. *)
Definition startsWith (p s : string) : bool := String.prefix p s.

(** The first [n] bytes of [s]: [s.substring(0, n)] for a text of the
    ASCII range, such as a hexadecimal digest. *)
Definition substring0 (n : nat) (s : string) : string := String.substring 0 n s.

(** [s] without its first [n] bytes. *)
Fixpoint dropChars (n : nat) (s : string) : string :=
  match n, s with
  | O, _ => s
  | S _, EmptyString => EmptyString
  | S k, String _ r => dropChars k r
  end.

(** [s.replace(p, "")] with a string pattern: only the first
    occurrence of [p] is removed. *)
Fixpoint removeFirst (p s : string) : string :=
  if String.prefix p s then dropChars (String.length p) s
  else match s with
       | EmptyString => EmptyString
       | String c r => String c (removeFirst p r)
       end.

(** [s.split(sep)] for a one-character separator: never empty. *)
Fixpoint split (sep : ascii) (s : string) : list string :=
  match s with
  | EmptyString => [EmptyString]
  | String c r =>
      if Ascii.eqb c sep then EmptyString :: split sep r
      else match split sep r with
           | [] => [String c EmptyString]
           | h :: t => String c h :: t
           end
  end.

Fixpoint contains (c : ascii) (s : string) : bool :=
  match s with
  | EmptyString => false
  | String d r => Ascii.eqb d c || contains c r
  end.

Fixpoint lastChar (s : string) : option ascii :=
  match s with
  | EmptyString => None
  | String c EmptyString => Some c
  | String _ r => lastChar r
  end.

(** The text matched by the regular expression [/\{[\s\S]*\}/]: from
    the first opening brace to the last closing brace after it. *)
Fixpoint uptoLastClose (s : string) : option string :=
  match s with
  | EmptyString => None
  | String c r =>
      match uptoLastClose r with
      | Some t => Some (String c t)
      | None => if Ascii.eqb c "}" then Some (String c EmptyString) else None
      end
  end.

Fixpoint matchBraces (s : string) : option string :=
  match s with
  | EmptyString => None
  | String c r =>
      if Ascii.eqb c "{" then
        match uptoLastClose r with
        | Some t => Some (String c t)
        | None => matchBraces r
        end
      else matchBraces r
  end.

End JsString.

(* ------------------------------------------------------------------ *)
(** ** JSON documents and dynamically typed values *)

#[warnings="-register-all"] Inductive Json : Type :=
| JNull
| JBool (b : bool)
| JNum (q : Q)
| JStr (s : string)
| JArr (items : list Json)
| JObj (fields : list (string * Json)).

(** A JavaScript value read from a document: [None] is [undefined]. *)
Definition JsVal : Type := option Json.

Definition JInt (z : Z) : Json := JNum (inject_Z z).

Module Js.

Fixpoint lookupField (k : string) (fs : list (string * Json)) : JsVal :=
  match fs with
  | [] => None
  | (k', v) :: r => if String.eqb k k' then Some v else lookupField k r
  end.

(** [v.k]: a [TypeError] ([None]) on [undefined] and [null]; the keys
    read by the services are own properties of objects only. *)
Definition getProp (k : string) (v : JsVal) : option JsVal :=
  match v with
  | None | Some JNull => None
  | Some (JObj fs) => Some (lookupField k fs)
  | Some _ => Some None
  end.

(** [v?.k]. *)
Definition optProp (k : string) (v : JsVal) : JsVal :=
  match v with
  | Some (JObj fs) => lookupField k fs
  | _ => None
  end.

(** [v[0]]; of a non-empty string it is a string of one character,
    which has none of the properties the services read in it. *)
Definition index0 (v : JsVal) : option JsVal :=
  match v with
  | None | Some JNull => None
  | Some (JArr items) => Some (hd_error items)
  | Some (JStr (String c _)) => Some (Some (JStr (String c EmptyString)))
  | Some (JObj fs) => Some (lookupField "0" fs)
  | Some _ => Some None
  end.

(** [ToBoolean]. *)
Definition truthy (v : JsVal) : bool :=
  match v with
  | None | Some JNull => false
  | Some (JBool b) => b
  | Some (JNum q) => negb (Qeq_bool q 0)
  | Some (JStr s) => negb (String.eqb s "")
  | Some (JArr _) | Some (JObj _) => true
  end.

(** The properties of an object literal that [JSON.stringify] keeps:
    those whose value is not [undefined]. *)
Fixpoint definedFields (fs : list (string * JsVal)) : list (string * Json) :=
  match fs with
  | [] => []
  | (k, Some v) :: r => (k, v) :: definedFields r
  | (_, None) :: r => definedFields r
  end.

(** An object literal, as a document. *)
Definition object (fs : list (string * JsVal)) : Json := JObj (definedFields fs).

(** [v || ''] for a field declared [string]. *)
Definition strOrEmpty (v : JsVal) : string :=
  match v with
  | Some (JStr s) => s
  | _ => ""
  end.

(** The text of a number in a template literal. *)
Definition showZ (z : Z) : string := NilZero.string_of_int (Z.to_int z).

Definition showOpt (o : option Z) : string :=
  match o with
  | Some z => showZ z
  | None => "undefined"
  end.

End Js.

(* ------------------------------------------------------------------ *)
(** ** The platform the services run on

    Functions of the JavaScript runtime and of its standard library that
    the services call.  They are parameters of the development; the
    properties of them that a theorem relies on are collected in
    [RuntimeLaws]. *)

Class Runtime : Type := {
  (** [createHash('sha256').update(s).digest('hex')] *)
  sha256hex : string -> string;
  (** [crypto.subtle.sign('HMAC', key, message)], as a binary string *)
  hmacSha256 : string -> string -> string;
  (** [btoa(unescape(encodeURIComponent(s)))] *)
  btoaUtf8 : string -> string;
  (** [decodeURIComponent(escape(atob(s)))], which can throw *)
  atobUtf8 : string -> option string;
  JSON_stringify : Json -> string;
  (** [JSON.parse], which can throw *)
  JSON_parse : string -> option Json;
  (** [ToNumber] of a string, an array or an object ([None] is [NaN]) *)
  coerceNumber : Json -> option Q;
  (** [new URL(u).hostname], which can throw *)
  urlHostname : string -> option string
}.

Definition hexDigit (c : ascii) : bool :=
  let n := nat_of_ascii c in
  ((48 <=? n) && (n <=? 57) || (97 <=? n) && (n <=? 102))%nat.

Fixpoint allHex (s : string) : bool :=
  match s with
  | EmptyString => true
  | String c r => hexDigit c && allHex r
  end.

Class RuntimeLaws (R : Runtime) : Prop := {
  (** a hex digest consists of hexadecimal digits *)
  sha256hex_hex : forall s, allHex (sha256hex s) = true;
  (** the base64 alphabet has no dot *)
  btoaUtf8_no_dot : forall s, JsString.contains "." (btoaUtf8 s) = false;
  atobUtf8_btoaUtf8 : forall s, atobUtf8 (btoaUtf8 s) = Some s;
  JSON_parse_stringify : forall j, JSON_parse (JSON_stringify j) = Some j
}.

(** The functions of strings that depend on the Unicode character
    database. *)
Class Unicode : Type := {
  (** [String.prototype.toLowerCase] *)
  toLowerCase : string -> string;
  (** [String.prototype.trim] *)
  trim : string -> string;
  (** [s.split(/\s+/)] *)
  splitWhiteSpace : string -> list string
}.

(** A text is blank when [trim] leaves nothing of it. *)
Class UnicodeLaws (U : Unicode) : Prop := {
  (** blank text around a text is trimmed away *)
  trim_blank_around :
    forall pre s post, trim pre = "" -> trim post = "" -> trim (pre ++ s ++ post) = trim s;
  (** lowering the case neither makes nor removes white space *)
  toLowerCase_trim : forall s, toLowerCase (trim s) = trim (toLowerCase s)
}.

(** What the deployment decides: the time zone of the host and the
    type of the column [result] of the store. *)
Class Deployment : Type := {
  (** the instant [tomorrow.getTime()] after
      [tomorrow.setDate(tomorrow.getDate() + 1); tomorrow.setHours(0, 0, 0, 0)]
      for a [Date] created at the given instant: the next midnight in
      the time zone of the host *)
  nextMidnight : Z -> Z;
  (** the value of [row.result] in a row read from [cache_entries], the
      given text having been bound to the column *)
  jsonColumn : string -> JsVal
}.

(** A store whose column [result] hands the bound JSON text back as the
    document it denotes. *)
Class StoresDocuments (R : Runtime) (D : Deployment) : Prop := {
  jsonColumn_stringify : forall j, jsonColumn (JSON_stringify j) = Some j
}.

(* ------------------------------------------------------------------ *)
(** ** Data model (types/index.ts) *)

Inductive Mode : Type := quick | deep.

Definition modeTag (m : Mode) : string :=
  match m with
  | quick => "quick"
  | deep => "deep"
  end.

Record AnalysisRequest : Type := {
  url : string;
  text : string;
  userId : string;
  mode : Mode;
  lastModified : option string
}.

Record Metadata : Type := {
  wordCount : JsVal;
  provider : JsVal;
  analysisTime : JsVal;
  cacheCreatedAt : option Z
}.

(** [AnalysisResult]: [parseAnalysisResult] copies the properties of the
    provider's document without checking them, so that a field holds
    whatever value, or [undefined], the document had. *)
Record AnalysisResult : Type := {
  classification : JsVal;
  confidenceLevel : JsVal;
  confidenceScore : JsVal;
  keyIndicators : JsVal;
  reasoning : JsVal;
  metadata : Metadata
}.

Inductive CacheStatus : Type := hit | miss.

(** [{ ...result, cacheStatus }]. *)
Record ApiResponse : Type := {
  payload : AnalysisResult;
  cacheStatus : CacheStatus
}.

(** The freshness column of a cache row: the request's [lastModified]
    or, without one, the instant of the write. *)
Inductive Freshness : Type :=
| Declared (token : string)
| WrittenAt (instant : Z).

(** A row of [cache_entries]; a column bound to [undefined] holds
    [None], and [result] holds the text bound to the JSON column. *)
Record CacheEntry : Type := {
  url_hash : option string;
  content_hash : option string;
  last_modified : Freshness;
  full_url : string;
  domain : string;
  entry_mode : option string;
  result : string;
  cache_created_at : Z
}.

(** A row of [usage_analytics]; [usage_date] is the column
    [created_at], a calendar date. *)
Record UsageAnalytics : Type := {
  usage_user_id : string;
  daily_count : Z;
  usage_date : Z
}.

Record RateLimitResult : Type := {
  allowed : bool;
  retryAfter : option Z;
  message : option string;
  currentCount : option Z
}.

Record User : Type := {
  id : string;
  google_id : string;
  email : string;
  name : string;
  picture_url : string;
  created_at : Z;
  last_login_at : Z
}.

Record AuthResponse : Type := {
  token : string;
  user : User;
  isNewUser : bool
}.

(** The columns of [token_blacklist] written by the service. *)
Record TokenBlacklistEntry : Type := {
  token_hash : string;
  blacklist_user_id : string;
  expires_at : Z
}.

(** [Env]: the configuration read by the services. *)
Record Env : Type := {
  JWT_SECRET : string;
  GOOGLE_CLIENT_ID : string
}.

(* ------------------------------------------------------------------ *)
(** ** The world: store, clock, environment script, trace *)

Record Store : Type := {
  users : list User;
  token_blacklist : list TokenBlacklistEntry;
  usage_analytics : list UsageAnalytics;
  cache_entries : list CacheEntry
}.

(** The statements the services prepare, with their bound parameters. *)
Inductive Statement : Type :=
| SelectUserByGoogleId (gid : string)
| UpdateLastLogin (instant : Z) (uid : string)
| InsertUser (u : User)
| InsertBlacklist (e : TokenBlacklistEntry)
| SelectBlacklist (hash : string) (instant : Z)
| DeleteExpiredBlacklist (instant : Z)
| SelectUsage (uid : string) (day : Z)
| UpdateUsage (uid : string) (day : Z)
| InsertUsage (uid : string) (day : Z)
| SelectCache (uh ch m : option string)
| InsertCache (e : CacheEntry)
| DeleteCache (uh ch m : option string).

Inductive Endpoint : Type := GoogleTokenInfo | OpenAI | Anthropic.

Inductive Event : Type :=
| EvDb (s : Statement)
| EvFetch (target : Endpoint).

(** How the store answers one statement: it executes it, answers with
    an [error], or the call itself rejects. *)
Inductive DbFault : Type := DbExecutes | DbErrors | DbRejects.

(** How one [fetch] ends: it rejects (network failure, timeout), or it
    answers with a status and a body; [body = None] when
    [response.json()] rejects. *)
Inductive FetchOutcome : Type :=
| FetchRejects
| FetchResponds (ok : bool) (status : Z) (body : option Json).

(** What the environment will do, in the order it is asked. *)
Record Script : Type := {
  dbFaults : list DbFault;
  replies : list FetchOutcome;
  latencies : list N;
  uuids : list string
}.

Record World : Type := {
  clock : Z;
  store : Store;
  script : Script;
  trace : list Event
}.

Definition setStore (st : Store) (w : World) : World :=
  {| clock := clock w; store := st; script := script w; trace := trace w |}.

Definition setScript (sc : Script) (w : World) : World :=
  {| clock := clock w; store := store w; script := sc; trace := trace w |}.

Definition setClock (t : Z) (w : World) : World :=
  {| clock := t; store := store w; script := script w; trace := trace w |}.

Definition setTrace (tr : list Event) (w : World) : World :=
  {| clock := clock w; store := store w; script := script w; trace := tr |}.

Definition setUsers (l : list User) (st : Store) : Store :=
  {| users := l; token_blacklist := token_blacklist st;
     usage_analytics := usage_analytics st; cache_entries := cache_entries st |}.

Definition setBlacklist (l : list TokenBlacklistEntry) (st : Store) : Store :=
  {| users := users st; token_blacklist := l;
     usage_analytics := usage_analytics st; cache_entries := cache_entries st |}.

Definition setUsage (l : list UsageAnalytics) (st : Store) : Store :=
  {| users := users st; token_blacklist := token_blacklist st;
     usage_analytics := l; cache_entries := cache_entries st |}.

Definition setCacheEntries (l : list CacheEntry) (st : Store) : Store :=
  {| users := users st; token_blacklist := token_blacklist st;
     usage_analytics := usage_analytics st; cache_entries := l |}.

(* ------------------------------------------------------------------ *)
(** ** The monad of asynchronous computations *)

(** A settled promise: fulfilled with a value or rejected with an
    [Error] carrying a message. *)
Inductive Result (A : Type) : Type :=
| Ok (a : A)
| Throw (msg : string).

Arguments Ok {A} a.
Arguments Throw {A} msg.

Definition M (A : Type) : Type := World -> Result A * World.

Definition ret {A} (a : A) : M A := fun w => (Ok a, w).

Definition throw {A} (msg : string) : M A := fun w => (Throw msg, w).

Definition bind {A B} (m : M A) (k : A -> M B) : M B :=
  fun w =>
    match m w with
    | (Ok a, w') => k a w'
    | (Throw e, w') => (Throw e, w')
    end.

(** [try { m } catch (error) { h error }]. *)
Definition tryCatch {A} (m : M A) (h : string -> M A) : M A :=
  fun w =>
    match m w with
    | (Ok a, w') => (Ok a, w')
    | (Throw e, w') => h e w'
    end.

Declare Scope async_scope.
Delimit Scope async_scope with async.
Notation "x <- c ;; k" := (bind c (fun x => k))
  (at level 62, c at next level, right associativity) : async_scope.
Notation "c ;;; k" := (bind c (fun _ => k))
  (at level 62, right associativity) : async_scope.
Open Scope async_scope.

(** A property access that raises a [TypeError] when it has no value. *)
Definition orTypeError {A} (o : option A) : M A :=
  match o with
  | Some a => ret a
  | None => throw "TypeError"
  end.

(** [Date.now()] and [new Date()]. *)
Definition now : M Z := fun w => (Ok (clock w), w).

(** Calling an [async] function without awaiting it: the promise it
    returns settles with the outcome of the call.  Used for a callee
    that performs no I/O, whose effect on the world is nil. *)
Definition unawaited {A} (m : M A) : M (Result A) :=
  fun w => (Ok (fst (m w)), w).

(** [return p] for a promise [p]: the caller's promise adopts [p], a
    rejection of [p] does not pass through the enclosing [catch]. *)
Definition adopt {A} (p : Result A) : M A := fun w => (p, w).

(** One round trip to the outside: it is recorded in the trace and
    takes the next latency of the script. *)
Definition roundTrip (ev : Event) : M unit :=
  fun w =>
    let sc := script w in
    let d := match latencies sc with [] => 0%N | d :: _ => d end in
    (Ok tt,
     {| clock := clock w + Z.of_N d;
        store := store w;
        script := {| dbFaults := dbFaults sc; replies := replies sc;
                     latencies := tl (latencies sc); uuids := uuids sc |};
        trace := trace w ++ [ev] |}).

Definition nextFault : M DbFault :=
  fun w =>
    let sc := script w in
    (Ok (match dbFaults sc with [] => DbExecutes | f :: _ => f end),
     setScript {| dbFaults := tl (dbFaults sc); replies := replies sc;
                  latencies := latencies sc; uuids := uuids sc |} w).

Definition nextReply : M FetchOutcome :=
  fun w =>
    let sc := script w in
    (Ok (match replies sc with [] => FetchRejects | r :: _ => r end),
     setScript {| dbFaults := dbFaults sc; replies := tl (replies sc);
                  latencies := latencies sc; uuids := uuids sc |} w).

(** [crypto.randomUUID()]. *)
Definition randomUUID : M string :=
  fun w =>
    let sc := script w in
    (Ok (match uuids sc with [] => "" | u :: _ => u end),
     setScript {| dbFaults := dbFaults sc; replies := replies sc;
                  latencies := latencies sc; uuids := tl (uuids sc) |} w).

Definition readStore : M Store := fun w => (Ok (store w), w).

Definition writeStore (st : Store) : M unit := fun w => (Ok tt, setStore st w).

(** The [{ data, error }] a statement resolves to. *)
Record DbReply (A : Type) : Type := {
  data : option A;
  error : bool
}.

Arguments data {A} d.
Arguments error {A} d.

(** [prepare(sql).bind(...).first()]: the first row the query selects. *)
Definition dbFirst {A} (s : Statement) (query : Store -> option A) : M (DbReply A) :=
  roundTrip (EvDb s) ;;;
  f <- nextFault ;;
  match f with
  | DbExecutes => st <- readStore ;; ret {| data := query st; error := false |}
  | DbErrors => ret {| data := None; error := true |}
  | DbRejects => throw "store request failed"
  end.

(** [prepare(sql).bind(...).run()]: the statement changes the store. *)
Definition dbRun (s : Statement) (change : Store -> Store) : M (DbReply unit) :=
  roundTrip (EvDb s) ;;;
  f <- nextFault ;;
  match f with
  | DbExecutes =>
      st <- readStore ;; writeStore (change st) ;;; ret {| data := None; error := false |}
  | DbErrors => ret {| data := None; error := true |}
  | DbRejects => throw "store request failed"
  end.

(** [fetch(endpoint, ...)]. *)
Definition fetch (target : Endpoint) : M FetchOutcome :=
  roundTrip (EvFetch target) ;;;
  r <- nextReply ;;
  match r with
  | FetchRejects => throw "fetch failed"
  | FetchResponds _ _ _ => ret r
  end.

(* ------------------------------------------------------------------ *)
(** ** services/auth.service.ts *)

Definition DAY_MS : Z := 24 * 60 * 60 * 1000.

(** The lifetime of a session token, in seconds. *)
Definition TOKEN_LIFETIME : Z := 24 * 60 * 60.

Module AuthService.
Section WithRuntime.

Context {R : Runtime}.

(** [WHERE token_hash = ? AND expires_at > ?] *)
Definition blacklisted (hash : string) (instant : Z) (e : TokenBlacklistEntry) : bool :=
  String.eqb (token_hash e) hash && (instant <? expires_at e).

(** [base64Encode] and [base64Decode] *)
Definition base64Encode (str : string) : string := btoaUtf8 str.

Definition base64Decode (str : string) : M string :=
  match atobUtf8 str with
  | Some s => ret s
  | None => throw "InvalidCharacterError"
  end.

(** [createHMAC] *)
Definition createHMAC (message secret : string) : string :=
  base64Encode (hmacSha256 secret message).

(** The row written by [addTokenToBlacklist] at instant [t]:
    [VALUES (tokenHash, userId, expiresAt.toISOString())]. *)
Definition revocation (token userId : string) (t : Z) : TokenBlacklistEntry :=
  let tokenHash := sha256hex token in
  let expiresAt := t + 24 * 60 * 60 * 1000 in
  {| token_hash := tokenHash; blacklist_user_id := userId; expires_at := expiresAt |}.

(** [addTokenToBlacklist] *)
Definition addTokenToBlacklist (token userId : string) : M unit :=
  t <- now ;;
  let row := revocation token userId t in
  r <- dbRun (InsertBlacklist row)
         (fun st => setBlacklist (token_blacklist st ++ [row]) st) ;;
  if error r then throw "Failed to blacklist token" else ret tt.

(** [cleanupExpiredTokens] *)
Definition cleanupExpiredTokens : M unit :=
  tryCatch
    (t <- now ;;
     r <- dbRun (DeleteExpiredBlacklist t)
            (fun st => setBlacklist
                         (filter (fun e => negb (expires_at e <? t)) (token_blacklist st))
                         st) ;;
     ret tt)
    (fun _ => ret tt).

(** [verifyGoogleToken] *)
Definition verifyGoogleToken (idToken clientId : string) : M Json :=
  response <- fetch GoogleTokenInfo ;;
  match response with
  | FetchRejects => throw "fetch failed"
  | FetchResponds ok _ body =>
      if negb ok then throw "Invalid Google ID token"
      else
        match body with
        | None => throw "SyntaxError"
        | Some data =>
            aud <- orTypeError (Js.getProp "aud" (Some data)) ;;
            match aud with
            | Some (JStr a) =>
                if String.eqb a clientId then ret data else throw "Invalid client ID"
            | _ => throw "Invalid client ID"
            end
        end
  end.

(** [UPDATE users SET last_login_at = ? WHERE id = ?] *)
Definition loggedIn (t : Z) (uid : string) (rows : list User) : list User :=
  map (fun u =>
         if String.eqb (id u) uid
         then {| id := id u; google_id := google_id u; email := email u;
                 name := name u; picture_url := picture_url u;
                 created_at := created_at u; last_login_at := t |}
         else u)
      rows.

(** [WHERE google_id = ?] *)
Definition knownAs (sub : string) (u : User) : bool := String.eqb (google_id u) sub.

(** [findOrCreateUser] *)
Definition findOrCreateUser (googleUser : Json) : M User :=
  sub <- orTypeError (Js.getProp "sub" (Some googleUser)) ;;
  r <- dbFirst (SelectUserByGoogleId (Js.strOrEmpty sub))
         (fun st => find (knownAs (Js.strOrEmpty sub)) (users st)) ;;
  if error r then throw "Database error"
  else
    match data r with
    | Some existingUser =>
        t <- now ;;
        _ <- dbRun (UpdateLastLogin t (id existingUser))
               (fun st => setUsers (loggedIn t (id existingUser) (users st)) st) ;;
        ret existingUser
    | None =>
        uuid <- randomUUID ;;
        gemail <- orTypeError (Js.getProp "email" (Some googleUser)) ;;
        gname <- orTypeError (Js.getProp "name" (Some googleUser)) ;;
        gpicture <- orTypeError (Js.getProp "picture" (Some googleUser)) ;;
        createdAt <- now ;;
        lastLoginAt <- now ;;
        let newUser :=
          {| id := uuid; google_id := Js.strOrEmpty sub; email := Js.strOrEmpty gemail;
             name := Js.strOrEmpty gname; picture_url := Js.strOrEmpty gpicture;
             created_at := createdAt; last_login_at := lastLoginAt |} in
        ins <- dbRun (InsertUser newUser) (fun st => setUsers (users st ++ [newUser]) st) ;;
        if error ins then throw "Failed to create user" else ret newUser
    end.

(** The payload object of [generateJWT]. *)
Definition jwtPayload (u : User) (iat exp : Z) : Json :=
  JObj [("userId", JStr (id u)); ("email", JStr (email u)); ("name", JStr (name u));
        ("iat", JInt iat); ("exp", JInt exp)].

(** [generateJWT] *)
Definition generateJWT (u : User) (secret : string) : M string :=
  let header := JObj [("alg", JStr "HS256"); ("typ", JStr "JWT")] in
  t1 <- now ;;
  t2 <- now ;;
  let payload := jwtPayload u (t1 / 1000) (t2 / 1000 + 24 * 60 * 60) in
  let encodedHeader := base64Encode (JSON_stringify header) in
  let encodedPayload := base64Encode (JSON_stringify payload) in
  let signature := createHMAC (encodedHeader ++ "." ++ encodedPayload) secret in
  ret (encodedHeader ++ "." ++ encodedPayload ++ "." ++ signature).

(** [ToNumber] of a value read from a document ([None] is [NaN]). *)
Definition toNumber (v : JsVal) : option Q :=
  match v with
  | None => None
  | Some JNull => Some 0%Q
  | Some (JBool b) => Some (if b then 1%Q else 0%Q)
  | Some (JNum q) => Some q
  | Some j => coerceNumber j
  end.

(** [v < n] for a number [n]. *)
Definition lessThan (v : JsVal) (n : Z) : bool :=
  match toNumber v with
  | Some q => match Qcompare q (inject_Z n) with Lt => true | _ => false end
  | None => false
  end.

(** [verifyJWT] *)
Definition verifyJWT (token secret : string) : M Json :=
  match JsString.split "." token with
  | [encodedHeader; encodedPayload; signature] =>
      let expectedSignature := createHMAC (encodedHeader ++ "." ++ encodedPayload) secret in
      if negb (String.eqb signature expectedSignature) then throw "Invalid token signature"
      else
        decoded <- base64Decode encodedPayload ;;
        match JSON_parse decoded with
        | None => throw "SyntaxError"
        | Some payload =>
            exp <- orTypeError (Js.getProp "exp" (Some payload)) ;;
            t <- now ;;
            if lessThan exp (t / 1000) then throw "Token expired" else ret payload
        end
  | _ => throw "Invalid token format"
  end.

(** [checkTokenBlacklist] *)
Definition checkTokenBlacklist (token : string) : M unit :=
  let tokenHash := sha256hex token in
  t <- now ;;
  r <- dbFirst (SelectBlacklist tokenHash t)
         (fun st => find (blacklisted tokenHash t) (token_blacklist st)) ;;
  if error r then throw "Database error"
  else
    match data r with
    | Some _ => throw "Token is blacklisted"
    | None => ret tt
    end.

(** [extractUserFromToken]: [verifyJWT] is called without [await], so
    the [try] block only guards the awaited blacklist check. *)
Definition extractUserFromToken (authorization : string) (env : Env) : M Json :=
  payload <- tryCatch
               (let token := JsString.removeFirst "Bearer " authorization in
                payload <- unawaited (verifyJWT token (JWT_SECRET env)) ;;
                checkTokenBlacklist token ;;;
                ret payload)
               (fun _ => throw "Authentication failed: Invalid token") ;;
  adopt payload.

(** [authenticateWithGoogle] *)
Definition authenticateWithGoogle (idToken : string) (env : Env) : M AuthResponse :=
  tryCatch
    (googleUser <- verifyGoogleToken idToken (GOOGLE_CLIENT_ID env) ;;
     u <- findOrCreateUser googleUser ;;
     tok <- generateJWT u (JWT_SECRET env) ;;
     ret {| token := tok; user := u;
            isNewUser := created_at u =? last_login_at u |})
    (fun _ => throw "Failed to authenticate with Google").

End WithRuntime.
End AuthService.

(* ------------------------------------------------------------------ *)
(** ** middleware/auth.middleware.ts *)

Module AuthMiddleware.
Section WithRuntime.

Context {R : Runtime}.

(** [requireAuth]; [authorization] is
    [request.headers.get('Authorization')], [None] when the header is
    absent. *)
Definition requireAuth (authorization : option string) (env : Env) : M Json :=
  match authorization with
  | None => throw "Authentication required: Missing authorization header"
  | Some a =>
      if String.eqb a ""
      then throw "Authentication required: Missing authorization header"
      else if negb (JsString.startsWith "Bearer " a)
      then throw "Authentication required: Invalid authorization format"
      else tryCatch (AuthService.extractUserFromToken a env)
                    (fun _ => throw "Authentication required: Invalid token")
  end.

End WithRuntime.
End AuthMiddleware.

(* ------------------------------------------------------------------ *)
(** ** services/rate-limit.service.ts *)

Module RateLimitService.

Definition DAILY_LIMIT : Z := 50.

(** [new Date().toISOString().split('T')[0]]: the UTC calendar date. *)
Definition isoDate (instant : Z) : Z := instant / DAY_MS.

(** [WHERE user_id = ? AND created_at = ?] *)
Definition usageOf (uid : string) (day : Z) (u : UsageAnalytics) : bool :=
  String.eqb (usage_user_id u) uid && (usage_date u =? day).

(** [Math.ceil(ms / 1000)] *)
Definition ceilSeconds (ms : Z) : Z := - ((- ms) / 1000).

(** [UPDATE usage_analytics SET daily_count = daily_count + 1
     WHERE user_id = ? AND created_at = ?] *)
Definition incremented (uid : string) (date : Z) (rows : list UsageAnalytics)
  : list UsageAnalytics :=
  map (fun u =>
         if usageOf uid date u
         then {| usage_user_id := usage_user_id u; daily_count := daily_count u + 1;
                 usage_date := usage_date u |}
         else u)
      rows.

(** [INSERT INTO usage_analytics (user_id, daily_count, created_at)
     VALUES (?, 1, ?)] *)
Definition firstUse (uid : string) (date : Z) : UsageAnalytics :=
  {| usage_user_id := uid; daily_count := 1; usage_date := date |}.

(** [incrementUsage] *)
Definition incrementUsage (uid : string) (date : Z) : M unit :=
  tryCatch
    (upd <- dbRun (UpdateUsage uid date)
              (fun st => setUsage (incremented uid date (usage_analytics st)) st) ;;
     if error upd then
       _ <- dbRun (InsertUsage uid date)
              (fun st => setUsage (usage_analytics st ++ [firstUse uid date]) st) ;;
       ret tt
     else ret tt)
    (fun _ => ret tt).

(** [incrementUsageForUser] *)
Definition incrementUsageForUser (uid : string) (date : Z) : M unit :=
  incrementUsage uid date.

Section WithDeployment.

Context {D : Deployment}.

(** [checkRateLimit] *)
Definition checkRateLimit (uid : string) : M RateLimitResult :=
  tryCatch
    (if String.eqb uid "" then
       ret {| allowed := false; retryAfter := None;
              message := Some "User ID is required"; currentCount := None |}
     else
       t <- now ;;
       let today := isoDate t in
       usage <- dbFirst (SelectUsage uid today)
                  (fun st => find (usageOf uid today) (usage_analytics st)) ;;
       if error usage then
         ret {| allowed := true; retryAfter := None; message := None;
                currentCount := None |}
       else
         let count := match data usage with
                      | Some row => daily_count row
                      | None => 0
                      end in
         if DAILY_LIMIT <=? count then
           t1 <- now ;;
           let tomorrow := nextMidnight t1 in
           t2 <- now ;;
           ret {| allowed := false; retryAfter := Some (ceilSeconds (tomorrow - t2));
                  message := Some "Daily limit exceeded"; currentCount := Some count |}
         else
           incrementUsageForUser uid today ;;;
           ret {| allowed := true; retryAfter := None; message := None;
                  currentCount := Some (count + 1) |})
    (fun _ =>
       ret {| allowed := true; retryAfter := None; message := None;
              currentCount := None |}).

End WithDeployment.
End RateLimitService.

(* ------------------------------------------------------------------ *)
(** ** services/cache.service.ts *)

Module CacheService.
Section WithRuntime.

Context {R : Runtime} {U : Unicode} {D : Deployment}.

Definition sameColumn (column bound : option string) : bool :=
  match column, bound with
  | Some a, Some b => String.eqb a b
  | _, _ => false
  end.

(** [WHERE url_hash = ? AND content_hash = ? AND mode = ?] *)
Definition keyed (uh ch m : option string) (e : CacheEntry) : bool :=
  sameColumn (url_hash e) uh && sameColumn (content_hash e) ch &&
  sameColumn (entry_mode e) m.

(** [generateCacheKey] *)
Definition generateCacheKey (requestData : AnalysisRequest) : string :=
  let contentHash :=
    JsString.substring0 16 (sha256hex (toLowerCase (trim (text requestData)))) in
  let urlHash :=
    JsString.substring0 16 (sha256hex (toLowerCase (url requestData))) in
  urlHash ++ "_" ++ contentHash ++ "_" ++ modeTag (mode requestData).

(** [deleteCache] *)
Definition deleteCache (cacheKey : string) : M unit :=
  tryCatch
    (let parts := JsString.split "_" cacheKey in
     let urlHash := nth_error parts 0 in
     let contentHash := nth_error parts 1 in
     let m := nth_error parts 2 in
     _ <- dbRun (DeleteCache urlHash contentHash m)
            (fun st =>
               setCacheEntries
                 (filter (fun e => negb (keyed urlHash contentHash m e)) (cache_entries st))
                 st) ;;
     ret tt)
    (fun _ => ret tt).

(** [convertCacheEntryToResult]; [cacheEntry.result] is what the store
    hands back for the column. *)
Definition convertCacheEntryToResult (cacheEntry : CacheEntry) : M AnalysisResult :=
  let stored := jsonColumn (result cacheEntry) in
  cls <- orTypeError (Js.getProp "classification" stored) ;;
  lvl <- orTypeError (Js.getProp "confidence_level" stored) ;;
  score <- orTypeError (Js.getProp "confidence_score" stored) ;;
  inds <- orTypeError (Js.getProp "key_indicators" stored) ;;
  why <- orTypeError (Js.getProp "reasoning" stored) ;;
  meta <- orTypeError (Js.getProp "metadata" stored) ;;
  wc <- orTypeError (Js.getProp "word_count" meta) ;;
  prov <- orTypeError (Js.getProp "provider" meta) ;;
  time <- orTypeError (Js.getProp "analysis_time" meta) ;;
  ret {| classification := cls; confidenceLevel := lvl; confidenceScore := score;
         keyIndicators := inds; reasoning := why;
         metadata := {| wordCount := wc; provider := prov; analysisTime := time;
                        cacheCreatedAt := Some (cache_created_at cacheEntry) |} |}.

(** [getCache] *)
Definition getCache (cacheKey : string) : M (option AnalysisResult) :=
  tryCatch
    (let parts := JsString.split "_" cacheKey in
     let uh := nth_error parts 0 in
     let ch := nth_error parts 1 in
     let m := nth_error parts 2 in
     r <- dbFirst (SelectCache uh ch m)
            (fun st => find (keyed uh ch m) (cache_entries st)) ;;
     if error r then ret None
     else
       match data r with
       | None => ret None
       | Some row =>
           t <- now ;;
           let cacheAge := t - cache_created_at row in
           let maxAge := 24 * 60 * 60 * 1000 in
           if maxAge <? cacheAge then deleteCache cacheKey ;;; ret None
           else res <- convertCacheEntryToResult row ;; ret (Some res)
       end)
    (fun _ => ret None).

(** The object serialised into the column [result] by [setCache]. *)
Definition storedResult (res : AnalysisResult) : Json :=
  Js.object
    [("classification", classification res);
     ("confidence_level", confidenceLevel res);
     ("confidence_score", confidenceScore res);
     ("key_indicators", keyIndicators res);
     ("reasoning", reasoning res);
     ("metadata",
      Some (Js.object
              [("word_count", wordCount (metadata res));
               ("provider", provider (metadata res));
               ("analysis_time", analysisTime (metadata res))]))].

(** [setCache] *)
Definition setCache (cacheKey : string) (res : AnalysisResult)
           (requestData : AnalysisRequest) : M unit :=
  tryCatch
    (let parts := JsString.split "_" cacheKey in
     let urlHash := nth_error parts 0 in
     let contentHash := nth_error parts 1 in
     let m := nth_error parts 2 in
     match urlHostname (url requestData) with
     | None => throw "TypeError: Invalid URL"
     | Some host =>
         stamp <- now ;;
         createdAt <- now ;;
         let cacheEntry :=
           {| url_hash := urlHash; content_hash := contentHash;
              last_modified :=
                match lastModified requestData with
                | Some l => if String.eqb l "" then WrittenAt stamp else Declared l
                | None => WrittenAt stamp
                end;
              full_url := url requestData; domain := host; entry_mode := m;
              result := JSON_stringify (storedResult res);
              cache_created_at := createdAt |} in
         _ <- dbRun (InsertCache cacheEntry)
                (fun st => setCacheEntries (cache_entries st ++ [cacheEntry]) st) ;;
         ret tt
     end)
    (fun _ => ret tt).

End WithRuntime.
End CacheService.

(* ------------------------------------------------------------------ *)
(** ** services/analysis.service.ts *)

Module AnalysisService.
Section WithRuntime.

Context {R : Runtime} {U : Unicode} {D : Deployment}.

Inductive Provider : Type := openai | anthropic.

Definition providerTag (p : Provider) : string :=
  match p with
  | openai => "openai"
  | anthropic => "anthropic"
  end.

(** [parseAnalysisResult] *)
Definition parseAnalysisResult (analysis : Json) (p : Provider) (words : Z)
  : M AnalysisResult :=
  tryCatch
    (match analysis with
     | JStr s =>
         match JsString.matchBraces s with
         | None => throw "No JSON found in response"
         | Some jsonMatch =>
             match JSON_parse jsonMatch with
             | None => throw "SyntaxError"
             | Some parsed =>
                 cls <- orTypeError (Js.getProp "classification" (Some parsed)) ;;
                 lvl <- orTypeError (Js.getProp "confidenceLevel" (Some parsed)) ;;
                 score <- orTypeError (Js.getProp "confidenceScore" (Some parsed)) ;;
                 inds <- orTypeError (Js.getProp "keyIndicators" (Some parsed)) ;;
                 why <- orTypeError (Js.getProp "reasoning" (Some parsed)) ;;
                 ret {| classification := cls; confidenceLevel := lvl;
                        confidenceScore := score;
                        keyIndicators := if Js.truthy inds then inds else Some (JArr []);
                        reasoning := why;
                        metadata := {| wordCount := Some (JInt words);
                                       provider := Some (JStr (providerTag p));
                                       analysisTime := Some (JInt 0);
                                       cacheCreatedAt := None |} |}
             end
         end
     | _ => throw "TypeError: analysis.match is not a function"
     end)
    (fun _ => throw "Failed to parse AI analysis result").

(** [data.choices[0]?.message?.content]; [None] is a [TypeError]. *)
Definition openaiText (data : Json) : option JsVal :=
  match Js.getProp "choices" (Some data) with
  | None => None
  | Some choices =>
      match Js.index0 choices with
      | None => None
      | Some first => Some (Js.optProp "content" (Js.optProp "message" first))
      end
  end.

(** [data.content[0]?.text]; [None] is a [TypeError]. *)
Definition anthropicText (data : Json) : option JsVal :=
  match Js.getProp "content" (Some data) with
  | None => None
  | Some content =>
      match Js.index0 content with
      | None => None
      | Some first => Some (Js.optProp "text" first)
      end
  end.

(** [text.trim().split(/\s+/).length] *)
Definition countWords (text : string) : Z :=
  Z.of_nat (List.length (splitWhiteSpace (trim text))).

(** The part of [analyzeWithOpenAI] and [analyzeWithAnthropic] that
    follows [fetch]; [textOf] reads the text of the completion in the
    response body. *)
Definition readCompletion (p : Provider) (failure invalid : string)
           (textOf : Json -> option JsVal) (words : Z) (response : FetchOutcome)
  : M AnalysisResult :=
  match response with
  | FetchRejects => throw "fetch failed"
  | FetchResponds ok status body =>
      if negb ok then throw (failure ++ Js.showZ status)
      else
        match body with
        | None => throw "SyntaxError"
        | Some responseData =>
            analysis <- orTypeError (textOf responseData) ;;
            match analysis with
            | Some a =>
                if Js.truthy analysis then parseAnalysisResult a p words
                else throw invalid
            | None => throw invalid
            end
        end
  end.

(** [analyzeWithOpenAI]; the prompt sent is not modelled. *)
Definition analyzeWithOpenAI (requestData : AnalysisRequest) : M AnalysisResult :=
  let words := countWords (text requestData) in
  response <- fetch OpenAI ;;
  readCompletion openai "OpenAI API error: " "Invalid response from OpenAI"
    openaiText words response.

(** [analyzeWithAnthropic] *)
Definition analyzeWithAnthropic (requestData : AnalysisRequest) : M AnalysisResult :=
  let words := countWords (text requestData) in
  response <- fetch Anthropic ;;
  readCompletion anthropic "Anthropic API error: " "Invalid response from Anthropic"
    anthropicText words response.

Definition withAnalysisTime (res : AnalysisResult) (elapsed : Z) : AnalysisResult :=
  {| classification := classification res; confidenceLevel := confidenceLevel res;
     confidenceScore := confidenceScore res; keyIndicators := keyIndicators res;
     reasoning := reasoning res;
     metadata := {| wordCount := wordCount (metadata res);
                    provider := provider (metadata res);
                    analysisTime := Some (JInt elapsed);
                    cacheCreatedAt := cacheCreatedAt (metadata res) |} |}.

(** [performAnalysis] *)
Definition performAnalysis (requestData : AnalysisRequest) : M AnalysisResult :=
  startTime <- now ;;
  tryCatch
    (res <- tryCatch (analyzeWithOpenAI requestData)
                     (fun _ => analyzeWithAnthropic requestData) ;;
     finished <- now ;;
     ret (withAnalysisTime res (finished - startTime)))
    (fun _ => throw "Content analysis failed. Please try again later.").

(** [analyzeContent] *)
Definition analyzeContent (requestData : AnalysisRequest) (uid : string) : M ApiResponse :=
  startTime <- now ;;
  rateLimitResult <- RateLimitService.checkRateLimit uid ;;
  if negb (allowed rateLimitResult) then
    throw ("Rate limit exceeded. Retry after " ++
           Js.showOpt (retryAfter rateLimitResult) ++ " seconds")
  else
    let cacheKey := CacheService.generateCacheKey requestData in
    cachedResult <- CacheService.getCache cacheKey ;;
    match cachedResult with
    | Some cached => ret {| payload := cached; cacheStatus := hit |}
    | None =>
        analysisResult <- performAnalysis requestData ;;
        CacheService.setCache cacheKey analysisResult requestData ;;;
        ret {| payload := analysisResult; cacheStatus := miss |}
    end.

End WithRuntime.
End AnalysisService.

(* ------------------------------------------------------------------ *)
(** ** Observations on worlds *)

(** The answer the store will give to the next statement. *)
Definition headFault (w : World) : DbFault :=
  match dbFaults (script w) with
  | [] => DbExecutes
  | f :: _ => f
  end.

(** The outcome of the next [fetch]. *)
Definition headReply (w : World) : FetchOutcome :=
  match replies (script w) with
  | [] => FetchRejects
  | r :: _ => r
  end.

(** The world once the store has answered statement [s]. *)
Definition afterDb (s : Statement) (w : World) : World :=
  snd (nextFault (snd (roundTrip (EvDb s) w))).

(** The world once a [fetch] of [target] has settled. *)
Definition afterFetch (target : Endpoint) (w : World) : World :=
  snd (nextReply (snd (roundTrip (EvFetch target) w))).

(** The HTTP calls recorded in a trace, in order. *)
Fixpoint fetches (tr : list Event) : list Endpoint :=
  match tr with
  | [] => []
  | EvFetch target :: r => target :: fetches r
  | EvDb _ :: r => fetches r
  end.

(** The revocation records of [w1] that are unexpired at the clock of
    [w2] are still in the store of [w2]. *)
Definition keepsUnexpired (w1 w2 : World) : Prop :=
  forall e, In e (token_blacklist (store w1)) -> clock w2 < expires_at e ->
            In e (token_blacklist (store w2)).

(* ------------------------------------------------------------------ *)
(** ** Text of the ASCII range

    What [toLowerCase], [trim] and [split(/\s+/)] do to a string all of
    whose characters are below 128.  These are the text functions of
    the executable model of the platform. *)

Module AsciiText.

(** The white space below 128: [WhiteSpace] and [LineTerminator]. *)
Definition isSpace (c : ascii) : bool :=
  let n := nat_of_ascii c in
  ((9 <=? n) && (n <=? 13) || (n =? 32))%nat.

Definition lowerChar (c : ascii) : ascii :=
  let n := nat_of_ascii c in
  if ((65 <=? n) && (n <=? 90))%nat then ascii_of_nat (n + 32) else c.

Fixpoint toLowerCase (s : string) : string :=
  match s with
  | EmptyString => EmptyString
  | String c r => String (lowerChar c) (toLowerCase r)
  end.

Fixpoint trimStart (s : string) : string :=
  match s with
  | EmptyString => EmptyString
  | String c r => if isSpace c then trimStart r else s
  end.

Fixpoint trimEnd (s : string) : string :=
  match s with
  | EmptyString => EmptyString
  | String c r =>
      match trimEnd r with
      | EmptyString => if isSpace c then EmptyString else String c EmptyString
      | r' => String c r'
      end
  end.

Definition trim (s : string) : string := trimEnd (trimStart s).

Fixpoint allSpace (s : string) : bool :=
  match s with
  | EmptyString => true
  | String c r => isSpace c && allSpace r
  end.

(** The parts between the maximal runs of white space; [inRun] tells
    whether the previous character was white space. *)
Fixpoint splitRuns (inRun : bool) (s : string) : list string :=
  match s with
  | EmptyString => [EmptyString]
  | String c r =>
      if isSpace c then
        (if inRun then splitRuns true r else EmptyString :: splitRuns true r)
      else match splitRuns false r with
           | [] => [String c EmptyString]
           | h :: t => String c h :: t
           end
  end.

Definition splitWhiteSpace (s : string) : list string := splitRuns false s.

(** The letter of the other case. *)
Definition toggleChar (c : ascii) : ascii :=
  let n := nat_of_ascii c in
  if ((65 <=? n) && (n <=? 90))%nat then ascii_of_nat (n + 32)
  else if ((97 <=? n) && (n <=? 122))%nat then ascii_of_nat (n - 32)
  else c.

(** [s] with the case of the letters at the marked positions changed. *)
Fixpoint recase (mask : list bool) (s : string) : string :=
  match mask, s with
  | b :: m, String c r => String (if b then toggleChar c else c) (recase m r)
  | _, _ => s
  end.

End AsciiText.

(* ------------------------------------------------------------------ *)
(** ** An executable model of the platform

    A small runtime on which the services compute: base-16 text stands
    for base-64 text, a digest is the base-16 text of the first bytes of
    its input, and a JSON text is the binary numeral of the code of the
    document, between braces; its texts are of the ASCII range, its
    time zone is UTC and its store hands documents back.  It satisfies
    the laws (see [ModelRuntimeFacts]). *)

Module ModelRuntime.

Definition hexChar (n : N) : ascii :=
  if (n <? 10)%N then ascii_of_N (48 + n) else ascii_of_N (87 + n).

Definition hexValue (c : ascii) : option N :=
  let n := N_of_ascii c in
  if ((48 <=? n) && (n <=? 57))%N then Some (n - 48)%N
  else if ((97 <=? n) && (n <=? 102))%N then Some (n - 87)%N
  else None.

Fixpoint hexEncode (s : string) : string :=
  match s with
  | EmptyString => EmptyString
  | String c r =>
      String (hexChar (N_of_ascii c / 16)) (String (hexChar (N_of_ascii c mod 16)) (hexEncode r))
  end.

Fixpoint hexDecode (s : string) : option string :=
  match s with
  | EmptyString => Some EmptyString
  | String a (String b r) =>
      match hexValue a, hexValue b, hexDecode r with
      | Some x, Some y, Some t => Some (String (ascii_of_N (16 * x + y)) t)
      | _, _, _ => None
      end
  | String _ EmptyString => None
  end.

(** The first [n] bytes of [s], padded with zero bytes. *)
Fixpoint block (n : nat) (s : string) : string :=
  match n with
  | O => EmptyString
  | S k =>
      match s with
      | EmptyString => String zero (block k EmptyString)
      | String c r => String c (block k r)
      end
  end.

Definition digest (s : string) : string := hexEncode (block 32 s).

(** The binary numeral of [p], least significant bit first, closed by
    a brace. *)
Fixpoint bitsOfPositive (p : positive) : string :=
  match p with
  | xH => "}"
  | xO q => String "0" (bitsOfPositive q)
  | xI q => String "1" (bitsOfPositive q)
  end.

Fixpoint positiveOfBits (s : string) : option positive :=
  match s with
  | EmptyString => None
  | String c r =>
      if Ascii.eqb c "}" then
        match r with
        | EmptyString => Some xH
        | String _ _ => None
        end
      else
        match positiveOfBits r with
        | Some q =>
            if Ascii.eqb c "0" then Some (xO q)
            else if Ascii.eqb c "1" then Some (xI q)
            else None
        | None => None
        end
  end.

Definition Atom : Type := (unit + bool) + ((Z * positive) + string).

Fixpoint toTree (j : Json) : stdpp.countable.gen_tree Atom :=
  match j with
  | JNull => stdpp.countable.GenLeaf (inl (inl tt))
  | JBool b => stdpp.countable.GenLeaf (inl (inr b))
  | JNum q => stdpp.countable.GenLeaf (inr (inl (Qnum q, Qden q)))
  | JStr s => stdpp.countable.GenLeaf (inr (inr s))
  | JArr items => stdpp.countable.GenNode 0 (map toTree items)
  | JObj fields =>
      stdpp.countable.GenNode 1
        (map (fun kv =>
                stdpp.countable.GenNode 2
                  [stdpp.countable.GenLeaf (inr (inr (fst kv))); toTree (snd kv)])
             fields)
  end.

Fixpoint ofTree (t : stdpp.countable.gen_tree Atom) : Json :=
  match t with
  | stdpp.countable.GenLeaf (inl (inl _)) => JNull
  | stdpp.countable.GenLeaf (inl (inr b)) => JBool b
  | stdpp.countable.GenLeaf (inr (inl (n, d))) => JNum (Qmake n d)
  | stdpp.countable.GenLeaf (inr (inr s)) => JStr s
  | stdpp.countable.GenNode O ts => JArr (map ofTree ts)
  | stdpp.countable.GenNode _ ts =>
      JObj (map (fun t =>
                   match t with
                   | stdpp.countable.GenNode _ [stdpp.countable.GenLeaf (inr (inr k)); v] =>
                       (k, ofTree v)
                   | _ => (EmptyString, JNull)
                   end)
                ts)
  end.

Definition stringify (j : Json) : string :=
  String "{" (bitsOfPositive (stdpp.countable.encode (toTree j))).

Definition parse (s : string) : option Json :=
  match s with
  | EmptyString => None
  | String c r =>
      if Ascii.eqb c "{" then
        match positiveOfBits r with
        | Some p =>
            match stdpp.countable.decode (A := stdpp.countable.gen_tree Atom) p with
            | Some t => Some (ofTree t)
            | None => None
            end
        | None => None
        end
      else None
  end.

(** The host of an [http] or [https] locator. *)
Fixpoint upToSlash (s : string) : string :=
  match s with
  | EmptyString => EmptyString
  | String c r => if Ascii.eqb c "/" then EmptyString else String c (upToSlash r)
  end.

Definition hostname (u : string) : option string :=
  if String.prefix "https://" u then Some (upToSlash (JsString.dropChars 8 u))
  else if String.prefix "http://" u then Some (upToSlash (JsString.dropChars 7 u))
  else None.

Definition runtime : Runtime := {|
  sha256hex := digest;
  hmacSha256 := fun key message => block 32 (key ++ ":" ++ message);
  btoaUtf8 := hexEncode;
  atobUtf8 := hexDecode;
  JSON_stringify := stringify;
  JSON_parse := parse;
  coerceNumber := fun _ => None;
  urlHostname := hostname
|}.

Definition unicode : Unicode := {|
  toLowerCase := AsciiText.toLowerCase;
  trim := AsciiText.trim;
  splitWhiteSpace := AsciiText.splitWhiteSpace
|}.

(** Midnight of the following day in UTC. *)
Definition utcMidnightAfter (instant : Z) : Z := (instant / DAY_MS + 1) * DAY_MS.

Definition deployment : Deployment := {|
  nextMidnight := utcMidnightAfter;
  jsonColumn := parse
|}.

(** The same deployment with a store whose column [result] is a text
    column: it hands the bound text back. *)
Definition textDeployment : Deployment := {|
  nextMidnight := utcMidnightAfter;
  jsonColumn := fun text => Some (JStr text)
|}.

End ModelRuntime.

(* ------------------------------------------------------------------ *)
(** ** A concrete scenario on the model of the platform *)

Module Scenario.

Definition emptyStore : Store :=
  {| users := []; token_blacklist := []; usage_analytics := []; cache_entries := [] |}.

(** An environment that never fails and answers no request. *)
Definition quiet : Script :=
  {| dbFaults := []; replies := []; latencies := []; uuids := [] |}.

Definition env0 : Env := {| JWT_SECRET := "secret"; GOOGLE_CLIENT_ID := "client-id" |}.

(** 2023-11-14T22:13:20.000Z *)
Definition world0 : World :=
  {| clock := 1700000000000; store := emptyStore; script := quiet; trace := [] |}.

Definition alice : User :=
  {| id := "u-1"; google_id := "g-1"; email := "alice@example.com"; name := "Alice";
     picture_url := ""; created_at := 1690000000000; last_login_at := 1690000000000 |}.

(** The session token issued to [alice] in [world0]. *)
Definition sessionToken : string :=
  match AuthService.generateJWT (R := ModelRuntime.runtime) alice (JWT_SECRET env0) world0 with
  | (Ok tok, _) => tok
  | (Throw _, _) => EmptyString
  end.

(** [world0] one hour later. *)
Definition hourLater : World := setClock (clock world0 + 3600000) world0.

(** The world after [alice] logged out at [hourLater]. *)
Definition loggedOut : World :=
  snd (AuthService.addTokenToBlacklist (R := ModelRuntime.runtime)
         sessionToken (id alice) hourLater).

(** Ten minutes after the logout. *)
Definition afterLogout : World := setClock (clock loggedOut + 600000) loggedOut.

End Scenario.

(* ------------------------------------------------------------------ *)
(** ** Requests of the scenario *)

Module Requests.

Definition article : AnalysisRequest :=
  {| url := "https://example.com/Article"; text := "The quick brown fox jumps";
     userId := "u-1"; mode := quick; lastModified := Some "2024-01-15T10:30:00Z" |}.

(** [article] with other casing and surrounding white space. *)
Definition articleShouted : AnalysisRequest :=
  {| url := "https://example.com/Article"; text := "  THE quick brown fox jumps ";
     userId := "u-1"; mode := quick; lastModified := Some "2024-01-15T10:30:00Z" |}.

(** [article] in the other mode. *)
Definition articleDeep : AnalysisRequest :=
  {| url := "https://example.com/Article"; text := "The quick brown fox jumps";
     userId := "u-1"; mode := deep; lastModified := Some "2024-01-15T10:30:00Z" |}.

(** [article] with another freshness token. *)
Definition articleRevised : AnalysisRequest :=
  {| url := "https://example.com/Article"; text := "The quick brown fox jumps";
     userId := "u-1"; mode := quick; lastModified := Some "2025-06-01T00:00:00Z" |}.

End Requests.

(* ------------------------------------------------------------------ *)
(** ** Successive calls of the rate limiter *)

(** [n] successive calls of [checkRateLimit] for one identity, with
    their results in order. *)
Fixpoint checkRateLimitTimes {D : Deployment} (n : nat) (uid : string) (w : World)
  : list (Result RateLimitResult) * World :=
  match n with
  | O => ([], w)
  | S k =>
      let (r, w1) := RateLimitService.checkRateLimit uid w in
      let (rs, w2) := checkRateLimitTimes k uid w1 in
      (r :: rs, w2)
  end.

(** What [checkRateLimit] answers when it lets a request through with
    the post-increment count [n]. *)
Definition allowedWith (n : Z) : RateLimitResult :=
  {| allowed := true; retryAfter := None; message := None; currentCount := Some n |}.

(** What [checkRateLimit] answers on a store failure. *)
Definition allowedBlindly : RateLimitResult :=
  {| allowed := true; retryAfter := None; message := None; currentCount := None |}.

(** The count [checkRateLimit] reads for an identity and a day. *)
Definition countOf (uid : string) (day : Z) (st : Store) : Z :=
  match find (RateLimitService.usageOf uid day) (usage_analytics st) with
  | Some row => daily_count row
  | None => 0
  end.

(* ------------------------------------------------------------------ *)
(** ** Relations between the world before and after a computation *)

(** Every run of [m] relates the world it starts in to the world it
    ends in by [I]. *)
Definition Preserves {A} (I : World -> World -> Prop) (m : M A) : Prop :=
  forall w, I w (snd (m w)).

(** Time does not go backwards. *)
Definition clockAdvances (w w' : World) : Prop := clock w <= clock w'.

(** No HTTP call was made. *)
Definition noFetch (w w' : World) : Prop :=
  fetches (trace w') = fetches (trace w) /\ replies (script w') = replies (script w).

(** The table [cache_entries] is untouched. *)
Definition sameCache (w w' : World) : Prop :=
  cache_entries (store w') = cache_entries (store w).

(** The store is untouched. *)
Definition sameStore (w w' : World) : Prop := store w' = store w.

(** The table [usage_analytics] is untouched. *)
Definition sameUsage (w w' : World) : Prop :=
  usage_analytics (store w') = usage_analytics (store w).

(** An environment without store failures stays so. *)
Definition staysReliable (w w' : World) : Prop :=
  dbFaults (script w) = [] -> dbFaults (script w') = [].

(** The world is left as it was. *)
Definition unchanged (w w' : World) : Prop := w' = w.

(** [convertCacheEntryToResult] applied to the row [setCache] wrote for
    [res] at instant [created]. *)
Definition fromCache (res : AnalysisResult) (created : Z) : AnalysisResult :=
  {| classification := classification res; confidenceLevel := confidenceLevel res;
     confidenceScore := confidenceScore res; keyIndicators := keyIndicators res;
     reasoning := reasoning res;
     metadata := {| wordCount := wordCount (metadata res);
                    provider := provider (metadata res);
                    analysisTime := analysisTime (metadata res);
                    cacheCreatedAt := Some created |} |}.

(** The columns [url_hash] and [content_hash] of a request. *)
Definition urlHashOf {R : Runtime} {U : Unicode} (r : AnalysisRequest) : string :=
  JsString.substring0 16 (sha256hex (toLowerCase (url r))).

Definition contentHashOf {R : Runtime} {U : Unicode} (r : AnalysisRequest) : string :=
  JsString.substring0 16 (sha256hex (toLowerCase (trim (text r)))).

(** The first row of the cache table for a request, if any. *)
Definition cachedFor {R : Runtime} {U : Unicode} (r : AnalysisRequest) (st : Store)
  : option CacheEntry :=
  find (CacheService.keyed (Some (urlHashOf r)) (Some (contentHashOf r))
          (Some (modeTag (mode r))))
       (cache_entries st).

(* ------------------------------------------------------------------ *)
(** ** Worlds of the orchestration scenario *)

Module Orchestration.
Import Scenario Requests.

#[local] Existing Instances ModelRuntime.runtime ModelRuntime.unicode ModelRuntime.deployment.

(** The identity [u-1] has used its fifty requests of the day. *)
Definition exhausted : World :=
  setStore (setUsage [{| usage_user_id := "u-1"; daily_count := 50; usage_date := 19675 |}]
                     emptyStore)
           world0.

(** What a provider found in [article]. *)
Definition verdict : Json :=
  JObj [("classification", JStr "human-written"); ("confidenceLevel", JStr "medium");
        ("confidenceScore", JNum (13 # 20));
        ("keyIndicators", JArr [JStr "natural flow"]);
        ("reasoning", JStr "reads like a person")].

(** The body of an answer of the secondary provider. *)
Definition anthropicBody : Json :=
  JObj [("content",
         JArr [JObj [("text",
                      JStr ("Here is my analysis: " ++
                            JSON_stringify verdict ++
                            " I hope it helps."))]])].

(** The primary provider answers 500, the secondary one answers. *)
Definition primaryDown : World :=
  setScript {| dbFaults := []; replies := [FetchResponds false 500 None;
                                            FetchResponds true 200 (Some anthropicBody)];
               latencies := [2; 3; 5; 700; 900; 4]%N; uuids := [] |}
            world0.

(** Both providers answer 500. *)
Definition bothDown : World :=
  setScript {| dbFaults := []; replies := [FetchResponds false 500 None;
                                            FetchResponds false 503 None];
               latencies := []; uuids := [] |}
            world0.

(** The primary provider answers with a completion that holds no JSON
    document, the secondary one answers. *)
Definition primaryRambling : World :=
  setScript {| dbFaults := [];
               replies := [FetchResponds true 200
                             (Some (JObj [("choices",
                                           JArr [JObj [("message",
                                                        JObj [("content",
                                                               JStr "I cannot tell {sorry}")])]])]));
                           FetchResponds true 200 (Some anthropicBody)];
               latencies := [2; 3; 5; 700; 900; 4]%N; uuids := [] |}
            world0.

(** The primary provider answers without a completion text, the
    secondary one answers. *)
Definition primarySilent : World :=
  setScript {| dbFaults := [];
               replies := [FetchResponds true 200
                             (Some (JObj [("choices", JArr [JObj [("message", JObj [])]])]));
                           FetchResponds true 200 (Some anthropicBody)];
               latencies := [2; 3; 5; 700; 900; 4]%N; uuids := [] |}
            world0.

(** The result [performAnalysis] builds from [verdict]. *)
Definition verdictResult : AnalysisResult :=
  {| classification := Some (JStr "human-written");
     confidenceLevel := Some (JStr "medium");
     confidenceScore := Some (JNum (13 # 20));
     keyIndicators := Some (JArr [JStr "natural flow"]);
     reasoning := Some (JStr "reads like a person");
     metadata := {| wordCount := Some (JInt 5); provider := Some (JStr "anthropic");
                    analysisTime := Some (JInt 1600); cacheCreatedAt := None |} |}.

(** Ten minutes after the call of [article] in [primaryDown]. *)
Definition tenMinutesLater : World :=
  let w := snd (AnalysisService.analyzeContent article "u-1" primaryDown) in
  setClock (clock w + 600000) w.

End Orchestration.

(* ------------------------------------------------------------------ *)
(** ** Worlds of the sign-in scenario *)

Module SignIn.
Import Scenario.

(** What the identity provider asserts about the holder of the token. *)
Definition assertion : Json :=
  JObj [("aud", JStr "client-id"); ("sub", JStr "g-7"); ("email", JStr "bob@example.com");
        ("name", JStr "Bob"); ("picture", JStr "https://example.com/bob.png")].

(** Nobody has signed in yet; the identity provider will vouch three
    times for the same subject. *)
Definition firstVisit : World :=
  setScript {| dbFaults := [];
               replies := [FetchResponds true 200 (Some assertion);
                           FetchResponds true 200 (Some assertion);
                           FetchResponds true 200 (Some assertion)];
               latencies := [40; 3; 3; 40; 3; 3; 40; 3; 3]%N;
               uuids := ["u-7"] |}
            world0.

(** The world after the first sign-in, one hour later. *)
Definition secondVisit : World :=
  let w := snd (AuthService.authenticateWithGoogle (R := ModelRuntime.runtime)
                  "id-token" env0 firstVisit) in
  setClock (clock w + 3600000) w.

(** The world after the second sign-in, one hour later. *)
Definition thirdVisit : World :=
  let w := snd (AuthService.authenticateWithGoogle (R := ModelRuntime.runtime)
                  "id-token" env0 secondVisit) in
  setClock (clock w + 3600000) w.

(** The row of the subject as the first sign-in created it. *)
Definition bob : User :=
  {| id := "u-7"; google_id := "g-7"; email := "bob@example.com"; name := "Bob";
     picture_url := "https://example.com/bob.png";
     created_at := 1700000000043; last_login_at := 1700000000043 |}.

End SignIn.

(** The row [setCache] writes for a request and a result at instant
    [t], [host] being the host of the locator. *)
Definition writtenEntry {R : Runtime} {U : Unicode} (r : AnalysisRequest)
           (res : AnalysisResult) (host : string) (t : Z) : CacheEntry :=
  {| url_hash := Some (urlHashOf r); content_hash := Some (contentHashOf r);
     last_modified :=
       match lastModified r with
       | Some l => if String.eqb l "" then WrittenAt t else Declared l
       | None => WrittenAt t
       end;
     full_url := url r; domain := host; entry_mode := Some (modeTag (mode r));
     result := JSON_stringify (CacheService.storedResult res);
     cache_created_at := t |}.

(* ------------------------------------------------------------------ *)
(** ** What the reply of a provider holds *)

(** The result made of the properties of the document [doc], for the
    provider [p], a text of [words] words and an analysis that took
    [elapsed] milliseconds. *)
Definition verdictOf (doc : Json) (p : AnalysisService.Provider) (words elapsed : Z)
  : AnalysisResult :=
  {| classification := Js.optProp "classification" (Some doc);
     confidenceLevel := Js.optProp "confidenceLevel" (Some doc);
     confidenceScore := Js.optProp "confidenceScore" (Some doc);
     keyIndicators :=
       if Js.truthy (Js.optProp "keyIndicators" (Some doc))
       then Js.optProp "keyIndicators" (Some doc)
       else Some (JArr []);
     reasoning := Js.optProp "reasoning" (Some doc);
     metadata := {| wordCount := Some (JInt words);
                    provider := Some (JStr (AnalysisService.providerTag p));
                    analysisTime := Some (JInt elapsed);
                    cacheCreatedAt := None |} |}.

(** The reply carries the document [doc]: it is a success whose body
    can be read and holds, where [textOf] looks for the completion, a
    text in which the part from the first opening brace to the last
    closing brace is the JSON text of [doc], which is not [null]. *)
Definition carries {R : Runtime} (textOf : Json -> option JsVal) (reply : FetchOutcome)
           (doc : Json) : Prop :=
  exists status body completion jsonText,
    reply = FetchResponds true status (Some body) /\
    textOf body = Some (Some (JStr completion)) /\
    JsString.matchBraces completion = Some jsonText /\
    JSON_parse jsonText = Some doc /\
    doc <> JNull.

(** The ways in which a reply carries no document. *)
Inductive Useless {R : Runtime} (textOf : Json -> option JsVal) : FetchOutcome -> Prop :=
| Rejected :
    (* the request fails: no connection, a timeout *)
    Useless textOf FetchRejects
| BadStatus status body :
    (* a status outside 200-299 *)
    Useless textOf (FetchResponds false status body)
| UnreadableBody status :
    (* the body is not a JSON text *)
    Useless textOf (FetchResponds true status None)
| NoCompletions status body :
    (* the body has no list of completions: reading it is a [TypeError] *)
    textOf body = None ->
    Useless textOf (FetchResponds true status (Some body))
| MissingText status body v :
    (* the completion is absent, [null], empty, zero or [false] *)
    textOf body = Some v -> Js.truthy v = false ->
    Useless textOf (FetchResponds true status (Some body))
| NotText status body j :
    (* the completion is not a string *)
    textOf body = Some (Some j) -> (forall completion, j <> JStr completion) ->
    Useless textOf (FetchResponds true status (Some body))
| NoBraces status body completion :
    (* the completion has no text between braces *)
    textOf body = Some (Some (JStr completion)) ->
    JsString.matchBraces completion = None ->
    Useless textOf (FetchResponds true status (Some body))
| NotJson status body completion jsonText :
    (* the text between the braces is not a JSON text *)
    textOf body = Some (Some (JStr completion)) ->
    JsString.matchBraces completion = Some jsonText ->
    JSON_parse jsonText = None ->
    Useless textOf (FetchResponds true status (Some body))
| NullDocument status body completion jsonText :
    (* the text between the braces denotes [null] *)
    textOf body = Some (Some (JStr completion)) ->
    JsString.matchBraces completion = Some jsonText ->
    JSON_parse jsonText = Some JNull ->
    Useless textOf (FetchResponds true status (Some body)).

(** Every value [m] returns satisfies [P]. *)
Definition Returns {A} (P : A -> Prop) (m : M A) : Prop :=
  forall w a, fst (m w) = Ok a -> P a.

(** A result that does not come from the cache. *)
Definition fresh (res : AnalysisResult) : Prop := cacheCreatedAt (metadata res) = None.

(** Time does not go backwards and the revocation records that are
    unexpired afterwards have been kept. *)
Definition retains (w w' : World) : Prop := clockAdvances w w' /\ keepsUnexpired w w'.

(* ------------------------------------------------------------------ *)
(** ** Worlds in which the store fails *)

Module Outage.
Import Scenario.

(** One hour after [world0], the store answers the next statement with
    an error. *)
Definition storeDown : World :=
  setScript {| dbFaults := [DbErrors]; replies := []; latencies := []; uuids := [] |}
            hourLater.

(** The identity [u-1] has used 48 of its requests of the day. *)
Definition nearlyExhausted : World :=
  setStore (setUsage [{| usage_user_id := "u-1"; daily_count := 48; usage_date := 19675 |}]
                     emptyStore)
           world0.

(** The store executes the read of the counter, answers the update with
    an error and executes the insertion. *)
Definition updateFails : World :=
  setScript {| dbFaults := [DbExecutes; DbErrors; DbExecutes]; replies := [];
               latencies := []; uuids := [] |}
            world0.

End Outage.

(* ------------------------------------------------------------------ *)
(** ** More worlds of the token and sign-in scenarios *)

Module Later.
Import Scenario SignIn.

(** [world0] two days later. *)
Definition twoDaysLater : World := setClock (clock world0 + 2 * DAY_MS) world0.

(** What the first sign-in of the scenario answers. *)
Definition firstAnswer : AuthResponse :=
  match AuthService.authenticateWithGoogle (R := ModelRuntime.runtime)
          "id-token" env0 firstVisit with
  | (Ok resp, _) => resp
  | (Throw _, _) => {| token := ""; user := bob; isNewUser := false |}
  end.

(** What the identity provider asserts about a token issued for
    another client. *)
Definition foreignAssertion : Json :=
  JObj [("aud", JStr "another-client"); ("sub", JStr "g-7")].

Definition otherAudience : World :=
  setScript {| dbFaults := []; replies := [FetchResponds true 200 (Some foreignAssertion)];
               latencies := []; uuids := [] |}
            world0.

End Later.

(* ------------------------------------------------------------------ *)
(** ** Worlds of the cache scenario *)

Module Stored.
Import Scenario Requests Orchestration.

#[local] Existing Instances ModelRuntime.runtime ModelRuntime.unicode ModelRuntime.deployment.

(** A request whose locator has no scheme. *)
Definition relative : AnalysisRequest :=
  {| url := "example.com/article"; text := "The quick brown fox jumps";
     userId := "u-1"; mode := quick; lastModified := None |}.

(** Two days after the call of [article] in [primaryDown]. *)
Definition twoDaysAfter : World :=
  let w := snd (AnalysisService.analyzeContent
                  article "u-1" primaryDown) in
  setClock (clock w + 2 * DAY_MS) w.

(** One hour after [verdictResult] was stored for [article] in
    [world0]. *)
Definition anHourAfterTheWrite : World :=
  let w := snd (CacheService.setCache
                  (CacheService.generateCacheKey article)
                  verdictResult article world0) in
  setClock (clock w + 3600000) w.

(** The table holds one row for [article], whose result column holds no
    JSON text. *)
Definition garbled : World :=
  setStore
    (setCacheEntries
       [{| url_hash := Some (urlHashOf article);
           content_hash := Some (contentHashOf article);
           last_modified := WrittenAt 0; full_url := url article;
           domain := "example.com"; entry_mode := Some "quick";
           result := "not json"; cache_created_at := clock world0 |}]
       emptyStore)
    world0.

End Stored.

(* ------------------------------------------------------------------ *)
(** ** A world in which the primary provider answers *)

Module Answers.
Import Scenario Orchestration.

#[local] Existing Instances ModelRuntime.runtime ModelRuntime.unicode ModelRuntime.deployment.

(** The body of an answer of the primary provider. *)
Definition openaiBody : Json :=
  JObj [("choices",
         JArr [JObj [("message",
                      JObj [("role", JStr "assistant");
                            ("content",
                             JStr (JSON_stringify
                                     verdict))])]])].

Definition primaryUp : World :=
  setScript {| dbFaults := []; replies := [FetchResponds true 200 (Some openaiBody)];
               latencies := [2; 3; 800; 4]%N; uuids := [] |}
            world0.

End Answers.

(* ------------------------------------------------------------------ *)
(** ** services/rate-limit.service.ts: usage statistics *)

Module RateLimitUsage.

(** What [getUserUsage] returns; [resetTime] is an instant. *)
Record UserUsage : Type := {
  currentCount : Z;
  limit : Z;
  resetTime : Z
}.

Section WithDeployment.

Context {D : Deployment}.

(** [getResetTime]: the next midnight of the host. *)
Definition getResetTime : M Z :=
  t <- now ;;
  ret (nextMidnight t).

(** [getUserUsage] *)
Definition getUserUsage (uid : string) : M UserUsage :=
  tryCatch
    (t <- now ;;
     let today := RateLimitService.isoDate t in
     usage <- dbFirst (SelectUsage uid today)
                (fun st => find (RateLimitService.usageOf uid today) (usage_analytics st)) ;;
     if error usage then
       reset <- getResetTime ;;
       ret {| currentCount := 0; limit := RateLimitService.DAILY_LIMIT; resetTime := reset |}
     else
       let count := match data usage with
                    | Some row => daily_count row
                    | None => 0
                    end in
       reset <- getResetTime ;;
       ret {| currentCount := count; limit := RateLimitService.DAILY_LIMIT;
              resetTime := reset |})
    (fun _ =>
       reset <- getResetTime ;;
       ret {| currentCount := 0; limit := RateLimitService.DAILY_LIMIT; resetTime := reset |}).

End WithDeployment.
End RateLimitUsage.

(* ------------------------------------------------------------------ *)
(** ** More of the platform: code units and locators *)

(** The functions of strings that count UTF-16 code units. *)
Class CodeUnits : Type := {
  (** [s.length] *)
  length16 : string -> nat;
  (** [s.substring(n)] *)
  substringFrom : nat -> string -> string
}.

(** The characters of the text are below 128: each is one byte and one
    code unit. *)
Fixpoint allAscii (s : string) : bool :=
  match s with
  | EmptyString => true
  | String c r => (nat_of_ascii c <? 128)%nat && allAscii r
  end.

Class CodeUnitsLaws (C : CodeUnits) : Prop := {
  (** cutting a prefix of characters below 128 off at its length *)
  substringFrom_prefix :
    forall p s, allAscii p = true -> substringFrom (String.length p) (p ++ s) = s
}.

(** [new URL(u)]: the parts of a locator the validation reads. *)
Record URL : Type := {
  protocol : string;
  hostname : string
}.

Class UrlApi : Type := {
  (** [new URL(u)], which can throw *)
  newURL : string -> option URL
}.

(* ------------------------------------------------------------------ *)
(** ** Requests and responses (utils/response.ts) *)

Module Http.

(** [s.includes(needle)] *)
Fixpoint includes (needle s : string) : bool :=
  String.prefix needle s ||
  match s with
  | EmptyString => false
  | String _ r => includes needle r
  end.

(** What the handlers read of a [Request]: its method, the path of its
    locator, its [Authorization] header ([None] when absent) and the
    outcome of [request.json()], which rejects with a message of the
    platform when the body is not a JSON text. *)
Record Request : Type := {
  method : string;
  pathname : string;
  authorization : option string;
  json : Result Json
}.

(** A [Response]: the status and the headers given to its constructor,
    and its body text ([None] for a [null] body). *)
Record Response : Type := {
  status : Z;
  headers : list (string * string);
  body : option string
}.

(** [await request.json()] *)
Definition readJson (request : Request) : M Json := fun w => (json request, w).

Section WithRuntime.

Context {R : Runtime}.

(** [new Response(JSON.stringify(data),
                  { status, headers: { 'Content-Type': 'application/json' } })] *)
Definition jsonResponse (data : Json) (code : Z) : Response :=
  {| status := code;
     headers := [("Content-Type", "application/json")];
     body := Some (JSON_stringify data) |}.

(** [createErrorResponse]; the object has a [message] when [details]
    is a non-empty string. *)
Definition createErrorResponse (message : string) (code : Z) (details : option string)
  : Response :=
  let errorResponse :=
    Js.object [("error", Some (JStr message));
               ("message", match details with
                           | Some d => if String.eqb d "" then None else Some (JStr d)
                           | None => None
                           end)] in
  jsonResponse errorResponse code.

(** [createSuccessResponse] *)
Definition createSuccessResponse (data : Json) (code : Z) : Response :=
  jsonResponse data code.

(** [createCorsResponse] *)
Definition createCorsResponse : Response :=
  {| status := 200;
     headers := [("Access-Control-Allow-Origin", "*");
                 ("Access-Control-Allow-Methods", "POST, GET, OPTIONS");
                 ("Access-Control-Allow-Headers", "Content-Type, Authorization")];
     body := None |}.

End WithRuntime.
End Http.

(* ------------------------------------------------------------------ *)
(** ** middleware/auth.middleware.ts: the other guards *)

Module AccessControl.
Section WithRuntime.

Context {R : Runtime}.

(** [createAuthErrorResponse] *)
Definition createAuthErrorResponse (message : string) : Http.Response :=
  let errorMessage :=
    if Http.includes "Authentication required" message then message
    else "Authentication required" in
  Http.createErrorResponse errorMessage 401 None.

(** [try { return m } catch (error) { h error }] where the promise of
    the call [m] is returned without [await]: the promise of the caller
    adopts it when the [try] block is left, so that its rejection does
    not pass through [catch]. *)
Definition tryReturn {A} (m : M A) (h : string -> M A) : M A := m.

(** [optionalAuth] *)
Definition optionalAuth (authorization : option string) (env : Env) : M (option Json) :=
  match authorization with
  | None => ret None
  | Some a =>
      if String.eqb a "" || negb (JsString.startsWith "Bearer " a) then ret None
      else
        tryReturn (user <- AuthService.extractUserFromToken a env ;; ret (Some user))
                  (fun _ => ret None)
  end.

(** [adminEmails.includes(v)] *)
Definition isAdminEmail (v : JsVal) : bool :=
  match v with
  | Some (JStr e) => String.eqb e "admin@example.com"
  | _ => false
  end.

(** [requireAdmin] *)
Definition requireAdmin (authorization : option string) (env : Env) : M Json :=
  user <- AuthMiddleware.requireAuth authorization env ;;
  userEmail <- orTypeError (Js.getProp "email" (Some user)) ;;
  if negb (isAdminEmail userEmail) then throw "Admin privileges required"
  else ret user.

(** [createAdminErrorResponse] *)
Definition createAdminErrorResponse : Http.Response :=
  Http.createErrorResponse "Admin privileges required" 403 None.

End WithRuntime.
End AccessControl.

(* ------------------------------------------------------------------ *)
(** ** services/validation.service.ts *)

Module ValidationService.

Record ValidationResult : Type := {
  valid : bool;
  error : option string
}.

Definition MAX_TEXT_LENGTH : Z := 10000.
Definition MIN_TEXT_LENGTH : Z := 10.
Definition MAX_URL_LENGTH : Z := 2048.

(** [{ valid: true }] and [{ valid: false, error }] *)
Definition accepted : ValidationResult := {| valid := true; error := None |}.

Definition rejected (msg : string) : ValidationResult :=
  {| valid := false; error := Some msg |}.

(** A value that passes the check [!v] is defined. *)
Definition present (v : JsVal) : option Json := if Js.truthy v then v else None.

Definition digitBetween (lo hi : nat) (c : ascii) : bool :=
  let n := nat_of_ascii c in ((48 + lo <=? n) && (n <=? 48 + hi))%nat.

(** [/^172\.(1[6-9]|2[0-9]|3[0-1])\./.test(h)] *)
Definition private172 (h : string) : bool :=
  String.prefix "172." h &&
  match JsString.dropChars 4 h with
  | String a (String b (String c _)) =>
      (Ascii.eqb a "1" && digitBetween 6 9 b || Ascii.eqb a "2" && digitBetween 0 9 b ||
       Ascii.eqb a "3" && digitBetween 0 1 b) && Ascii.eqb c "."
  | _ => false
  end.

Section WithPlatform.

Context {U : Unicode} {C : CodeUnits} {W : UrlApi}.

(** [s.length] *)
Definition len (s : string) : Z := Z.of_nat (length16 s).

(** [isPrivateOrLocalhost]; the ranges are tested on the host name as
    it is. *)
Definition isPrivateOrLocalhost (host : string) : bool :=
  let lowerHostname := toLowerCase host in
  if String.eqb lowerHostname "localhost" || JsString.startsWith "localhost." lowerHostname
  then true
  else
    String.prefix "10." host || private172 host || String.prefix "192.168." host ||
    String.prefix "127." host || String.prefix "169.254." host || String.eqb host "::1" ||
    String.prefix "fe80:" host || String.prefix "fc00:" host || String.prefix "fd00:" host.

(** [validateText]; the argument is whatever value the request holds. *)
Definition validateText (text : Json) : ValidationResult :=
  match text with
  | JStr t =>
      let trimmedText := trim t in
      if len trimmedText =? 0 then rejected "Text cannot be empty"
      else if len trimmedText <? MIN_TEXT_LENGTH then
        rejected ("Text must be at least " ++ Js.showZ MIN_TEXT_LENGTH ++ " characters long")
      else if MAX_TEXT_LENGTH <? len trimmedText then
        rejected ("Text cannot exceed " ++ Js.showZ MAX_TEXT_LENGTH ++ " characters")
      else if Z.of_nat (List.length (splitWhiteSpace trimmedText)) <? 3 then
        rejected "Text must contain at least 3 words"
      else accepted
  | _ => rejected "Text must be a string"
  end.

(** [validateMode]; the message names the two tags between double
    quotes. *)
Definition validateMode (m : Json) : ValidationResult :=
  match m with
  | JStr s =>
      if negb (String.eqb s "quick" || String.eqb s "deep") then
        let q := String (ascii_of_nat 34) EmptyString in
        rejected ("Mode must be either " ++ q ++ "quick" ++ q ++ " or " ++ q ++ "deep" ++ q)
      else accepted
  | _ => rejected "Mode must be a string"
  end.

(** [validateUrl] *)
Definition validateUrl (u : Json) : ValidationResult :=
  match u with
  | JStr s =>
      if len s =? 0 then rejected "URL cannot be empty"
      else if MAX_URL_LENGTH <? len s then
        rejected ("URL cannot exceed " ++ Js.showZ MAX_URL_LENGTH ++ " characters")
      else
        match newURL s with
        | None => rejected "Invalid URL format"
        | Some urlObj =>
            if negb (String.eqb (protocol urlObj) "http:" ||
                     String.eqb (protocol urlObj) "https:")
            then rejected "URL must use HTTP or HTTPS protocol"
            else if String.eqb (hostname urlObj) ""
            then rejected "URL must have a valid hostname"
            else if isPrivateOrLocalhost (hostname urlObj)
            then rejected "URL cannot be localhost or private IP address"
            else accepted
        end
  | _ => rejected "URL must be a string"
  end.

(** [validateAnalysisRequest]; [None] is the [TypeError] of a property
    access on [null]. *)
Definition validateAnalysisRequest (requestData : Json) : option ValidationResult :=
  match Js.getProp "text" (Some requestData) with
  | None => None
  | Some text =>
      match present text with
      | None => Some (rejected "Text content is required")
      | Some t =>
          match Js.getProp "url" (Some requestData) with
          | None => None
          | Some url =>
              match present url with
              | None => Some (rejected "URL is required")
              | Some u =>
                  match Js.getProp "mode" (Some requestData) with
                  | None => None
                  | Some mode =>
                      match present mode with
                      | None => Some (rejected "Analysis mode is required")
                      | Some m =>
                          let textValidation := validateText t in
                          if negb (valid textValidation) then Some textValidation
                          else
                            let urlValidation := validateUrl u in
                            if negb (valid urlValidation) then Some urlValidation
                            else
                              let modeValidation := validateMode m in
                              if negb (valid modeValidation) then Some modeValidation
                              else Some accepted
                      end
                  end
              end
          end
      end
  end.

End WithPlatform.
End ValidationService.

(* ------------------------------------------------------------------ *)
(** ** controllers/analysis.controller.ts *)

Module AnalysisController.
Section WithRuntime.

Context {R : Runtime} {U : Unicode} {D : Deployment} {C : CodeUnits} {W : UrlApi}.

(** The body of a request as the services read it once it has been
    validated: [text] and [url] are then strings and [mode] is one of
    the two tags.  The services do not read its [userId].  Its
    [lastModified] is declared a string; a value of another type is
    taken as absent (the services only write it to a column, which they
    never read). *)
Definition asRequest (requestData : Json) : AnalysisRequest :=
  {| url := Js.strOrEmpty (Js.optProp "url" (Some requestData));
     text := Js.strOrEmpty (Js.optProp "text" (Some requestData));
     userId := Js.strOrEmpty (Js.optProp "userId" (Some requestData));
     mode := match Js.optProp "mode" (Some requestData) with
             | Some (JStr m) => if String.eqb m "deep" then deep else quick
             | _ => quick
             end;
     lastModified := match Js.optProp "lastModified" (Some requestData) with
                     | Some (JStr l) => Some l
                     | _ => None
                     end |}.

(** The object [{ ...result, cacheStatus }] as [JSON.stringify] sees
    it. *)
Definition apiResponseJson (resp : ApiResponse) : Json :=
  let res := payload resp in
  Js.object
    [("classification", classification res);
     ("confidenceLevel", confidenceLevel res);
     ("confidenceScore", confidenceScore res);
     ("keyIndicators", keyIndicators res);
     ("reasoning", reasoning res);
     ("metadata",
      Some (Js.object
              [("wordCount", wordCount (metadata res));
               ("provider", provider (metadata res));
               ("analysisTime", analysisTime (metadata res));
               ("cacheCreatedAt", option_map JInt (cacheCreatedAt (metadata res)))]));
     ("cacheStatus", Some (JStr (match cacheStatus resp with
                                 | hit => "hit"
                                 | miss => "miss"
                                 end)))].

(** [handleAnalysisRequest]; the parameter [mode] of the route is not
    read.  The identity charged is the [userId] of the token, declared
    a string. *)
Definition handleAnalysisRequest (request : Http.Request) (env : Env) (mode : Mode)
  : M Http.Response :=
  tryCatch
    (user <- AuthMiddleware.requireAuth (Http.authorization request) env ;;
     requestData <- Http.readJson request ;;
     validation <- orTypeError (ValidationService.validateAnalysisRequest requestData) ;;
     if negb (ValidationService.valid validation) then
       ret (Http.createErrorResponse
              (match ValidationService.error validation with
               | Some e => if String.eqb e "" then "Invalid request" else e
               | None => "Invalid request"
               end)
              400 None)
     else
       uid <- orTypeError (Js.getProp "userId" (Some user)) ;;
       analysisResult <- AnalysisService.analyzeContent (asRequest requestData)
                           (Js.strOrEmpty uid) ;;
       ret (Http.jsonResponse (apiResponseJson analysisResult) 200))
    (fun message =>
       if Http.includes "Authentication" message
       then ret (AccessControl.createAuthErrorResponse message)
       else ret (Http.createErrorResponse "Analysis failed" 500 (Some message))).

End WithRuntime.
End AnalysisController.

(* ------------------------------------------------------------------ *)
(** ** controllers/auth.controller.ts *)

Module AuthController.
Section WithRuntime.

Context {R : Runtime} {C : CodeUnits}.

(** The object [safeResponse] of [handleGoogleSignIn]. *)
Definition safeResponse (authResponse : AuthResponse) : Json :=
  JObj [("token", JStr (token authResponse));
        ("user", JObj [("id", JStr (id (user authResponse)));
                       ("email", JStr (email (user authResponse)));
                       ("name", JStr (name (user authResponse)));
                       ("pictureUrl", JStr (picture_url (user authResponse)))]);
        ("isNewUser", JBool (isNewUser authResponse))].

(** [handleGoogleSignIn]; [idToken] is declared a string. *)
Definition handleGoogleSignIn (request : Http.Request) (env : Env) : M Http.Response :=
  tryCatch
    (requestData <- Http.readJson request ;;
     idToken <- orTypeError (Js.getProp "idToken" (Some requestData)) ;;
     if negb (Js.truthy idToken) then ret (Http.createErrorResponse "Missing ID token" 400 None)
     else
       authResponse <- AuthService.authenticateWithGoogle (Js.strOrEmpty idToken) env ;;
       ret (Http.jsonResponse (safeResponse authResponse) 200))
    (fun message => ret (Http.createErrorResponse "Authentication failed" 401 (Some message))).

(** [handleLogout].  The clean-up of expired records is started and
    not awaited: its statement is sent with the instant of the call,
    and is taken to settle before the response is returned, the script
    deciding whether it executes.  The [userId] of the token is
    declared a string. *)
Definition handleLogout (request : Http.Request) (env : Env) : M Http.Response :=
  tryCatch
    (match Http.authorization request with
     | None => ret (Http.createErrorResponse "Missing authorization header" 401 None)
     | Some authorization =>
         if String.eqb authorization ""
         then ret (Http.createErrorResponse "Missing authorization header" 401 None)
         else
           user <- AuthService.extractUserFromToken authorization env ;;
           uid <- orTypeError (Js.getProp "userId" (Some user)) ;;
           AuthService.addTokenToBlacklist (substringFrom 7 authorization)
             (Js.strOrEmpty uid) ;;;
           AuthService.cleanupExpiredTokens ;;;
           ret (Http.jsonResponse (JObj [("message", JStr "Successfully logged out")]) 200)
     end)
    (fun message => ret (Http.createErrorResponse "Logout failed" 401 (Some message))).

(** [handleVerifyToken] *)
Definition handleVerifyToken (request : Http.Request) (env : Env) : M Http.Response :=
  tryCatch
    (match Http.authorization request with
     | None => ret (Http.createErrorResponse "Missing authorization header" 401 None)
     | Some authorization =>
         if String.eqb authorization ""
         then ret (Http.createErrorResponse "Missing authorization header" 401 None)
         else
           user <- AuthService.extractUserFromToken authorization env ;;
           uid <- orTypeError (Js.getProp "userId" (Some user)) ;;
           userEmail <- orTypeError (Js.getProp "email" (Some user)) ;;
           userName <- orTypeError (Js.getProp "name" (Some user)) ;;
           ret (Http.jsonResponse
                  (Js.object [("valid", Some (JBool true));
                              ("user", Some (Js.object [("userId", uid);
                                                        ("email", userEmail);
                                                        ("name", userName)]))])
                  200)
     end)
    (fun message =>
       ret (Http.jsonResponse
              (JObj [("valid", JBool false); ("error", JStr "Invalid token");
                     ("message", JStr message)])
              401)).

End WithRuntime.
End AuthController.

(* ------------------------------------------------------------------ *)
(** ** routes.ts and index.ts *)

Module Routes.
Section WithRuntime.

Context {R : Runtime} {U : Unicode} {D : Deployment} {C : CodeUnits} {W : UrlApi}.

Definition routed (request : Http.Request) (path verb : string) : bool :=
  String.eqb (Http.pathname request) path && String.eqb (Http.method request) verb.

(** [handleRoutes] *)
Definition handleRoutes (request : Http.Request) (env : Env) : M Http.Response :=
  if String.eqb (Http.method request) "OPTIONS" then ret Http.createCorsResponse
  else
    tryCatch
      (if routed request "/google/sign_in" "POST"
       then AuthController.handleGoogleSignIn request env
       else if routed request "/auth/logout" "POST"
       then AuthController.handleLogout request env
       else if routed request "/auth/verify" "POST"
       then AuthController.handleVerifyToken request env
       else if routed request "/analyze-quick" "POST"
       then AnalysisController.handleAnalysisRequest request env quick
       else if routed request "/analyze-deep" "POST"
       then AnalysisController.handleAnalysisRequest request env deep
       else if routed request "/" "POST"
       then AnalysisController.handleAnalysisRequest request env quick
       else ret {| Http.status := 404; Http.headers := []; Http.body := Some "Not found" |})
      (fun message =>
         ret (Http.createErrorResponse "Internal server error" 500 (Some message))).

(** The [fetch] handler of the worker (index.ts). *)
Definition fetchHandler (request : Http.Request) (env : Env) : M Http.Response :=
  tryCatch (handleRoutes request env)
    (fun message =>
       ret (Http.jsonResponse
              (JObj [("error", JStr "Internal server error"); ("message", JStr message)])
              500)).

End WithRuntime.
End Routes.

(* ------------------------------------------------------------------ *)
(** ** An executable model of the code units and of the locator parser *)

Module ModelUrl.

(** The code units of a text of the ASCII range are its characters. *)
Definition codeUnits : CodeUnits := {|
  length16 := String.length;
  substringFrom := JsString.dropChars
|}.

Definition parsed (scheme rest : string) : option URL :=
  Some {| protocol := scheme; hostname := ModelRuntime.upToSlash rest |}.

(** The locators of three schemes are parsed. *)
Definition parseUrl (u : string) : option URL :=
  if String.prefix "https://" u then parsed "https:" (JsString.dropChars 8 u)
  else if String.prefix "http://" u then parsed "http:" (JsString.dropChars 7 u)
  else if String.prefix "ftp://" u then parsed "ftp:" (JsString.dropChars 6 u)
  else None.

Definition api : UrlApi := {| newURL := parseUrl |}.

End ModelUrl.

(* ------------------------------------------------------------------ *)
(** ** Requests of the HTTP scenario *)

Module Bodies.

(** The body of a request for the classification of an article. *)
Definition articleBody : Json :=
  JObj [("url", JStr "https://example.com/Article");
        ("text", JStr "The quick brown fox jumps");
        ("userId", JStr "someone-else");
        ("mode", JStr "quick");
        ("lastModified", JStr "2024-01-15T10:30:00Z")].

(** A body whose locator points to the local network. *)
Definition localBody : Json :=
  JObj [("url", JStr "http://192.168.1.10/admin");
        ("text", JStr "The quick brown fox jumps");
        ("mode", JStr "quick")].

(** A body whose text is too short. *)
Definition shortBody : Json :=
  JObj [("url", JStr "https://example.com/Article"); ("text", JStr "Too short");
        ("mode", JStr "deep")].

End Bodies.

(* ------------------------------------------------------------------ *)
(** ** Requests and worlds of the HTTP scenario *)

Module Visits.
Import Scenario.

#[local] Existing Instances ModelRuntime.runtime ModelRuntime.unicode ModelRuntime.deployment.
#[local] Existing Instances ModelUrl.codeUnits ModelUrl.api.

(** A request for a classification without an [Authorization] header. *)
Definition anonymous : Http.Request :=
  {| Http.method := "POST"; Http.pathname := "/analyze-quick";
     Http.authorization := None; Http.json := Ok Bodies.articleBody |}.

(** A request of the bearer of the session token for a classification. *)
Definition asking (requestData : Json) : Http.Request :=
  {| Http.method := "POST"; Http.pathname := "/analyze-quick";
     Http.authorization := Some ("Bearer " ++ sessionToken);
     Http.json := Ok requestData |}.

(** [hourLater], the identity [u-1] having used its fifty requests of
    the day. *)
Definition exhaustedLater : World :=
  setStore (setUsage [{| usage_user_id := "u-1"; daily_count := 50; usage_date := 19675 |}]
                     emptyStore)
           hourLater.

(** A logout of the bearer of the session token. *)
Definition goodbye : Http.Request :=
  {| Http.method := "POST"; Http.pathname := "/auth/logout";
     Http.authorization := Some ("Bearer " ++ sessionToken);
     Http.json := Throw "Unexpected end of JSON input" |}.

(** Ten minutes after the logout [goodbye] at [hourLater]. *)
Definition afterGoodbye : World :=
  let w := snd (AuthController.handleLogout
                  goodbye env0 hourLater) in
  setClock (clock w + 600000) w.

(** A logout whose header is the bare session token. *)
Definition bareGoodbye : Http.Request :=
  {| Http.method := "POST"; Http.pathname := "/auth/logout";
     Http.authorization := Some sessionToken;
     Http.json := Throw "Unexpected end of JSON input" |}.

End Visits.

(* ================================================================== *)
(** * Properties *)

(* ------------------------------------------------------------------ *)
(** ** Facts about the string primitives *)

Module JsStringFacts.
Import JsString.

Lemma lastChar_app_cons (a : string) (c : ascii) (b : string) :
  lastChar (a ++ String c b) = lastChar (String c b).
Proof.
  induction a as [|d a IH]; [reflexivity|].
  change (lastChar (String d (a ++ String c b)) = lastChar (String c b)).
  destruct (a ++ String c b) eqn:E.
  - destruct a; discriminate.
  - rewrite <- IH. reflexivity.
Qed.

Lemma prefix_app (p s : string) : String.prefix p (p ++ s) = true.
Proof.
  induction p as [|c p IH]; simpl; [now destruct s|].
  destruct (ascii_dec c c); [exact IH | congruence].
Qed.

Lemma dropChars_app (p s : string) : dropChars (String.length p) (p ++ s) = s.
Proof. induction p as [|c p IH]; simpl; [reflexivity | exact IH]. Qed.

(** Removing the scheme prefix from [prefix ++ token] yields [token]. *)
Lemma removeFirst_prefix (p s : string) : removeFirst p (p ++ s) = s.
Proof.
  assert (U : forall t, removeFirst p t =
                        if String.prefix p t then dropChars (String.length p) t
                        else match t with
                             | EmptyString => EmptyString
                             | String c r => String c (removeFirst p r)
                             end)
    by (intros [|c r]; reflexivity).
  rewrite U, prefix_app. apply dropChars_app.
Qed.

Lemma split_no_sep (sep : ascii) (s : string) :
  contains sep s = false -> split sep s = [s].
Proof.
  induction s as [|c s IH]; simpl; [reflexivity|].
  intros H; apply orb_false_iff in H as [Hc Hs]. now rewrite Hc, IH.
Qed.

Lemma split_app_sep (sep : ascii) (a b : string) :
  contains sep a = false -> split sep (a ++ String sep b) = a :: split sep b.
Proof.
  induction a as [|c a IH]; simpl.
  - intros _. now rewrite Ascii.eqb_refl.
  - intros H; apply orb_false_iff in H as [Hc Ha]. now rewrite Hc, IH.
Qed.

(** Three separator-free parts joined by the separator split back into
    the three parts. *)
Lemma split_join3 (sep : ascii) (a b c : string) :
  contains sep a = false -> contains sep b = false -> contains sep c = false ->
  split sep (a ++ String sep (b ++ String sep c)) = [a; b; c].
Proof.
  intros Ha Hb Hc.
  now rewrite split_app_sep, split_app_sep, split_no_sep.
Qed.

End JsStringFacts.

(* ------------------------------------------------------------------ *)
(** ** Facts about the text of the ASCII range *)

Module AsciiTextFacts.
Import AsciiText.

Ltac by_cases_on_char c :=
  destruct c as [[] [] [] [] [] [] [] []]; reflexivity.

Lemma isSpace_lowerChar (c : ascii) : isSpace (lowerChar c) = isSpace c.
Proof. by_cases_on_char c. Qed.

Lemma lowerChar_toggleChar (c : ascii) : lowerChar (toggleChar c) = lowerChar c.
Proof. by_cases_on_char c. Qed.

Lemma toLowerCase_app (a b : string) :
  toLowerCase (a ++ b) = toLowerCase a ++ toLowerCase b.
Proof. induction a as [|c a IH]; simpl; [reflexivity | now rewrite IH]. Qed.

Lemma toLowerCase_recase (mask : list bool) (s : string) :
  toLowerCase (recase mask s) = toLowerCase s.
Proof.
  revert mask; induction s as [|c s IH]; intros [|b mask]; simpl; try reflexivity.
  rewrite IH. destruct b; [now rewrite lowerChar_toggleChar | reflexivity].
Qed.

Lemma trimStart_toLowerCase (s : string) :
  trimStart (toLowerCase s) = toLowerCase (trimStart s).
Proof.
  induction s as [|c s IH]; simpl; [reflexivity|].
  rewrite isSpace_lowerChar. destruct (isSpace c); [exact IH | reflexivity].
Qed.

Lemma trimEnd_toLowerCase (s : string) :
  trimEnd (toLowerCase s) = toLowerCase (trimEnd s).
Proof.
  induction s as [|c s IH]; simpl; [reflexivity|].
  rewrite IH, isSpace_lowerChar.
  destruct (trimEnd s); simpl; [destruct (isSpace c)|]; reflexivity.
Qed.

Lemma trim_toLowerCase (s : string) : trim (toLowerCase s) = toLowerCase (trim s).
Proof. unfold trim. now rewrite trimStart_toLowerCase, trimEnd_toLowerCase. Qed.

Lemma trimStart_pad (pre s : string) :
  allSpace pre = true -> trimStart (pre ++ s) = trimStart s.
Proof.
  induction pre as [|c pre IH]; simpl; [reflexivity|].
  intros H; apply andb_true_iff in H as [Hc Hp]. now rewrite Hc, IH.
Qed.

Lemma trimEnd_allSpace (s : string) : allSpace s = true -> trimEnd s = "".
Proof.
  induction s as [|c s IH]; simpl; [reflexivity|].
  intros H; apply andb_true_iff in H as [Hc Hs]. now rewrite IH, Hc.
Qed.

Lemma trimEnd_pad (s post : string) :
  allSpace post = true -> trimEnd (s ++ post) = trimEnd s.
Proof.
  intros H. induction s as [|c s IH]; simpl.
  - now apply trimEnd_allSpace.
  - now rewrite IH.
Qed.

(** Trimming the end of a string commutes with dropping one leading
    white space. *)
Lemma trimStart_trimEnd (s : string) : trimStart (trimEnd s) = trimEnd (trimStart s).
Proof.
  induction s as [|c s IH]; simpl; [reflexivity|].
  destruct (isSpace c) eqn:Hc.
  - rewrite <- IH. destruct (trimEnd s); simpl; now rewrite ?Hc.
  - destruct (trimEnd s) eqn:E; simpl; now rewrite Hc, ?E.
Qed.

Lemma trim_pad (pre s post : string) :
  allSpace pre = true -> allSpace post = true -> trim (pre ++ s ++ post) = trim s.
Proof.
  intros Hpre Hpost. unfold trim.
  rewrite trimStart_pad by assumption.
  rewrite <- !trimStart_trimEnd. now rewrite trimEnd_pad.
Qed.

Lemma trimEnd_blank (s : string) : trimEnd s = "" -> allSpace s = true.
Proof.
  induction s as [|c s IH]; simpl; [reflexivity|].
  destruct (trimEnd s); [|discriminate].
  destruct (isSpace c); [intros _; now apply IH | discriminate].
Qed.

Lemma allSpace_trimStart (s : string) : allSpace (trimStart s) = true -> allSpace s = true.
Proof.
  induction s as [|c s IH]; simpl; [reflexivity|].
  destruct (isSpace c) eqn:Hc; [exact IH | simpl; now rewrite Hc].
Qed.

(** A text of which [trim] leaves nothing consists of white space. *)
Lemma trim_blank (s : string) : trim s = "" -> allSpace s = true.
Proof. intros H. now apply allSpace_trimStart, trimEnd_blank. Qed.

End AsciiTextFacts.

(* ------------------------------------------------------------------ *)
(** ** Facts about the primitives of the monad *)

Section MonadFacts.

Lemma dbFirst_eq {A} (s : Statement) (query : Store -> option A) (w : World) :
  dbFirst s query w =
  match headFault w with
  | DbExecutes => (Ok {| data := query (store w); error := false |}, afterDb s w)
  | DbErrors => (Ok {| data := None; error := true |}, afterDb s w)
  | DbRejects => (Throw "store request failed", afterDb s w)
  end.
Proof.
  unfold dbFirst, afterDb, headFault, bind, nextFault, roundTrip, readStore, ret, throw.
  simpl. destruct (dbFaults (script w)) as [|[] ?]; reflexivity.
Qed.

Lemma dbRun_eq (s : Statement) (change : Store -> Store) (w : World) :
  dbRun s change w =
  match headFault w with
  | DbExecutes => (Ok {| data := None; error := false |},
                   setStore (change (store w)) (afterDb s w))
  | DbErrors => (Ok {| data := None; error := true |}, afterDb s w)
  | DbRejects => (Throw "store request failed", afterDb s w)
  end.
Proof.
  unfold dbRun, afterDb, headFault, bind, nextFault, roundTrip, readStore, writeStore,
    ret, throw.
  simpl. destruct (dbFaults (script w)) as [|[] ?]; reflexivity.
Qed.

Lemma fetch_eq (target : Endpoint) (w : World) :
  fetch target w =
  match headReply w with
  | FetchRejects => (Throw "fetch failed", afterFetch target w)
  | r => (Ok r, afterFetch target w)
  end.
Proof.
  unfold fetch, afterFetch, headReply, bind, nextReply, roundTrip, ret, throw.
  simpl. destruct (replies (script w)) as [|[] ?]; reflexivity.
Qed.

Lemma store_afterDb s w : store (afterDb s w) = store w.
Proof. reflexivity. Qed.

Lemma trace_afterDb s w : trace (afterDb s w) = (trace w ++ [EvDb s])%list.
Proof. reflexivity. Qed.

Lemma dbFaults_afterDb s w :
  dbFaults (script (afterDb s w)) = tl (dbFaults (script w)).
Proof. reflexivity. Qed.

Lemma replies_afterDb s w : replies (script (afterDb s w)) = replies (script w).
Proof. reflexivity. Qed.

Lemma clock_afterDb_le s w : clock w <= clock (afterDb s w).
Proof. simpl. lia. Qed.

Lemma store_afterFetch t w : store (afterFetch t w) = store w.
Proof. reflexivity. Qed.

Lemma trace_afterFetch t w : trace (afterFetch t w) = (trace w ++ [EvFetch t])%list.
Proof. reflexivity. Qed.

Lemma dbFaults_afterFetch t w :
  dbFaults (script (afterFetch t w)) = dbFaults (script w).
Proof. reflexivity. Qed.

Lemma headFault_nil w : dbFaults (script w) = [] -> headFault w = DbExecutes.
Proof. unfold headFault. now intros ->. Qed.

Lemma fetches_app (a b : list Event) : fetches (a ++ b)%list = (fetches a ++ fetches b)%list.
Proof.
  induction a as [|[s|t] a IH]; simpl; [reflexivity | exact IH | now rewrite IH].
Qed.

End MonadFacts.

(* ------------------------------------------------------------------ *)
(** ** Token service: revocation *)

Module AuthServiceFacts.
Section WithRuntime.

Context {R : Runtime}.
Import AuthService.

Lemma addTokenToBlacklist_eq (tok uid : string) (w : World) :
  addTokenToBlacklist tok uid w =
  let row := revocation tok uid (clock w) in
  match headFault w with
  | DbExecutes =>
      (Ok tt, setStore (setBlacklist (token_blacklist (store w) ++ [row]) (store w))
                       (afterDb (InsertBlacklist row) w))
  | DbErrors => (Throw "Failed to blacklist token", afterDb (InsertBlacklist row) w)
  | DbRejects => (Throw "store request failed", afterDb (InsertBlacklist row) w)
  end.
Proof.
  unfold addTokenToBlacklist, bind, now, revocation. simpl.
  rewrite dbRun_eq. destruct (headFault w); reflexivity.
Qed.

(** A successful revocation appended its row to the table. *)
Lemma addTokenToBlacklist_ok (tok uid : string) (w w1 : World) :
  addTokenToBlacklist tok uid w = (Ok tt, w1) ->
  token_blacklist (store w1) =
  (token_blacklist (store w) ++ [revocation tok uid (clock w)])%list.
Proof.
  rewrite addTokenToBlacklist_eq. cbv zeta.
  destruct (headFault w); intros H; inversion H; reflexivity.
Qed.

Lemma checkTokenBlacklist_eq (tok : string) (w : World) :
  checkTokenBlacklist tok w =
  let s := SelectBlacklist (sha256hex tok) (clock w) in
  match headFault w with
  | DbExecutes =>
      match find (blacklisted (sha256hex tok) (clock w)) (token_blacklist (store w)) with
      | Some _ => (Throw "Token is blacklisted", afterDb s w)
      | None => (Ok tt, afterDb s w)
      end
  | DbErrors => (Throw "Database error", afterDb s w)
  | DbRejects => (Throw "store request failed", afterDb s w)
  end.
Proof.
  unfold checkTokenBlacklist, bind, now. simpl.
  rewrite dbFirst_eq. destruct (headFault w); simpl; try reflexivity.
  destruct (find _ _); reflexivity.
Qed.

(** With an unexpired record of the token in the table, the blacklist
    check throws, whatever the store answers. *)
Lemma checkTokenBlacklist_revoked (tok : string) (e : TokenBlacklistEntry) (w : World) :
  In e (token_blacklist (store w)) ->
  token_hash e = sha256hex tok ->
  clock w < expires_at e ->
  exists msg, fst (checkTokenBlacklist tok w) = Throw msg.
Proof.
  intros Hin Hhash Hexp. rewrite checkTokenBlacklist_eq. cbv zeta.
  destruct (headFault w); [|eexists; reflexivity ..].
  destruct (find _ _) eqn:F; [eexists; reflexivity|].
  exfalso. apply (find_none _ _ F) in Hin.
  unfold blacklisted in Hin. rewrite Hhash, String.eqb_refl in Hin. simpl in Hin.
  apply Z.ltb_ge in Hin. lia.
Qed.

(** [extractUserFromToken] in terms of its two checks. *)
Lemma extractUserFromToken_eq (authorization : string) (env : Env) (w : World) :
  extractUserFromToken authorization env w =
  let tok := JsString.removeFirst "Bearer " authorization in
  match checkTokenBlacklist tok w with
  | (Ok _, w') => (fst (verifyJWT tok (JWT_SECRET env) w), w')
  | (Throw _, w') => (Throw "Authentication failed: Invalid token", w')
  end.
Proof.
  unfold extractUserFromToken, bind, tryCatch, unawaited, adopt, ret, throw. cbv zeta.
  destruct (checkTokenBlacklist _ w) as [[[]|msg] w']; reflexivity.
Qed.

(** Expired records are the only ones [cleanupExpiredTokens] deletes. *)
Lemma cleanupExpiredTokens_keepsUnexpired (w : World) :
  keepsUnexpired w (snd (cleanupExpiredTokens w)).
Proof.
  unfold cleanupExpiredTokens, tryCatch, bind, now. simpl.
  rewrite dbRun_eq. intros e Hin Hexp.
  destruct (headFault w); simpl in *; try assumption.
  apply filter_In. split; [assumption|].
  apply negb_true_iff, Z.ltb_ge.
  pose proof (clock_afterDb_le
                (DeleteExpiredBlacklist (clock w)) w) as Hle.
  simpl in Hle. lia.
Qed.

End WithRuntime.
End AuthServiceFacts.

(* ------------------------------------------------------------------ *)
(** ** The model of the platform satisfies the laws *)

Module ModelRuntimeFacts.
Import ModelRuntime.

Lemma Json_nested_ind (P : Json -> Prop) :
  P JNull -> (forall b, P (JBool b)) -> (forall q, P (JNum q)) ->
  (forall s, P (JStr s)) ->
  (forall items, Forall P items -> P (JArr items)) ->
  (forall fields, Forall (fun kv => P (snd kv)) fields -> P (JObj fields)) ->
  forall j, P j.
Proof.
  intros Hnull Hbool Hnum Hstr Harr Hobj. fix IH 1.
  intros [| b | q | s | items | fields].
  - exact Hnull.
  - apply Hbool.
  - apply Hnum.
  - apply Hstr.
  - apply Harr. revert items. fix IHl 1.
    intros [|x items]; constructor; [apply IH | apply IHl].
  - apply Hobj. revert fields. fix IHl 1.
    intros [|[k v] fields]; constructor; [apply IH | apply IHl].
Qed.

Lemma ofTree_toTree (j : Json) : ofTree (toTree j) = j.
Proof.
  induction j as [| b | [n d] | s | items IH | fields IH] using Json_nested_ind;
    try reflexivity.
  - simpl. f_equal. rewrite map_map.
    induction IH as [|x l Hx _ IHl]; simpl; [reflexivity | now rewrite Hx, IHl].
  - simpl. f_equal. rewrite map_map.
    induction IH as [|[k v] l Hx _ IHl]; simpl; [reflexivity|].
    simpl in Hx. now rewrite Hx, IHl.
Qed.

Lemma positiveOfBits_bitsOfPositive (p : positive) :
  positiveOfBits (bitsOfPositive p) = Some p.
Proof. induction p as [p IH | p IH |]; simpl; now rewrite ?IH. Qed.

Lemma parse_stringify (j : Json) : parse (stringify j) = Some j.
Proof.
  unfold parse, stringify. rewrite Ascii.eqb_refl.
  rewrite positiveOfBits_bitsOfPositive, stdpp.countable.decode_encode.
  now rewrite ofTree_toTree.
Qed.

Lemma hexChar_digit (c : ascii) :
  hexDigit (hexChar (N_of_ascii c / 16)) = true /\
  hexDigit (hexChar (N_of_ascii c mod 16)) = true.
Proof. destruct c as [[] [] [] [] [] [] [] []]; split; reflexivity. Qed.

Lemma hexChar_no_dot (c : ascii) :
  Ascii.eqb (hexChar (N_of_ascii c / 16)) "." = false /\
  Ascii.eqb (hexChar (N_of_ascii c mod 16)) "." = false.
Proof. destruct c as [[] [] [] [] [] [] [] []]; split; reflexivity. Qed.

Lemma hexValue_hexChar (c : ascii) :
  match hexValue (hexChar (N_of_ascii c / 16)), hexValue (hexChar (N_of_ascii c mod 16)) with
  | Some x, Some y => ascii_of_N (16 * x + y) = c
  | _, _ => False
  end.
Proof. destruct c as [[] [] [] [] [] [] [] []]; reflexivity. Qed.

Lemma allHex_hexEncode (s : string) : allHex (hexEncode s) = true.
Proof.
  induction s as [|c s IH]; [reflexivity|].
  destruct (hexChar_digit c) as [H1 H2].
  cbn [hexEncode allHex]. now rewrite H1, H2, IH.
Qed.

Lemma hexEncode_no_dot (s : string) : JsString.contains "." (hexEncode s) = false.
Proof.
  induction s as [|c s IH]; [reflexivity|].
  destruct (hexChar_no_dot c) as [H1 H2].
  cbn [hexEncode JsString.contains]. now rewrite H1, H2, IH.
Qed.

Lemma hexDecode_hexEncode (s : string) : hexDecode (hexEncode s) = Some s.
Proof.
  induction s as [|c s IH]; [reflexivity|].
  cbn [hexEncode hexDecode]. rewrite IH.
  pose proof (hexValue_hexChar c) as H.
  destruct (hexValue (hexChar (N_of_ascii c / 16))); [|contradiction].
  destruct (hexValue (hexChar (N_of_ascii c mod 16))); [|contradiction].
  now rewrite H.
Qed.

Lemma laws : RuntimeLaws runtime.
Proof.
  constructor; simpl.
  - intros s. apply allHex_hexEncode.
  - apply hexEncode_no_dot.
  - apply hexDecode_hexEncode.
  - apply parse_stringify.
Qed.

Lemma unicodeLaws : UnicodeLaws unicode.
Proof.
  constructor; simpl.
  - intros pre s post Hpre Hpost.
    apply AsciiTextFacts.trim_pad; now apply AsciiTextFacts.trim_blank.
  - intros s. symmetry. apply AsciiTextFacts.trim_toLowerCase.
Qed.

Lemma storesDocuments : StoresDocuments runtime deployment.
Proof. constructor. exact parse_stringify. Qed.

(** In UTC the delay until the next midnight is a number of seconds
    between 1 and 86400. *)
Lemma retryAfter_bounds_utc (t : Z) :
  0 < RateLimitService.ceilSeconds (utcMidnightAfter t - t) <= 86400.
Proof.
  unfold RateLimitService.ceilSeconds, utcMidnightAfter, DAY_MS.
  change (24 * 60 * 60 * 1000) with 86400000.
  pose proof (Z.div_mod t 86400000 ltac:(lia)) as D.
  pose proof (Z.mod_pos_bound t 86400000 ltac:(lia)) as B.
  set (q := t / 86400000) in *. set (r := t mod 86400000) in *.
  assert (E : (q + 1) * 86400000 - t = 86400000 - r) by lia.
  rewrite E.
  pose proof (Z.div_mod (- (86400000 - r)) 1000 ltac:(lia)) as D2.
  pose proof (Z.mod_pos_bound (- (86400000 - r)) 1000 ltac:(lia)) as B2.
  lia.
Qed.

End ModelRuntimeFacts.

(* ------------------------------------------------------------------ *)
(** ** Token service: the claims on revocation and on failures *)

Module TokenServiceClaims.
Section WithRuntime.

Context {R : Runtime}.
Import AuthService AuthServiceFacts.


(** C9 (as the code has it). A successful [addTokenToBlacklist] at
    instant [t] appends one revocation record, for the hash of the
    token and the given user, whose expiry is [t] plus 24 hours; the
    expiry is not read from the token. *)
Theorem revocation_expires_a_day_after_revocation
        (tok uid : string) (w w1 : World) :
  addTokenToBlacklist tok uid w = (Ok tt, w1) ->
  exists row,
    token_blacklist (store w1) = (token_blacklist (store w) ++ [row])%list /\
    token_hash row = sha256hex tok /\
    blacklist_user_id row = uid /\
    expires_at row = clock w + 24 * 60 * 60 * 1000.
Proof.
  intros H. rewrite addTokenToBlacklist_eq in H. cbv zeta in H.
  destruct (headFault w); inversion H; subst; clear H.
  exists (revocation tok uid (clock w)). repeat split.
Qed.

End WithRuntime.
End TokenServiceClaims.

Module TokenServiceExamples.
Import Scenario.


Lemma revocation_expires_a_day_after_revocation_witness :
  exists row,
    token_blacklist (store loggedOut) = (token_blacklist (store hourLater) ++ [row])%list /\
    token_hash row = sha256hex (Runtime := ModelRuntime.runtime) sessionToken /\
    blacklist_user_id row = id alice /\
    expires_at row = clock hourLater + 24 * 60 * 60 * 1000.
Proof.
  apply (TokenServiceClaims.revocation_expires_a_day_after_revocation
           (R := ModelRuntime.runtime) sessionToken (id alice) hourLater loggedOut).
  vm_compute. reflexivity.
Defined.

(** C9 as stated fails: the token of the scenario carries the expiry
    1700086400 s, the record written at its revocation one hour after
    issuance expires at 1700090000000 ms. *)
Lemma revocation_expiry_differs_from_token_expiry :
  fst (AuthService.verifyJWT (R := ModelRuntime.runtime)
         sessionToken (JWT_SECRET env0) hourLater) =
  Ok (AuthService.jwtPayload alice 1700000000 1700086400) /\
  map expires_at (token_blacklist (store loggedOut)) = [1700090000000] /\
  1700090000000 <> 1700086400 * 1000.
Proof.
  split; [vm_compute; reflexivity|].
  split; [vm_compute; reflexivity|].
  lia.
Qed.

End TokenServiceExamples.

(* ------------------------------------------------------------------ *)
(** ** Authentication middleware: what a failure looks like *)

Module AuthMiddlewareClaims.
Section WithRuntime.

Context {R : Runtime}.
Import AuthMiddleware.

(** C3 (as the code has it). Every failure of [requireAuth] is an error
    whose message is one of three: a missing header and a header without
    the scheme prefix have a message of their own, and every failure of
    [extractUserFromToken], whatever its cause and message, is surfaced
    as the single message ["Authentication required: Invalid token"]. *)
Theorem requireAuth_failures (authorization : option string) (env : Env) (w : World) :
  (forall msg,
      fst (requireAuth authorization env w) = Throw msg ->
      (msg = "Authentication required: Missing authorization header" /\
       (authorization = None \/ authorization = Some "")) \/
      (msg = "Authentication required: Invalid authorization format" /\
       exists a, authorization = Some a /\ JsString.startsWith "Bearer " a = false) \/
      (msg = "Authentication required: Invalid token" /\
       exists a e, authorization = Some a /\ JsString.startsWith "Bearer " a = true /\
                   fst (AuthService.extractUserFromToken a env w) = Throw e)) /\
  (forall a e,
      authorization = Some a ->
      JsString.startsWith "Bearer " a = true ->
      fst (AuthService.extractUserFromToken a env w) = Throw e ->
      fst (requireAuth authorization env w) = Throw "Authentication required: Invalid token").
Proof.
  split.
  - intros msg H. unfold requireAuth in H.
    destruct authorization as [a|]; [|inversion H; auto].
    destruct (String.eqb_spec a "") as [E|E]; [inversion H; subst; auto|].
    destruct (JsString.startsWith "Bearer " a) eqn:P; simpl in H.
    + right; right. unfold tryCatch in H.
      destruct (AuthService.extractUserFromToken a env w) as [[p|e] w'] eqn:X;
        simpl in H; [discriminate|].
      inversion H. split; [reflexivity|]. exists a, e. now rewrite X.
    + right; left. inversion H. split; [reflexivity|]. now exists a.
  - intros a e -> P X. unfold requireAuth.
    destruct (String.eqb_spec a "") as [E|E]; [subst; discriminate|].
    rewrite P. simpl. unfold tryCatch.
    destruct (AuthService.extractUserFromToken a env w) as [[p|e'] w'];
      simpl in *; [discriminate | reflexivity].
Qed.

End WithRuntime.
End AuthMiddlewareClaims.

Module AuthMiddlewareExamples.
Import Scenario.

(** A malformed token behind the scheme prefix: [verifyJWT] rejects it
    with its own message, [requireAuth] reports the collapsed one. *)
Lemma requireAuth_failures_witness :
  fst (AuthService.extractUserFromToken (R := ModelRuntime.runtime)
         "Bearer not-a-token" env0 world0) = Throw "Invalid token format" /\
  fst (AuthMiddleware.requireAuth (R := ModelRuntime.runtime)
         (Some "Bearer not-a-token") env0 world0) =
  Throw "Authentication required: Invalid token".
Proof.
  assert (X : fst (AuthService.extractUserFromToken (R := ModelRuntime.runtime)
                     "Bearer not-a-token" env0 world0) = Throw "Invalid token format")
    by (vm_compute; reflexivity).
  split; [exact X|].
  exact (proj2 (AuthMiddlewareClaims.requireAuth_failures
                  (R := ModelRuntime.runtime) (Some "Bearer not-a-token") env0 world0)
               "Bearer not-a-token" "Invalid token format" eq_refl eq_refl X).
Defined.

(** C3 as stated fails: three failures of [requireAuth], three
    messages that tell which check failed. *)
Lemma requireAuth_reveals_the_failed_check :
  fst (AuthMiddleware.requireAuth (R := ModelRuntime.runtime) None env0 world0) =
  Throw "Authentication required: Missing authorization header" /\
  fst (AuthMiddleware.requireAuth (R := ModelRuntime.runtime)
         (Some "Token abc") env0 world0) =
  Throw "Authentication required: Invalid authorization format" /\
  fst (AuthMiddleware.requireAuth (R := ModelRuntime.runtime)
         (Some "Bearer abc") env0 world0) =
  Throw "Authentication required: Invalid token" /\
  "Authentication required: Missing authorization header" <>
  "Authentication required: Invalid token" /\
  "Authentication required: Invalid authorization format" <>
  "Authentication required: Invalid token".
Proof.
  repeat split; try (vm_compute; reflexivity); discriminate.
Qed.

End AuthMiddlewareExamples.

(* ------------------------------------------------------------------ *)
(** ** Cache manager: the key *)

Module CacheKeyClaims.
Section WithRuntime.

Context {R : Runtime} {U : Unicode} {L : UnicodeLaws U}.
Import CacheService.

Lemma generateCacheKey_lastChar (r : AnalysisRequest) :
  JsString.lastChar (generateCacheKey r) =
  Some (match mode r with quick => "k"%char | deep => "p"%char end).
Proof.
  unfold generateCacheKey. cbv zeta.
  set (u := JsString.substring0 16 _). set (c := JsString.substring0 16 _).
  change (u ++ "_" ++ c ++ "_" ++ modeTag (mode r))
    with (u ++ String "_" (c ++ String "_" (modeTag (mode r)))).
  rewrite JsStringFacts.lastChar_app_cons.
  transitivity (JsString.lastChar (("_" ++ c) ++ String "_" (modeTag (mode r)))).
  { reflexivity. }
  rewrite JsStringFacts.lastChar_app_cons. now destruct (mode r).
Qed.

(** The normalised content of a text that is another one up to casing,
    between blank texts. *)
Lemma normalised_content (pre t post s : string) :
  trim pre = "" -> trim post = "" -> toLowerCase t = toLowerCase s ->
  toLowerCase (trim (pre ++ t ++ post)) = toLowerCase (trim s).
Proof.
  intros Hpre Hpost Hcase.
  now rewrite trim_blank_around, !toLowerCase_trim, Hcase by assumption.
Qed.


End WithRuntime.
End CacheKeyClaims.

Module CacheKeyExamples.
Import Requests.

#[local] Existing Instances ModelRuntime.runtime ModelRuntime.unicode.


(** On the text of the ASCII range: changing the case of any letters of
    the content and surrounding it with white space keeps the key. *)
Lemma recased_content_has_the_same_key (r : AnalysisRequest) (pre post : string)
      (mask : list bool) :
  AsciiText.allSpace pre = true -> AsciiText.allSpace post = true ->
  CacheService.generateCacheKey
    {| url := url r; text := pre ++ AsciiText.recase mask (text r) ++ post;
       userId := userId r; mode := mode r; lastModified := lastModified r |} =
  CacheService.generateCacheKey r.
Proof.
  intros Hpre Hpost. unfold CacheService.generateCacheKey. cbv zeta.
  cbn [url text mode]. cbn [toLowerCase trim ModelRuntime.unicode].
  rewrite AsciiTextFacts.trim_pad by assumption.
  rewrite <- !AsciiTextFacts.trim_toLowerCase.
  now rewrite AsciiTextFacts.toLowerCase_recase.
Qed.


End CacheKeyExamples.

(* ------------------------------------------------------------------ *)
(** ** Rate limiter *)

(** Case analysis on the answer of the store to the next statement. *)
Ltac case_fault :=
  match goal with
  | |- context [match headFault ?w with _ => _ end] => destruct (headFault w)
  end.

Module RateLimitFacts.
Import RateLimitService.

Lemma incrementUsage_eq (uid : string) (date : Z) (w : World) :
  incrementUsage uid date w =
  let upd := UpdateUsage uid date in
  let ins := InsertUsage uid date in
  match headFault w with
  | DbExecutes =>
      (Ok tt, setStore (setUsage (incremented uid date (usage_analytics (store w))) (store w))
                       (afterDb upd w))
  | DbErrors =>
      match headFault (afterDb upd w) with
      | DbExecutes =>
          (Ok tt, setStore (setUsage (usage_analytics (store w) ++ [firstUse uid date])
                                     (store w))
                           (afterDb ins (afterDb upd w)))
      | _ => (Ok tt, afterDb ins (afterDb upd w))
      end
  | DbRejects => (Ok tt, afterDb upd w)
  end.
Proof.
  unfold incrementUsage, tryCatch, bind. rewrite dbRun_eq.
  destruct (headFault w); simpl; try reflexivity.
  rewrite dbRun_eq. case_fault; reflexivity.
Qed.

(** [incrementUsage] swallows every failure. *)
Lemma incrementUsage_ok (uid : string) (date : Z) (w : World) :
  fst (incrementUsage uid date w) = Ok tt.
Proof.
  rewrite incrementUsage_eq. cbv zeta. case_fault; try reflexivity.
  case_fault; reflexivity.
Qed.

Section WithDeployment.

Context {D : Deployment}.

Lemma checkRateLimit_eq (uid : string) (w : World) :
  checkRateLimit uid w =
  if String.eqb uid "" then
    (Ok {| allowed := false; retryAfter := None;
           message := Some "User ID is required"; currentCount := None |}, w)
  else
    let today := isoDate (clock w) in
    let w1 := afterDb (SelectUsage uid today) w in
    match headFault w with
    | DbExecutes =>
        let count := countOf uid today (store w) in
        if DAILY_LIMIT <=? count then
          (Ok {| allowed := false;
                 retryAfter := Some (ceilSeconds (nextMidnight (clock w1) - clock w1));
                 message := Some "Daily limit exceeded"; currentCount := Some count |}, w1)
        else (Ok (allowedWith (count + 1)), snd (incrementUsage uid today w1))
    | _ => (Ok allowedBlindly, w1)
    end.
Proof.
  unfold checkRateLimit, tryCatch, bind, incrementUsageForUser.
  destruct (String.eqb uid ""); [reflexivity|].
  unfold now at 1. cbv beta iota zeta. rewrite dbFirst_eq.
  destruct (headFault w); try reflexivity.
  cbv beta iota zeta. cbn [error data]. fold (countOf uid (isoDate (clock w)) (store w)).
  destruct (DAILY_LIMIT <=? _); [reflexivity|].
  pose proof (incrementUsage_ok uid (isoDate (clock w))
                (afterDb (SelectUsage uid (isoDate (clock w))) w)) as Hok.
  destruct (incrementUsage _ _ _) as [r w2]. simpl in Hok. now subst r.
Qed.

(** An update that matches no row leaves the table as it is. *)
Lemma incremented_absent (uid : string) (date : Z) (rows : list UsageAnalytics) :
  find (usageOf uid date) rows = None -> incremented uid date rows = rows.
Proof.
  induction rows as [|u rows IH]; simpl; [reflexivity|].
  destruct (usageOf uid date u); [discriminate|].
  intros H. now rewrite IH.
Qed.

(** Without a store failure and without a row for the identity and the
    day, [checkRateLimit] lets the request through with count 1 and
    leaves the table without such a row. *)
Lemma checkRateLimit_unseen (uid : string) (w : World) :
  uid <> "" ->
  dbFaults (script w) = [] ->
  find (usageOf uid (isoDate (clock w))) (usage_analytics (store w)) = None ->
  fst (checkRateLimit uid w) = Ok (allowedWith 1) /\
  usage_analytics (store (snd (checkRateLimit uid w))) = usage_analytics (store w) /\
  dbFaults (script (snd (checkRateLimit uid w))) = [].
Proof.
  intros Huid Hf Hrow. rewrite checkRateLimit_eq.
  destruct (String.eqb_spec uid "") as [E|_]; [contradiction|]. cbv zeta.
  rewrite (headFault_nil w Hf). unfold countOf. rewrite Hrow.
  change (DAILY_LIMIT <=? 0) with false. cbv iota.
  rewrite incrementUsage_eq. cbv zeta.
  rewrite headFault_nil by (rewrite dbFaults_afterDb, Hf; reflexivity).
  simpl. rewrite incremented_absent by exact Hrow. rewrite Hf. auto.
Qed.

(** With an empty table and no store failure, any number of calls are
    all let through with count 1, and the table stays empty. *)
Lemma checkRateLimitTimes_empty (n : nat) (uid : string) (w : World) :
  uid <> "" ->
  dbFaults (script w) = [] ->
  usage_analytics (store w) = [] ->
  fst (checkRateLimitTimes n uid w) = repeat (Ok (allowedWith 1)) n /\
  usage_analytics (store (snd (checkRateLimitTimes n uid w))) = [].
Proof.
  intros Huid. revert w. induction n as [|n IH]; intros w Hf He; simpl; [auto|].
  destruct (checkRateLimit_unseen uid w Huid Hf) as (Hr & Hu & Hf').
  { now rewrite He. }
  destruct (checkRateLimit uid w) as [r w1]. simpl in Hr, Hu, Hf'.
  rewrite He in Hu. destruct (IH w1 Hf' Hu) as [Hrs Hus].
  destruct (checkRateLimitTimes n uid w1) as [rs w2]. simpl in *.
  now rewrite Hr, Hrs.
Qed.

(** An update that matches a row adds one to its count. *)
Lemma find_incremented (uid : string) (date : Z) (rows : list UsageAnalytics)
      (row : UsageAnalytics) :
  find (usageOf uid date) rows = Some row ->
  find (usageOf uid date) (incremented uid date rows) =
  Some {| usage_user_id := usage_user_id row; daily_count := daily_count row + 1;
          usage_date := usage_date row |}.
Proof.
  induction rows as [|u rows IH]; simpl; [discriminate|].
  destruct (usageOf uid date u) eqn:E.
  - intros H. inversion H. subst u. simpl.
    unfold usageOf in *. simpl. now rewrite E.
  - rewrite E. exact IH.
Qed.

(** With a counter row below the limit and no store failure the
    request is let through with the incremented count, which the row
    then holds. *)
Lemma checkRateLimit_counting (uid : string) (w : World) (row : UsageAnalytics) :
  uid <> "" ->
  dbFaults (script w) = [] ->
  find (usageOf uid (isoDate (clock w))) (usage_analytics (store w)) = Some row ->
  daily_count row < DAILY_LIMIT ->
  fst (checkRateLimit uid w) = Ok (allowedWith (daily_count row + 1)) /\
  countOf uid (isoDate (clock w)) (store (snd (checkRateLimit uid w))) = daily_count row + 1.
Proof.
  intros Huid Hf Hrow Hlow. rewrite checkRateLimit_eq.
  destruct (String.eqb_spec uid "") as [E|_]; [contradiction|]. cbv zeta.
  rewrite (headFault_nil w Hf).
  assert (Hc : countOf uid (isoDate (clock w)) (store w) = daily_count row)
    by (unfold countOf; now rewrite Hrow).
  rewrite Hc.
  destruct (Z.leb_spec DAILY_LIMIT (daily_count row)); [lia|].
  split; [reflexivity|].
  rewrite incrementUsage_eq. cbv zeta.
  rewrite headFault_nil by (rewrite dbFaults_afterDb, Hf; reflexivity).
  unfold countOf. simpl. now rewrite (find_incremented _ _ _ row Hrow).
Qed.

(** With a counter row at the limit the request is refused and the
    store is left as it is. *)
Lemma checkRateLimit_exhausted (uid : string) (w : World) (row : UsageAnalytics) :
  uid <> "" ->
  dbFaults (script w) = [] ->
  find (usageOf uid (isoDate (clock w))) (usage_analytics (store w)) = Some row ->
  DAILY_LIMIT <= daily_count row ->
  exists rl,
    fst (checkRateLimit uid w) = Ok rl /\ allowed rl = false /\
    currentCount rl = Some (daily_count row) /\
    store (snd (checkRateLimit uid w)) = store w.
Proof.
  intros Huid Hf Hrow Hhigh. rewrite checkRateLimit_eq.
  destruct (String.eqb_spec uid "") as [E|_]; [contradiction|]. cbv zeta.
  rewrite (headFault_nil w Hf). unfold countOf. rewrite Hrow.
  destruct (Z.leb_spec DAILY_LIMIT (daily_count row)); [|lia].
  eexists. repeat split.
Qed.

End WithDeployment.
End RateLimitFacts.

Module RateLimitClaims.
Section WithDeployment.

Context {D : Deployment}.
Import RateLimitService RateLimitFacts Scenario.

(** C2 (the code at the failing input). Fifty-one successive calls of
    [checkRateLimit] for one identity on one day, on an empty table and
    without any store failure: every call, the fifty-first included, is
    let through with count 1, and no counter row is ever created.  This
    holds in every time zone of the host. *)
Theorem fifty_first_call_is_allowed :
  fst (checkRateLimitTimes 51 "u-1" world0) = repeat (Ok (allowedWith 1)) 51 /\
  nth_error (fst (checkRateLimitTimes 51 "u-1" world0)) 50 = Some (Ok (allowedWith 1)) /\
  usage_analytics (store (snd (checkRateLimitTimes 51 "u-1" world0))) = [] /\
  clock (snd (checkRateLimitTimes 51 "u-1" world0)) = clock world0.
Proof.
  destruct (checkRateLimitTimes_empty 51 "u-1" world0) as [Hr Hu];
    [discriminate | reflexivity | reflexivity |].
  split; [exact Hr|]. split; [now rewrite Hr|]. split; [exact Hu|].
  vm_compute. reflexivity.
Qed.

End WithDeployment.
End RateLimitClaims.

(* ------------------------------------------------------------------ *)
(** ** Relations preserved by the combinators of the monad *)

Section PreservesFacts.

Variable I : World -> World -> Prop.
Hypothesis I_refl : forall w, I w w.
Hypothesis I_trans : forall a b c, I a b -> I b c -> I a c.

Lemma Preserves_ret {A} (a : A) : Preserves I (ret a).
Proof. intros w. apply I_refl. Qed.

Lemma Preserves_throw {A} (msg : string) : Preserves I (@throw A msg).
Proof. intros w. apply I_refl. Qed.

Lemma Preserves_now : Preserves I now.
Proof. intros w. apply I_refl. Qed.

Lemma Preserves_adopt {A} (p : Result A) : Preserves I (adopt p).
Proof. intros w. apply I_refl. Qed.

Lemma Preserves_unawaited {A} (m : M A) : Preserves I (unawaited m).
Proof. intros w. apply I_refl. Qed.

Lemma Preserves_orTypeError {A} (o : option A) : Preserves I (orTypeError o).
Proof. intros w. destruct o; apply I_refl. Qed.

Lemma Preserves_bind {A B} (m : M A) (k : A -> M B) :
  Preserves I m -> (forall a, Preserves I (k a)) -> Preserves I (bind m k).
Proof.
  intros Hm Hk w. unfold bind. specialize (Hm w).
  destruct (m w) as [[a|e] w1]; simpl in *; [|exact Hm].
  eapply I_trans; [exact Hm | apply Hk].
Qed.

Lemma Preserves_tryCatch {A} (m : M A) (h : string -> M A) :
  Preserves I m -> (forall e, Preserves I (h e)) -> Preserves I (tryCatch m h).
Proof.
  intros Hm Hh w. unfold tryCatch. specialize (Hm w).
  destruct (m w) as [[a|e] w1]; simpl in *; [exact Hm|].
  eapply I_trans; [exact Hm | apply Hh].
Qed.

End PreservesFacts.

(** Decomposition of a goal [Preserves I m] along the structure of [m];
    [prim] closes the goals on the primitives that touch the world. *)
Ltac preserves_with refl trans prim :=
  repeat first
    [ prim
    | apply (Preserves_ret _ refl)
    | apply (Preserves_throw _ refl)
    | apply (Preserves_now _ refl)
    | apply (Preserves_adopt _ refl)
    | apply (Preserves_unawaited _ refl)
    | apply (Preserves_orTypeError _ refl)
    | apply (Preserves_bind _ trans); [|intros ?]
    | apply (Preserves_tryCatch _ trans); [|intros ?]
    | match goal with
      | |- Preserves _ (match ?x with _ => _ end) => destruct x
      | |- Preserves _ (let _ := _ in _) => cbv zeta
      end ].

Section WorldRelations.

Lemma clockAdvances_refl w : clockAdvances w w.
Proof. unfold clockAdvances. lia. Qed.

Lemma clockAdvances_trans a b c : clockAdvances a b -> clockAdvances b c -> clockAdvances a c.
Proof. unfold clockAdvances. lia. Qed.

Lemma noFetch_refl w : noFetch w w.
Proof. split; reflexivity. Qed.

Lemma noFetch_trans a b c : noFetch a b -> noFetch b c -> noFetch a c.
Proof. intros [H1 H2] [H3 H4]. split; congruence. Qed.

Lemma sameCache_refl w : sameCache w w.
Proof. reflexivity. Qed.

Lemma sameCache_trans a b c : sameCache a b -> sameCache b c -> sameCache a c.
Proof. unfold sameCache. congruence. Qed.

Lemma sameStore_refl w : sameStore w w.
Proof. reflexivity. Qed.

Lemma sameUsage_refl w : sameUsage w w.
Proof. reflexivity. Qed.

Lemma sameUsage_trans a b c : sameUsage a b -> sameUsage b c -> sameUsage a c.
Proof. unfold sameUsage. congruence. Qed.

Lemma sameStore_trans a b c : sameStore a b -> sameStore b c -> sameStore a c.
Proof. unfold sameStore. congruence. Qed.

Lemma staysReliable_refl w : staysReliable w w.
Proof. intros H. exact H. Qed.

Lemma staysReliable_trans a b c :
  staysReliable a b -> staysReliable b c -> staysReliable a c.
Proof. unfold staysReliable. auto. Qed.

(** The primitives. *)

Lemma dbFirst_clockAdvances {A} s (q : Store -> option A) :
  Preserves clockAdvances (dbFirst s q).
Proof.
  intros w. rewrite dbFirst_eq. pose proof (clock_afterDb_le s w).
  destruct (headFault w); exact H.
Qed.

Lemma dbRun_clockAdvances s change : Preserves clockAdvances (dbRun s change).
Proof.
  intros w. rewrite dbRun_eq. pose proof (clock_afterDb_le s w).
  destruct (headFault w); exact H.
Qed.

Lemma fetch_clockAdvances t : Preserves clockAdvances (fetch t).
Proof.
  intros w. rewrite fetch_eq.
  assert (H : clock w <= clock (afterFetch t w)) by (simpl; lia).
  destruct (headReply w); exact H.
Qed.

Lemma randomUUID_clockAdvances : Preserves clockAdvances randomUUID.
Proof. intros w. unfold clockAdvances. simpl. lia. Qed.

Lemma dbFirst_noFetch {A} s (q : Store -> option A) : Preserves noFetch (dbFirst s q).
Proof.
  intros w. rewrite dbFirst_eq.
  assert (H : noFetch w (afterDb s w)).
  { split; [|reflexivity]. rewrite trace_afterDb, fetches_app. simpl. apply app_nil_r. }
  destruct (headFault w); exact H.
Qed.

Lemma dbRun_noFetch s change : Preserves noFetch (dbRun s change).
Proof.
  intros w. rewrite dbRun_eq.
  assert (H : noFetch w (afterDb s w)).
  { split; [|reflexivity]. rewrite trace_afterDb, fetches_app. simpl. apply app_nil_r. }
  destruct (headFault w); exact H.
Qed.

Lemma dbFirst_sameStore {A} s (q : Store -> option A) : Preserves sameStore (dbFirst s q).
Proof. intros w. rewrite dbFirst_eq. destruct (headFault w); reflexivity. Qed.

Lemma fetch_sameStore t : Preserves sameStore (fetch t).
Proof. intros w. rewrite fetch_eq. destruct (headReply w); reflexivity. Qed.

Lemma dbFirst_sameCache {A} s (q : Store -> option A) : Preserves sameCache (dbFirst s q).
Proof. intros w. rewrite dbFirst_eq. destruct (headFault w); reflexivity. Qed.

Lemma fetch_sameCache t : Preserves sameCache (fetch t).
Proof. intros w. rewrite fetch_eq. destruct (headReply w); reflexivity. Qed.

Lemma dbRun_sameCache s change :
  (forall st, cache_entries (change st) = cache_entries st) ->
  Preserves sameCache (dbRun s change).
Proof.
  intros H w. rewrite dbRun_eq. destruct (headFault w); try reflexivity.
  unfold sameCache. simpl. apply H.
Qed.

Lemma dbFirst_sameUsage {A} s (q : Store -> option A) : Preserves sameUsage (dbFirst s q).
Proof. intros w. rewrite dbFirst_eq. destruct (headFault w); reflexivity. Qed.

Lemma dbRun_sameUsage s change :
  (forall st, usage_analytics (change st) = usage_analytics st) ->
  Preserves sameUsage (dbRun s change).
Proof.
  intros H w. rewrite dbRun_eq. destruct (headFault w); try reflexivity.
  unfold sameUsage. simpl. apply H.
Qed.

Lemma dbFirst_staysReliable {A} s (q : Store -> option A) :
  Preserves staysReliable (dbFirst s q).
Proof.
  intros w Hf. rewrite dbFirst_eq.
  assert (H : dbFaults (script (afterDb s w)) = [])
    by (rewrite dbFaults_afterDb, Hf; reflexivity).
  destruct (headFault w); exact H.
Qed.

Lemma dbRun_staysReliable s change : Preserves staysReliable (dbRun s change).
Proof.
  intros w Hf. rewrite dbRun_eq.
  assert (H : dbFaults (script (afterDb s w)) = [])
    by (rewrite dbFaults_afterDb, Hf; reflexivity).
  destruct (headFault w); exact H.
Qed.

Lemma fetch_staysReliable t : Preserves staysReliable (fetch t).
Proof.
  intros w Hf. rewrite fetch_eq.
  assert (H : dbFaults (script (afterFetch t w)) = [])
    by (rewrite dbFaults_afterFetch; exact Hf).
  destruct (headReply w); exact H.
Qed.

End WorldRelations.

Ltac clock_advances :=
  preserves_with clockAdvances_refl clockAdvances_trans
    ltac:(first [ apply dbFirst_clockAdvances | apply dbRun_clockAdvances
                | apply fetch_clockAdvances | apply randomUUID_clockAdvances ]).

Ltac no_fetch :=
  preserves_with noFetch_refl noFetch_trans
    ltac:(first [ apply dbFirst_noFetch | apply dbRun_noFetch ]).

Ltac same_cache :=
  preserves_with sameCache_refl sameCache_trans
    ltac:(first [ apply dbFirst_sameCache | apply fetch_sameCache
                | apply dbRun_sameCache; intros ?; reflexivity ]).

Ltac same_usage :=
  preserves_with sameUsage_refl sameUsage_trans
    ltac:(first [ apply dbFirst_sameUsage
                | apply dbRun_sameUsage; intros ?; reflexivity ]).

Ltac same_store :=
  preserves_with sameStore_refl sameStore_trans
    ltac:(first [ apply dbFirst_sameStore | apply fetch_sameStore ]).

Ltac stays_reliable :=
  preserves_with staysReliable_refl staysReliable_trans
    ltac:(first [ apply dbFirst_staysReliable | apply dbRun_staysReliable
                | apply fetch_staysReliable ]).

Lemma unchanged_refl w : unchanged w w.
Proof. reflexivity. Qed.

Lemma unchanged_trans a b c : unchanged a b -> unchanged b c -> unchanged a c.
Proof. unfold unchanged. congruence. Qed.

Ltac leaves_unchanged := preserves_with unchanged_refl unchanged_trans fail.

(* ------------------------------------------------------------------ *)
(** ** What the services do to the world *)

Module ServiceEffects.
Section WithRuntime.

Context {R : Runtime} {U : Unicode} {D : Deployment}.

Lemma checkRateLimit_clockAdvances uid :
  Preserves clockAdvances (RateLimitService.checkRateLimit uid).
Proof.
  unfold RateLimitService.checkRateLimit, RateLimitService.incrementUsageForUser,
    RateLimitService.incrementUsage.
  clock_advances.
Qed.

Lemma checkRateLimit_noFetch uid : Preserves noFetch (RateLimitService.checkRateLimit uid).
Proof.
  unfold RateLimitService.checkRateLimit, RateLimitService.incrementUsageForUser,
    RateLimitService.incrementUsage.
  no_fetch.
Qed.

Lemma checkRateLimit_sameCache uid :
  Preserves sameCache (RateLimitService.checkRateLimit uid).
Proof.
  unfold RateLimitService.checkRateLimit, RateLimitService.incrementUsageForUser,
    RateLimitService.incrementUsage.
  same_cache.
Qed.

Lemma checkRateLimit_staysReliable uid :
  Preserves staysReliable (RateLimitService.checkRateLimit uid).
Proof.
  unfold RateLimitService.checkRateLimit, RateLimitService.incrementUsageForUser,
    RateLimitService.incrementUsage.
  stays_reliable.
Qed.

Lemma convertCacheEntryToResult_unchanged row :
  Preserves unchanged (CacheService.convertCacheEntryToResult row).
Proof. unfold CacheService.convertCacheEntryToResult. leaves_unchanged. Qed.

Lemma deleteCache_clockAdvances key : Preserves clockAdvances (CacheService.deleteCache key).
Proof. unfold CacheService.deleteCache. clock_advances. Qed.

Lemma deleteCache_noFetch key : Preserves noFetch (CacheService.deleteCache key).
Proof. unfold CacheService.deleteCache. no_fetch. Qed.

Lemma getCache_clockAdvances key : Preserves clockAdvances (CacheService.getCache key).
Proof.
  unfold CacheService.getCache, CacheService.convertCacheEntryToResult,
    CacheService.deleteCache.
  clock_advances.
Qed.

Lemma getCache_noFetch key : Preserves noFetch (CacheService.getCache key).
Proof.
  unfold CacheService.getCache, CacheService.convertCacheEntryToResult,
    CacheService.deleteCache.
  no_fetch.
Qed.

Lemma getCache_sameUsage key : Preserves sameUsage (CacheService.getCache key).
Proof.
  unfold CacheService.getCache, CacheService.convertCacheEntryToResult,
    CacheService.deleteCache.
  same_usage.
Qed.

Lemma getCache_staysReliable key : Preserves staysReliable (CacheService.getCache key).
Proof.
  unfold CacheService.getCache, CacheService.convertCacheEntryToResult,
    CacheService.deleteCache.
  stays_reliable.
Qed.

Lemma setCache_clockAdvances key res req :
  Preserves clockAdvances (CacheService.setCache key res req).
Proof. unfold CacheService.setCache. clock_advances. Qed.

Lemma setCache_noFetch key res req : Preserves noFetch (CacheService.setCache key res req).
Proof. unfold CacheService.setCache. no_fetch. Qed.

Lemma parseAnalysisResult_unchanged a p n :
  Preserves unchanged (AnalysisService.parseAnalysisResult a p n).
Proof. unfold AnalysisService.parseAnalysisResult. leaves_unchanged. Qed.

Lemma analyzeWithOpenAI_world req w :
  snd (AnalysisService.analyzeWithOpenAI req w) = afterFetch OpenAI w.
Proof.
  unfold AnalysisService.analyzeWithOpenAI, bind. rewrite fetch_eq.
  destruct (headReply w) as [|ok st body]; [reflexivity|].
  match goal with |- snd (?m ?w0) = _ => enough (Preserves unchanged m) as H by apply H end.
  unfold AnalysisService.readCompletion, AnalysisService.parseAnalysisResult.
  leaves_unchanged.
Qed.

Lemma analyzeWithAnthropic_world req w :
  snd (AnalysisService.analyzeWithAnthropic req w) = afterFetch Anthropic w.
Proof.
  unfold AnalysisService.analyzeWithAnthropic, bind. rewrite fetch_eq.
  destruct (headReply w) as [|ok st body]; [reflexivity|].
  match goal with |- snd (?m ?w0) = _ => enough (Preserves unchanged m) as H by apply H end.
  unfold AnalysisService.readCompletion, AnalysisService.parseAnalysisResult.
  leaves_unchanged.
Qed.

End WithRuntime.
End ServiceEffects.

(* ------------------------------------------------------------------ *)
(** ** Orchestrator: the order of the steps *)

Module AnalysisFacts.
Section WithRuntime.

Context {R : Runtime} {U : Unicode} {D : Deployment}.
Import AnalysisService.

Lemma tryCatch_ret_ok {A} (m : M A) (a : A) (w : World) :
  exists b, fst (tryCatch m (fun _ => ret a) w) = Ok b.
Proof.
  unfold tryCatch. destruct (m w) as [[b|e] w']; eexists; reflexivity.
Qed.

Lemma checkRateLimit_ok (uid : string) (w : World) :
  exists rl, fst (RateLimitService.checkRateLimit uid w) = Ok rl.
Proof. apply tryCatch_ret_ok. Qed.

Lemma getCache_ok (key : string) (w : World) :
  exists c, fst (CacheService.getCache key w) = Ok c.
Proof. apply tryCatch_ret_ok. Qed.

Lemma setCache_ok (key : string) (res : AnalysisResult) (req : AnalysisRequest) (w : World) :
  fst (CacheService.setCache key res req w) = Ok tt.
Proof.
  unfold CacheService.setCache.
  match goal with
  | |- fst (tryCatch ?m _ w) = _ => destruct (tryCatch_ret_ok m tt w) as [[] H]; exact H
  end.
Qed.

(** The steps of [analyzeContent], in the order they are taken. *)
Lemma analyzeContent_eq (req : AnalysisRequest) (uid : string) (w : World) :
  analyzeContent req uid w =
  match RateLimitService.checkRateLimit uid w with
  | (Ok rl, w1) =>
      if negb (allowed rl) then
        (Throw ("Rate limit exceeded. Retry after " ++ Js.showOpt (retryAfter rl) ++
                " seconds"), w1)
      else
        match CacheService.getCache (CacheService.generateCacheKey req) w1 with
        | (Ok (Some cached), w2) => (Ok {| payload := cached; cacheStatus := hit |}, w2)
        | (Ok None, w2) =>
            match performAnalysis req w2 with
            | (Ok res, w3) =>
                (Ok {| payload := res; cacheStatus := miss |},
                 snd (CacheService.setCache (CacheService.generateCacheKey req) res req w3))
            | (Throw e, w3) => (Throw e, w3)
            end
        | (Throw e, w2) => (Throw e, w2)
        end
  | (Throw e, w1) => (Throw e, w1)
  end.
Proof.
  unfold analyzeContent, bind, now. cbv beta iota zeta.
  destruct (RateLimitService.checkRateLimit uid w) as [[rl|e] w1]; [|reflexivity].
  destruct (negb (allowed rl)); [reflexivity|].
  destruct (CacheService.getCache _ w1) as [[[c|]|e] w2]; try reflexivity.
  destruct (performAnalysis req w2) as [[res|e] w3]; [|reflexivity].
  pose proof (setCache_ok (CacheService.generateCacheKey req) res req w3) as H.
  destruct (CacheService.setCache _ res req w3) as [[[]|e] w4]; [reflexivity|discriminate].
Qed.

(** The steps of [performAnalysis]. *)
Lemma performAnalysis_eq (req : AnalysisRequest) (w : World) :
  performAnalysis req w =
  match analyzeWithOpenAI req w with
  | (Ok res, w1) => (Ok (withAnalysisTime res (clock w1 - clock w)), w1)
  | (Throw _, w1) =>
      match analyzeWithAnthropic req w1 with
      | (Ok res, w2) => (Ok (withAnalysisTime res (clock w2 - clock w)), w2)
      | (Throw _, w2) => (Throw "Content analysis failed. Please try again later.", w2)
      end
  end.
Proof.
  unfold performAnalysis, bind, tryCatch, now, ret, throw. cbv beta iota zeta.
  destruct (analyzeWithOpenAI req w) as [[res|e] w1]; [reflexivity|].
  destruct (analyzeWithAnthropic req w1) as [[res|e'] w2]; reflexivity.
Qed.

(** A refusal of the limiter: for an empty identity, before any I/O and
    without a retry delay; otherwise after the one statement that read
    the counter, with the delay until the next midnight of the host. *)
Lemma checkRateLimit_refused (uid : string) (w : World) (rl : RateLimitResult) :
  fst (RateLimitService.checkRateLimit uid w) = Ok rl ->
  allowed rl = false ->
  (uid = "" /\ snd (RateLimitService.checkRateLimit uid w) = w /\ retryAfter rl = None) \/
  (uid <> "" /\
   let w1 := afterDb (SelectUsage uid (RateLimitService.isoDate (clock w))) w in
   snd (RateLimitService.checkRateLimit uid w) = w1 /\
   retryAfter rl =
   Some (RateLimitService.ceilSeconds (nextMidnight (clock w1) - clock w1))).
Proof.
  rewrite RateLimitFacts.checkRateLimit_eq.
  destruct (String.eqb_spec uid "") as [E|E].
  - intros H _. inversion H. left. auto.
  - cbv zeta. intros H Hno. right. split; [exact E|].
    destruct (headFault w); simpl in H;
      try (inversion H; subst rl; discriminate).
    destruct (RateLimitService.DAILY_LIMIT <=? _);
      simpl in H; inversion H; subst rl; [|discriminate].
    split; reflexivity.
Qed.

End WithRuntime.
End AnalysisFacts.

(* ------------------------------------------------------------------ *)
(** ** Orchestrator: the replies of the providers *)

Module ProviderFacts.
Section WithRuntime.

Context {R : Runtime} {U : Unicode} {D : Deployment}.
Import AnalysisService.

(** A reply either carries a document or is useless. *)
Lemma useless_or_carries (textOf : Json -> option JsVal) (reply : FetchOutcome) :
  Useless textOf reply \/ exists doc, carries textOf reply doc.
Proof.
  destruct reply as [|[] status [body|]];
    try (left; constructor; fail).
  destruct (textOf body) as [v|] eqn:T; [|left; now apply NoCompletions].
  destruct (Js.truthy v) eqn:V; [|left; now apply (MissingText _ _ _ v)].
  destruct v as [j|]; [|discriminate V].
  destruct j as [|b|q|completion|items|fields];
    try (left; eapply NotText; [exact T | discriminate]).
  destruct (JsString.matchBraces completion) as [jsonText|] eqn:B;
    [|left; now apply (NoBraces _ _ _ completion)].
  destruct (JSON_parse jsonText) as [doc|] eqn:P;
    [|left; now apply (NotJson _ _ _ completion jsonText)].
  destruct doc as [|b|q|t|items|fields];
    try (right; eexists; exists status, body, completion, jsonText;
         repeat split; try eassumption; discriminate).
  left. now apply (NullDocument _ _ _ completion jsonText).
Qed.

(** From a reply that carries a document, the result is made of the
    properties of the document. *)
Lemma readCompletion_carries (p : Provider) (failure invalid : string)
      (textOf : Json -> option JsVal) (words : Z) (reply : FetchOutcome) (doc : Json)
      (w : World) :
  carries textOf reply doc ->
  readCompletion p failure invalid textOf words reply w = (Ok (verdictOf doc p words 0), w).
Proof.
  intros (status & body & completion & jsonText & -> & T & B & P & N).
  unfold readCompletion, bind. cbn [negb]. rewrite T. cbn [orTypeError ret].
  assert (V : Js.truthy (Some (JStr completion)) = true)
    by (destruct completion; [discriminate B | reflexivity]).
  rewrite V. unfold parseAnalysisResult, tryCatch. rewrite B, P.
  destruct doc; [congruence | reflexivity ..].
Qed.

(** A useless reply makes the call fail. *)
Lemma readCompletion_useless (p : Provider) (failure invalid : string)
      (textOf : Json -> option JsVal) (words : Z) (reply : FetchOutcome) (w : World) :
  Useless textOf reply ->
  exists e, readCompletion p failure invalid textOf words reply w = (Throw e, w).
Proof.
  intros H. unfold readCompletion, bind.
  destruct H as [ | status body | status | status body T | status body v T V
                | status body j T J | status body completion T B
                | status body completion jsonText T B P
                | status body completion jsonText T B P ];
    cbn [negb]; try (eexists; reflexivity); rewrite T; cbn [orTypeError ret throw].
  - eexists; reflexivity.
  - rewrite V. destruct v; eexists; reflexivity.
  - destruct (Js.truthy (Some j)); [|eexists; reflexivity].
    unfold parseAnalysisResult, tryCatch.
    destruct j; try (eexists; reflexivity). now destruct (J s).
  - destruct (Js.truthy (Some (JStr completion))); [|eexists; reflexivity].
    unfold parseAnalysisResult, tryCatch. rewrite B. eexists; reflexivity.
  - destruct (Js.truthy (Some (JStr completion))); [|eexists; reflexivity].
    unfold parseAnalysisResult, tryCatch. rewrite B, P. eexists; reflexivity.
  - destruct (Js.truthy (Some (JStr completion))); [|eexists; reflexivity].
    unfold parseAnalysisResult, tryCatch. rewrite B, P. eexists; reflexivity.
Qed.

(** The call of a provider is [fetch] followed by the reading of the
    reply. *)
Lemma analyzeWithOpenAI_eq (req : AnalysisRequest) (w : World) :
  analyzeWithOpenAI req w =
  match headReply w with
  | FetchRejects => (Throw "fetch failed", afterFetch OpenAI w)
  | reply =>
      readCompletion openai "OpenAI API error: " "Invalid response from OpenAI"
        openaiText (countWords (text req)) reply (afterFetch OpenAI w)
  end.
Proof.
  unfold analyzeWithOpenAI, bind. rewrite fetch_eq. now destruct (headReply w).
Qed.

Lemma analyzeWithAnthropic_eq (req : AnalysisRequest) (w : World) :
  analyzeWithAnthropic req w =
  match headReply w with
  | FetchRejects => (Throw "fetch failed", afterFetch Anthropic w)
  | reply =>
      readCompletion anthropic "Anthropic API error: " "Invalid response from Anthropic"
        anthropicText (countWords (text req)) reply (afterFetch Anthropic w)
  end.
Proof.
  unfold analyzeWithAnthropic, bind. rewrite fetch_eq. now destruct (headReply w).
Qed.

Lemma analyzeWithOpenAI_carries (req : AnalysisRequest) (w : World) (doc : Json) :
  carries openaiText (headReply w) doc ->
  analyzeWithOpenAI req w =
  (Ok (verdictOf doc openai (countWords (text req)) 0), afterFetch OpenAI w).
Proof.
  intros H. rewrite analyzeWithOpenAI_eq.
  pose proof H as (status & body & completion & jsonText & E & _).
  rewrite E in *. now apply readCompletion_carries.
Qed.

Lemma analyzeWithAnthropic_carries (req : AnalysisRequest) (w : World) (doc : Json) :
  carries anthropicText (headReply w) doc ->
  analyzeWithAnthropic req w =
  (Ok (verdictOf doc anthropic (countWords (text req)) 0), afterFetch Anthropic w).
Proof.
  intros H. rewrite analyzeWithAnthropic_eq.
  pose proof H as (status & body & completion & jsonText & E & _).
  rewrite E in *. now apply readCompletion_carries.
Qed.

Lemma analyzeWithOpenAI_useless (req : AnalysisRequest) (w : World) :
  Useless openaiText (headReply w) ->
  exists e, analyzeWithOpenAI req w = (Throw e, afterFetch OpenAI w).
Proof.
  intros H. rewrite analyzeWithOpenAI_eq.
  destruct (readCompletion_useless openai "OpenAI API error: "
              "Invalid response from OpenAI" openaiText (countWords (text req))
              (headReply w) (afterFetch OpenAI w) H) as [e E].
  destruct (headReply w); [eexists; reflexivity | exists e; exact E].
Qed.

Lemma analyzeWithAnthropic_useless (req : AnalysisRequest) (w : World) :
  Useless anthropicText (headReply w) ->
  exists e, analyzeWithAnthropic req w = (Throw e, afterFetch Anthropic w).
Proof.
  intros H. rewrite analyzeWithAnthropic_eq.
  destruct (readCompletion_useless anthropic "Anthropic API error: "
              "Invalid response from Anthropic" anthropicText (countWords (text req))
              (headReply w) (afterFetch Anthropic w) H) as [e E].
  destruct (headReply w); [eexists; reflexivity | exists e; exact E].
Qed.

(** The call of the primary provider fails exactly on a useless
    reply. *)
Lemma analyzeWithOpenAI_fails_iff (req : AnalysisRequest) (w : World) :
  (exists e, fst (analyzeWithOpenAI req w) = Throw e) <-> Useless openaiText (headReply w).
Proof.
  split.
  - intros [e E].
    destruct (useless_or_carries openaiText (headReply w)) as [H | [doc H]]; [exact H|].
    rewrite (analyzeWithOpenAI_carries req w doc H) in E. discriminate E.
  - intros H. destruct (analyzeWithOpenAI_useless req w H) as [e E].
    exists e. now rewrite E.
Qed.

End WithRuntime.
End ProviderFacts.

Module OrchestratorClaims.
Section WithRuntime.

Context {R : Runtime} {U : Unicode} {D : Deployment}.
Import AnalysisService AnalysisFacts ServiceEffects ProviderFacts.

(** X19. When the limiter refuses, [analyzeContent] fails with the
    quota error built from the limiter's [retryAfter], in the world the
    limiter left: it has performed at most the one statement that read
    the counter, no cache statement and no HTTP call. *)
Theorem refusal_skips_the_cache_and_the_providers
      (req : AnalysisRequest) (uid : string) (w : World) (rl : RateLimitResult) :
  fst (RateLimitService.checkRateLimit uid w) = Ok rl ->
  allowed rl = false ->
  analyzeContent req uid w =
  (Throw ("Rate limit exceeded. Retry after " ++ Js.showOpt (retryAfter rl) ++ " seconds"),
   snd (RateLimitService.checkRateLimit uid w)) /\
  (trace (snd (analyzeContent req uid w)) = trace w \/
   trace (snd (analyzeContent req uid w)) =
   (trace w ++ [EvDb (SelectUsage uid (RateLimitService.isoDate (clock w)))])%list).
Proof.
  intros Hrl Hno.
  pose proof (analyzeContent_eq req uid w) as E.
  pose proof (checkRateLimit_refused uid w rl Hrl Hno) as Href.
  destruct (RateLimitService.checkRateLimit uid w) as [r w1]. simpl in *. subst r.
  rewrite Hno in E. simpl in E. rewrite E. simpl. split; [reflexivity|].
  destruct Href as [(_ & Hw & _) | (_ & Hw & _)]; [left | right]; now rewrite Hw.
Qed.

(** C8 (the code at the failing input). [analyzeContent] consults the
    limiter before it looks the cache up, and the limiter sends its
    read and its increment; but for an identity without a counter row
    for the day, and without any store failure, a call that is served
    from the cache consumes nothing: the table of counters is left as it
    was and the count the limiter reads for the identity is still 0. *)
Theorem cache_hit_consumes_no_quota
        (req : AnalysisRequest) (uid : string) (w : World) (cached : AnalysisResult) :
  let today := RateLimitService.isoDate (clock w) in
  let wa := snd (RateLimitService.checkRateLimit uid w) in
  let w' := snd (analyzeContent req uid w) in
  uid <> "" ->
  dbFaults (script w) = [] ->
  find (RateLimitService.usageOf uid today) (usage_analytics (store w)) = None ->
  fst (CacheService.getCache (CacheService.generateCacheKey req) wa) = Ok (Some cached) ->
  fst (analyzeContent req uid w) = Ok {| payload := cached; cacheStatus := hit |} /\
  trace wa = (trace w ++ [EvDb (SelectUsage uid today); EvDb (UpdateUsage uid today)])%list /\
  w' = snd (CacheService.getCache (CacheService.generateCacheKey req) wa) /\
  usage_analytics (store w') = usage_analytics (store w) /\
  countOf uid today (store w') = 0.
Proof.
  intros today wa w' Huid Hf Hrow Hhit. subst w'.
  assert (Ha : RateLimitService.checkRateLimit uid w =
               (Ok (allowedWith 1),
                afterDb (UpdateUsage uid today) (afterDb (SelectUsage uid today) w))).
  { rewrite RateLimitFacts.checkRateLimit_eq.
    destruct (String.eqb_spec uid "") as [E|_]; [contradiction|]. cbv zeta. fold today.
    rewrite (headFault_nil w Hf). unfold countOf. rewrite Hrow.
    change (RateLimitService.DAILY_LIMIT <=? 0) with false. cbv iota.
    rewrite RateLimitFacts.incrementUsage_eq. cbv zeta.
    rewrite headFault_nil by (rewrite dbFaults_afterDb, Hf; reflexivity).
    cbn [snd]. rewrite store_afterDb, RateLimitFacts.incremented_absent by exact Hrow.
    f_equal. destruct (afterDb (UpdateUsage uid today) (afterDb (SelectUsage uid today) w))
      as [c st sc tr] eqn:E.
    assert (Hst : st = store w).
    { change st with (store {| clock := c; store := st; script := sc; trace := tr |}).
      rewrite <- E. now rewrite !store_afterDb. }
    subst st. unfold setStore. cbn. destruct (store w). reflexivity. }
  rewrite analyzeContent_eq.
  pose proof (getCache_sameUsage (CacheService.generateCacheKey req) wa) as Hu.
  unfold sameUsage in Hu. subst wa. rewrite Ha in *. cbn [fst snd negb allowed allowedWith] in *.
  destruct (CacheService.getCache _ _) as [c wb]. cbn [fst snd] in *. subst c.
  cbn [fst snd]. split; [reflexivity|]. split.
  { now rewrite !trace_afterDb, <- app_assoc. }
  split; [reflexivity|].
  rewrite !store_afterDb in Hu. split; [exact Hu|].
  unfold countOf. now rewrite Hu, Hrow.
Qed.

(** C7. On a cache miss, the call of the primary provider fails exactly
    when its reply is useless: the request is rejected, the status is
    not a success, the body cannot be read, it holds no completion text,
    or the text holds no JSON document.  Then the secondary provider is
    called, once, and no other HTTP call is made; when its reply carries
    a document, [analyzeContent] returns the result made of that
    document, tagged with the secondary provider, with the word count
    of the request and the time the two calls took; when its reply is
    useless too, [analyzeContent] fails with ["Content analysis
    failed. Please try again later."]. *)
Theorem fallback_is_tried_exactly_once
        (req : AnalysisRequest) (uid : string) (w : World) (rl : RateLimitResult) :
  let wa := snd (RateLimitService.checkRateLimit uid w) in
  let wb := snd (CacheService.getCache (CacheService.generateCacheKey req) wa) in
  let wc := afterFetch OpenAI wb in
  let wd := afterFetch Anthropic wc in
  fst (RateLimitService.checkRateLimit uid w) = Ok rl ->
  allowed rl = true ->
  fst (CacheService.getCache (CacheService.generateCacheKey req) wa) = Ok None ->
  ((exists e, fst (analyzeWithOpenAI req wb) = Throw e) <->
   Useless openaiText (headReply wb)) /\
  (Useless openaiText (headReply wb) ->
   fetches (trace (snd (analyzeContent req uid w))) =
   (fetches (trace w) ++ [OpenAI; Anthropic])%list /\
   (forall doc,
       carries anthropicText (headReply wc) doc ->
       fst (analyzeContent req uid w) =
       Ok {| payload := verdictOf doc anthropic (countWords (text req))
                          (clock wd - clock wb);
             cacheStatus := miss |}) /\
   (Useless anthropicText (headReply wc) ->
    fst (analyzeContent req uid w) =
    Throw "Content analysis failed. Please try again later.")).
Proof.
  intros wa wb wc wd Hrl Hyes Hmiss.
  split; [apply analyzeWithOpenAI_fails_iff|]. intros Hprimary.
  destruct (analyzeWithOpenAI_useless req wb Hprimary) as [e He]. fold wc in He.
  rewrite analyzeContent_eq.
  pose proof (checkRateLimit_noFetch uid w) as [Fa _]. fold wa in Fa.
  pose proof (getCache_noFetch (CacheService.generateCacheKey req) wa) as [Fb _].
  fold wb in Fb.
  pose proof (analyzeWithAnthropic_world req wc) as Wd. fold wd in Wd.
  assert (Fd : fetches (trace wd) = (fetches (trace w) ++ [OpenAI; Anthropic])%list).
  { subst wd wc. rewrite !trace_afterFetch, !fetches_app, Fb, Fa.
    simpl. now rewrite <- app_assoc. }
  subst wa.
  destruct (RateLimitService.checkRateLimit uid w) as [r wa]. cbn [fst snd] in *. subst r.
  rewrite Hyes. cbn [negb]. subst wb.
  destruct (CacheService.getCache _ wa) as [c wb]. cbn [fst snd] in *. subst c.
  rewrite performAnalysis_eq, He.
  split; [|split].
  - destruct (analyzeWithAnthropic req wc) as [[res|e'] wd'] eqn:A;
      cbn [fst snd] in *; subst wd'; [|exact Fd].
    pose proof (setCache_noFetch (CacheService.generateCacheKey req)
                  (withAnalysisTime res (clock wd - clock wb)) req wd) as [Fs _].
    now rewrite Fs.
  - intros doc Hdoc. rewrite (analyzeWithAnthropic_carries req wc doc Hdoc). reflexivity.
  - intros Hsecondary.
    destruct (analyzeWithAnthropic_useless req wc Hsecondary) as [e' He'].
    rewrite He'. reflexivity.
Qed.

End WithRuntime.
End OrchestratorClaims.

Module OrchestratorExamples.
Import Scenario Requests Orchestration.

#[local] Existing Instances ModelRuntime.runtime ModelRuntime.unicode ModelRuntime.deployment.

(** A refusal for an identity that has used its quota: in UTC the error
    carries the seconds left until midnight, and the only I/O is the
    statement that read the counter. *)
Lemma refusal_skips_the_cache_and_the_providers_witness :
  AnalysisService.analyzeContent article "u-1" exhausted =
  (Throw "Rate limit exceeded. Retry after 6400 seconds",
   setTrace [EvDb (SelectUsage "u-1" 19675)] exhausted).
Proof.
  destruct (OrchestratorClaims.refusal_skips_the_cache_and_the_providers
              article "u-1" exhausted
              {| allowed := false; retryAfter := Some 6400;
                 message := Some "Daily limit exceeded"; currentCount := Some 50 |})
    as [H _]; [vm_compute; reflexivity .. | rewrite H; vm_compute; reflexivity].
Defined.

(** The second call of [article], ten minutes after the first one: it
    is served from the cache, and the table of counters is as empty as
    it was. *)
Lemma cache_hit_consumes_no_quota_witness :
  fst (AnalysisService.analyzeContent article "u-1" tenMinutesLater) =
  Ok {| payload := fromCache verdictResult 1700000001610; cacheStatus := hit |} /\
  usage_analytics (store tenMinutesLater) = [] /\
  usage_analytics (store (snd (AnalysisService.analyzeContent article "u-1"
                                 tenMinutesLater))) = [] /\
  countOf "u-1" 19675
    (store (snd (AnalysisService.analyzeContent article "u-1" tenMinutesLater))) = 0.
Proof.
  destruct (OrchestratorClaims.cache_hit_consumes_no_quota
              article "u-1" tenMinutesLater (fromCache verdictResult 1700000001610))
    as (Hr & _ & _ & Hu & Hc); try (vm_compute; reflexivity).
  - discriminate.
  - split; [exact Hr|]. split; [reflexivity|]. split; [exact Hu | exact Hc].
Defined.

(** The primary provider answers 500: the secondary one is called once
    and its verdict is returned. *)
Lemma fallback_is_tried_exactly_once_witness :
  fetches (trace (snd (AnalysisService.analyzeContent article "u-1" primaryDown))) =
  [OpenAI; Anthropic] /\
  fst (AnalysisService.analyzeContent article "u-1" primaryDown) =
  Ok {| payload := verdictResult; cacheStatus := miss |}.
Proof.
  destruct (OrchestratorClaims.fallback_is_tried_exactly_once
              article "u-1" primaryDown (allowedWith 1)) as [_ H];
    try (vm_compute; reflexivity).
  destruct H as (Hf & Hok & _); [vm_compute; apply BadStatus|].
  split; [exact Hf|].
  rewrite (Hok verdict); [vm_compute; reflexivity|].
  eexists 200, anthropicBody, _, _. repeat split; try (vm_compute; reflexivity).
  discriminate.
Defined.

(** The same outcome when the primary provider answers 200 with a
    completion that holds no JSON document, or without a completion
    text. *)
Lemma fallback_after_an_unusable_answer :
  fst (AnalysisService.analyzeContent article "u-1" primaryRambling) =
  Ok {| payload := verdictResult; cacheStatus := miss |} /\
  fst (AnalysisService.analyzeContent article "u-1" primarySilent) =
  Ok {| payload := verdictResult; cacheStatus := miss |} /\
  fetches (trace (snd (AnalysisService.analyzeContent article "u-1" primaryRambling))) =
  [OpenAI; Anthropic] /\
  fetches (trace (snd (AnalysisService.analyzeContent article "u-1" primarySilent))) =
  [OpenAI; Anthropic].
Proof. repeat split; vm_compute; reflexivity. Qed.

(** Both providers answer 500: the call fails, after one call to each. *)
Lemma both_providers_down :
  fst (AnalysisService.analyzeContent article "u-1" bothDown) =
  Throw "Content analysis failed. Please try again later." /\
  fetches (trace (snd (AnalysisService.analyzeContent article "u-1" bothDown))) =
  [OpenAI; Anthropic].
Proof. split; vm_compute; reflexivity. Qed.

End OrchestratorExamples.

(* ------------------------------------------------------------------ *)
(** ** Token service: issuance and verification *)

Module TokenRoundTrip.
Section WithRuntime.

Context {R : Runtime} {L : RuntimeLaws R}.
Import AuthService.

Lemma Qcompare_inject_Z (a b : Z) : Qcompare (inject_Z a) (inject_Z b) = Z.compare a b.
Proof. unfold Qcompare. simpl. now rewrite !Z.mul_1_r. Qed.

(** An integer claim is below [n] exactly when it is, as an integer. *)
Lemma lessThan_JInt (a n : Z) : lessThan (Some (JInt a)) n = (a <? n).
Proof.
  unfold lessThan, toNumber, JInt. rewrite Qcompare_inject_Z.
  unfold Z.ltb. now destruct (a ?= n).
Qed.

(** The token issued for [u] at an instant whose second is [sec]. *)
Lemma generateJWT_eq (u : User) (secret : string) (w : World) :
  generateJWT u secret w =
  (let h := base64Encode (JSON_stringify (JObj [("alg", JStr "HS256"); ("typ", JStr "JWT")])) in
   let p := base64Encode
              (JSON_stringify
                 (jwtPayload u (clock w / 1000) (clock w / 1000 + 24 * 60 * 60))) in
   (Ok (h ++ String "." (p ++ String "." (createHMAC (h ++ String "." p) secret))), w)).
Proof. reflexivity. Qed.

(** A well-signed token for the payload [claims], checked at [w]. *)
Lemma verifyJWT_signed (h : string) (claims : Json) (secret : string) (w : World) :
  JsString.contains "." h = false ->
  let p := base64Encode (JSON_stringify claims) in
  verifyJWT (h ++ String "." (p ++ String "." (createHMAC (h ++ String "." p) secret)))
            secret w =
  match Js.getProp "exp" (Some claims) with
  | Some exp =>
      if lessThan exp (clock w / 1000) then (Throw "Token expired", w) else (Ok claims, w)
  | None => (Throw "TypeError", w)
  end.
Proof.
  intros Hh p. unfold verifyJWT.
  rewrite JsStringFacts.split_join3;
    [| exact Hh | apply btoaUtf8_no_dot | apply btoaUtf8_no_dot].
  change (h ++ "." ++ p) with (h ++ String "." p).
  rewrite String.eqb_refl. cbn [negb].
  unfold bind, base64Decode. subst p. unfold base64Encode.
  rewrite atobUtf8_btoaUtf8. unfold ret at 1. cbv beta iota.
  rewrite JSON_parse_stringify.
  destruct (Js.getProp "exp" (Some claims)) as [exp|]; [|reflexivity].
  unfold orTypeError, ret, now, throw. cbv beta iota.
  destruct (lessThan exp (clock w / 1000)); reflexivity.
Qed.

(** C4. A token issued by [generateJWT] for an identity verifies under
    the same secret as long as it is not expired, and [verifyJWT]
    returns the claims that were signed: their [userId] is the
    identity's [id] and [exp - iat] is the token lifetime, 24 hours. *)
Theorem verify_issued_token (u : User) (secret : string) (w w2 : World) :
  clock w2 / 1000 <= clock w / 1000 + TOKEN_LIFETIME ->
  exists tok iat exp,
    generateJWT u secret w = (Ok tok, w) /\
    verifyJWT tok secret w2 = (Ok (jwtPayload u iat exp), w2) /\
    Js.getProp "userId" (Some (jwtPayload u iat exp)) = Some (Some (JStr (id u))) /\
    Js.getProp "iat" (Some (jwtPayload u iat exp)) = Some (Some (JInt iat)) /\
    Js.getProp "exp" (Some (jwtPayload u iat exp)) = Some (Some (JInt exp)) /\
    exp - iat = TOKEN_LIFETIME.
Proof.
  intros Hfresh. rewrite generateJWT_eq. cbv zeta.
  eexists _, (clock w / 1000), (clock w / 1000 + 24 * 60 * 60).
  split; [reflexivity|]. split; [|repeat split; unfold TOKEN_LIFETIME; lia].
  rewrite verifyJWT_signed by apply btoaUtf8_no_dot.
  change (Js.getProp "exp" (Some (jwtPayload u (clock w / 1000) (clock w / 1000 + 24 * 60 * 60))))
    with (Some (Some (JInt (clock w / 1000 + 24 * 60 * 60)))).
  cbv beta iota. rewrite lessThan_JInt.
  unfold TOKEN_LIFETIME in Hfresh.
  destruct (Z.ltb_spec (clock w / 1000 + 24 * 60 * 60) (clock w2 / 1000)); [lia|reflexivity].
Qed.

End WithRuntime.
End TokenRoundTrip.

Module TokenRoundTripExamples.
Import Scenario.

(** The token of the scenario, verified one hour after it was issued. *)
Lemma verify_issued_token_witness :
  exists tok iat exp,
    AuthService.generateJWT (R := ModelRuntime.runtime) alice "secret" world0 =
    (Ok tok, world0) /\
    AuthService.verifyJWT (R := ModelRuntime.runtime) tok "secret" hourLater =
    (Ok (AuthService.jwtPayload alice iat exp), hourLater) /\
    Js.getProp "userId" (Some (AuthService.jwtPayload alice iat exp)) =
    Some (Some (JStr (id alice))) /\
    Js.getProp "iat" (Some (AuthService.jwtPayload alice iat exp)) = Some (Some (JInt iat)) /\
    Js.getProp "exp" (Some (AuthService.jwtPayload alice iat exp)) = Some (Some (JInt exp)) /\
    exp - iat = TOKEN_LIFETIME.
Proof.
  apply (TokenRoundTrip.verify_issued_token
           (R := ModelRuntime.runtime) (L := ModelRuntimeFacts.laws)
           alice "secret" world0 hourLater).
  vm_compute. discriminate.
Defined.

End TokenRoundTripExamples.

(* ------------------------------------------------------------------ *)
(** ** Token service: sign-in *)

Module SignInClaims.
Section WithRuntime.

Context {R : Runtime}.
Import AuthService.

Lemma verifyGoogleToken_vouched (idToken clientId : string) (w : World)
      (status : Z) (assertion : Json) :
  headReply w = FetchResponds true status (Some assertion) ->
  Js.getProp "aud" (Some assertion) = Some (Some (JStr clientId)) ->
  verifyGoogleToken idToken clientId w = (Ok assertion, afterFetch GoogleTokenInfo w).
Proof.
  intros Hreply Haud. unfold verifyGoogleToken, bind. rewrite fetch_eq, Hreply.
  cbn [negb]. rewrite Haud. unfold orTypeError, ret at 1. cbv beta iota.
  now rewrite String.eqb_refl.
Qed.

(** For a known subject [findOrCreateUser] returns the row it read and
    then stamps the stored row with the instant of the update. *)
Lemma findOrCreateUser_known (googleUser : Json) (sub : JsVal) (u : User) (w : World) :
  Js.getProp "sub" (Some googleUser) = Some sub ->
  find (knownAs (Js.strOrEmpty sub)) (users (store w)) = Some u ->
  dbFaults (script w) = [] ->
  let wq := afterDb (SelectUserByGoogleId (Js.strOrEmpty sub)) w in
  findOrCreateUser googleUser w =
  (Ok u, setStore (setUsers (loggedIn (clock wq) (id u) (users (store w))) (store w))
                  (afterDb (UpdateLastLogin (clock wq) (id u)) wq)).
Proof.
  intros Hsub Hfind Hf wq. unfold findOrCreateUser, bind.
  rewrite Hsub. unfold orTypeError, ret at 1. cbv beta iota.
  rewrite dbFirst_eq, (headFault_nil w Hf), Hfind. cbn [error data].
  unfold now at 1. cbv beta iota. fold wq.
  rewrite dbRun_eq, headFault_nil by (subst wq; rewrite dbFaults_afterDb, Hf; reflexivity).
  reflexivity.
Qed.


End WithRuntime.
End SignInClaims.

Module SignInExamples.
Import Scenario SignIn.


End SignInExamples.

(* ------------------------------------------------------------------ *)
(** ** Cache manager: lookup and storage *)

Module CacheFacts.
Section WithRuntime.

Context {R : Runtime} {U : Unicode} {D : Deployment} {L : RuntimeLaws R}.
Import CacheService.

Lemma hexDigit_not_underscore (c : ascii) : hexDigit c = true -> Ascii.eqb c "_" = false.
Proof.
  destruct c as [[] [] [] [] [] [] [] []]; intros H; try reflexivity; discriminate H.
Qed.

Lemma allHex_no_underscore (s : string) :
  allHex s = true -> JsString.contains "_" s = false.
Proof.
  induction s as [|c s IH]; simpl; [reflexivity|].
  intros H; apply andb_true_iff in H as [Hc Hs].
  now rewrite (hexDigit_not_underscore c Hc), IH.
Qed.

Lemma allHex_substring0 (n : nat) (s : string) :
  allHex s = true -> allHex (JsString.substring0 n s) = true.
Proof.
  unfold JsString.substring0. revert s.
  induction n as [|n IH]; intros [|c s]; simpl; try reflexivity.
  intros H; apply andb_true_iff in H as [Hc Hs]. now rewrite Hc, IH.
Qed.

Lemma hash_no_underscore (n : nat) (s : string) :
  JsString.contains "_" (JsString.substring0 n (sha256hex s)) = false.
Proof. apply allHex_no_underscore, allHex_substring0, sha256hex_hex. Qed.

(** The key of a request splits into the three columns of its row. *)
Lemma generateCacheKey_split (req : AnalysisRequest) :
  JsString.split "_" (generateCacheKey req) =
  [urlHashOf req; contentHashOf req; modeTag (mode req)].
Proof.
  unfold generateCacheKey. cbv zeta. fold (urlHashOf req). fold (contentHashOf req).
  change (urlHashOf req ++ "_" ++ contentHashOf req ++ "_" ++ modeTag (mode req))
    with (urlHashOf req ++ String "_" (contentHashOf req ++ String "_" (modeTag (mode req)))).
  apply JsStringFacts.split_join3; try apply hash_no_underscore.
  now destruct (mode req).
Qed.

(** What [convertCacheEntryToResult] reads in a row for whose column
    [result] the store hands back the document [setCache] built for
    [res]. *)
Lemma convertCacheEntryToResult_stored (row : CacheEntry) (res : AnalysisResult) (w : World) :
  jsonColumn (result row) = Some (storedResult res) ->
  convertCacheEntryToResult row w = (Ok (fromCache res (cache_created_at row)), w).
Proof.
  intros Hparse. unfold convertCacheEntryToResult. cbv zeta. rewrite Hparse.
  destruct res as [cls lvl score inds why [wc prov time created]].
  unfold storedResult, fromCache. cbn [classification confidenceLevel confidenceScore
    keyIndicators reasoning metadata wordCount provider analysisTime cacheCreatedAt].
  destruct cls, lvl, score, inds, why, wc, prov, time; reflexivity.
Qed.

Lemma deleteCache_eq (req : AnalysisRequest) (w : World) :
  let del := DeleteCache (Some (urlHashOf req)) (Some (contentHashOf req))
               (Some (modeTag (mode req))) in
  deleteCache (generateCacheKey req) w =
  match headFault w with
  | DbExecutes =>
      (Ok tt,
       setStore
         (setCacheEntries
            (filter (fun e => negb (keyed (Some (urlHashOf req)) (Some (contentHashOf req))
                                      (Some (modeTag (mode req))) e))
                    (cache_entries (store w)))
            (store w))
         (afterDb del w))
  | _ => (Ok tt, afterDb del w)
  end.
Proof.
  unfold deleteCache, tryCatch, bind. rewrite generateCacheKey_split. cbv zeta.
  cbn [nth_error]. rewrite dbRun_eq. destruct (headFault w); reflexivity.
Qed.

(** The steps of [getCache] on the key of a request. *)
Lemma getCache_eq (req : AnalysisRequest) (w : World) :
  let w1 := afterDb (SelectCache (Some (urlHashOf req)) (Some (contentHashOf req))
                       (Some (modeTag (mode req)))) w in
  getCache (generateCacheKey req) w =
  match headFault w with
  | DbExecutes =>
      match cachedFor req (store w) with
      | None => (Ok None, w1)
      | Some row =>
          if 24 * 60 * 60 * 1000 <? clock w1 - cache_created_at row
          then (Ok None, snd (deleteCache (generateCacheKey req) w1))
          else match fst (convertCacheEntryToResult row w1) with
               | Ok res => (Ok (Some res), w1)
               | Throw _ => (Ok None, w1)
               end
      end
  | _ => (Ok None, w1)
  end.
Proof.
  intros w1. unfold getCache, tryCatch, bind. rewrite generateCacheKey_split. cbv zeta.
  cbn [nth_error]. rewrite dbFirst_eq. fold w1.
  destruct (headFault w); try reflexivity.
  cbn [error data]. unfold cachedFor.
  destruct (find _ (cache_entries (store w))) as [row|]; [|reflexivity].
  unfold now at 1. cbv beta iota.
  destruct (24 * 60 * 60 * 1000 <? clock w1 - cache_created_at row).
  - pose proof (deleteCache_eq req w1) as Del. cbv zeta in Del.
    destruct (deleteCache (generateCacheKey req) w1) as [[[]|e] w2] eqn:E; [reflexivity|].
    rewrite Del in E. destruct (headFault w1); discriminate.
  - pose proof (ServiceEffects.convertCacheEntryToResult_unchanged row w1) as Same.
    unfold unchanged in Same.
    destruct (convertCacheEntryToResult row w1) as [[res|e] w2]; simpl in Same; now subst w2.
Qed.

(** The steps of [setCache] on the key of a request. *)
Lemma setCache_eq (req : AnalysisRequest) (res : AnalysisResult) (host : string) (w : World) :
  urlHostname (url req) = Some host ->
  let row := writtenEntry req res host (clock w) in
  setCache (generateCacheKey req) res req w =
  match headFault w with
  | DbExecutes =>
      (Ok tt, setStore (setCacheEntries (cache_entries (store w) ++ [row]) (store w))
                       (afterDb (InsertCache row) w))
  | _ => (Ok tt, afterDb (InsertCache row) w)
  end.
Proof.
  intros Hhost row. unfold setCache, tryCatch, bind.
  rewrite generateCacheKey_split, Hhost. cbv zeta. cbn [nth_error].
  unfold now. cbv beta iota. fold (writtenEntry req res host (clock w)). fold row.
  rewrite dbRun_eq. destruct (headFault w); reflexivity.
Qed.

(** X20. A store that hands back, for the column [result], the text
    that was bound to it never serves a result: reading the metadata of
    a text raises a [TypeError], which [getCache] turns into a miss. *)
Theorem getCache_of_a_text_column (key : string) (w : World) :
  (forall bound, jsonColumn bound = Some (JStr bound)) ->
  fst (getCache key w) = Ok None.
Proof.
  intros Htext. unfold getCache, tryCatch, bind. cbv zeta.
  destruct (dbFirst _ _ w) as [[[[row|] []]|e] w1]; try reflexivity.
  cbn [error data]. unfold now at 1. cbv beta iota.
  match goal with |- context [if ?c then _ else _] => destruct c end.
  - destruct (deleteCache key w1) as [[[]|e] w2]; reflexivity.
  - unfold convertCacheEntryToResult, bind. cbv zeta. rewrite Htext. reflexivity.
Qed.

End WithRuntime.
End CacheFacts.

(* ------------------------------------------------------------------ *)
(** ** Properties of returned values, through the combinators *)

Section ReturnsFacts.

Context {A : Type} (P : A -> Prop).

Lemma Returns_ret (a : A) : P a -> Returns P (ret a).
Proof. intros H w b E. inversion E. now subst. Qed.

Lemma Returns_throw (msg : string) : Returns P (throw msg).
Proof. intros w b E. discriminate. Qed.

Lemma Returns_bind {B} (m : M B) (k : B -> M A) :
  (forall b, Returns P (k b)) -> Returns P (bind m k).
Proof.
  intros Hk w a. unfold bind. destruct (m w) as [[b|e] w1]; [apply Hk | discriminate].
Qed.

Lemma Returns_tryCatch (m : M A) (h : string -> M A) :
  Returns P m -> (forall e, Returns P (h e)) -> Returns P (tryCatch m h).
Proof.
  intros Hm Hh w a. unfold tryCatch. specialize (Hm w).
  destruct (m w) as [[b|e] w1]; simpl in *; [exact (Hm a) | apply Hh].
Qed.

End ReturnsFacts.

Ltac returns_with leaf :=
  repeat first
    [ apply Returns_throw
    | apply Returns_ret; leaf
    | apply Returns_bind; intros ?
    | apply Returns_tryCatch; [|intros ?]
    | match goal with
      | |- Returns _ (match ?x with _ => _ end) => destruct x
      | |- Returns _ (let _ := _ in _) => cbv zeta
      end ].

Module AnalysisEffects.
Section WithRuntime.

Context {R : Runtime} {U : Unicode} {D : Deployment}.
Import AnalysisService.

Lemma performAnalysis_clockAdvances req : Preserves clockAdvances (performAnalysis req).
Proof.
  unfold performAnalysis, analyzeWithOpenAI, analyzeWithAnthropic, readCompletion,
    parseAnalysisResult.
  clock_advances.
Qed.

Lemma performAnalysis_sameStore req : Preserves sameStore (performAnalysis req).
Proof.
  unfold performAnalysis, analyzeWithOpenAI, analyzeWithAnthropic, readCompletion,
    parseAnalysisResult.
  same_store.
Qed.

Lemma performAnalysis_staysReliable req : Preserves staysReliable (performAnalysis req).
Proof.
  unfold performAnalysis, analyzeWithOpenAI, analyzeWithAnthropic, readCompletion,
    parseAnalysisResult.
  stays_reliable.
Qed.

Lemma parseAnalysisResult_fresh a p n : Returns fresh (parseAnalysisResult a p n).
Proof. unfold parseAnalysisResult. returns_with ltac:(unfold fresh; reflexivity). Qed.

(** What [performAnalysis] returns does not come from the cache. *)
Lemma performAnalysis_fresh req : Returns fresh (performAnalysis req).
Proof.
  intros w res. rewrite AnalysisFacts.performAnalysis_eq.
  assert (F1 : Returns fresh (analyzeWithOpenAI req)).
  { unfold analyzeWithOpenAI, readCompletion.
    returns_with ltac:(unfold fresh; reflexivity); apply parseAnalysisResult_fresh. }
  assert (F2 : Returns fresh (analyzeWithAnthropic req)).
  { unfold analyzeWithAnthropic, readCompletion.
    returns_with ltac:(unfold fresh; reflexivity); apply parseAnalysisResult_fresh. }
  specialize (F1 w).
  destruct (analyzeWithOpenAI req w) as [[r|e] w1]; simpl in *.
  - intros E. inversion E. apply (F1 r eq_refl).
  - specialize (F2 w1). destruct (analyzeWithAnthropic req w1) as [[r|e'] w2]; simpl in *.
    + intros E. inversion E. apply (F2 r eq_refl).
    + discriminate.
Qed.

End WithRuntime.
End AnalysisEffects.

(* ------------------------------------------------------------------ *)
(** ** Orchestrator: a repeated request *)

Module RepeatedRequest.
Section WithRuntime.

Context {R : Runtime} {U : Unicode} {D : Deployment}.
Context {L : RuntimeLaws R} {S : StoresDocuments R D}.
Import AnalysisService AnalysisFacts ServiceEffects CacheFacts AnalysisEffects.

Lemma find_last {A} (f : A -> bool) (l : list A) (x : A) :
  find f l = None -> f x = true -> find f (l ++ [x]) = Some x.
Proof.
  induction l as [|y l IH]; simpl; intros Hn Hx.
  - now rewrite Hx.
  - destruct (f y); [discriminate | now apply IH].
Qed.

Lemma keyed_writtenEntry req res host t :
  CacheService.keyed (Some (urlHashOf req)) (Some (contentHashOf req))
    (Some (modeTag (mode req))) (writtenEntry req res host t) = true.
Proof.
  unfold CacheService.keyed, CacheService.sameColumn, writtenEntry. simpl.
  now rewrite !String.eqb_refl.
Qed.

(** The key is a function of the locator, the content and the mode. *)
Lemma generateCacheKey_same (req req2 : AnalysisRequest) :
  url req2 = url req -> text req2 = text req -> mode req2 = mode req ->
  CacheService.generateCacheKey req2 = CacheService.generateCacheKey req.
Proof. intros Hu Ht Hm. unfold CacheService.generateCacheKey. now rewrite Hu, Ht, Hm. Qed.

(** A first call that finds no row for the request and succeeds leaves
    the row of its result last in the table, written at an instant of
    the call. *)
Lemma first_call_stores (req : AnalysisRequest) (uid host : string)
      (w w1 : World) (resp : ApiResponse) :
  dbFaults (script w) = [] ->
  cachedFor req (store w) = None ->
  urlHostname (url req) = Some host ->
  analyzeContent req uid w = (Ok resp, w1) ->
  cacheStatus resp = miss /\ fresh (payload resp) /\
  exists created,
    clock w <= created <= clock w1 /\
    cache_entries (store w1) =
    (cache_entries (store w) ++ [writtenEntry req (payload resp) host created])%list.
Proof.
  intros Hf Habsent Hhost Hcall. rewrite analyzeContent_eq in Hcall.
  pose proof (checkRateLimit_staysReliable uid w Hf) as Fa.
  pose proof (checkRateLimit_sameCache uid w) as Ca.
  pose proof (checkRateLimit_clockAdvances uid w) as Ta.
  destruct (RateLimitService.checkRateLimit uid w) as [[rl|e] wa]; [|discriminate].
  simpl in Fa, Ca, Ta. destruct (negb (allowed rl)); [discriminate|].
  pose proof (getCache_eq req wa) as G. cbv zeta in G.
  rewrite (headFault_nil wa Fa) in G.
  unfold cachedFor in G, Habsent. rewrite Ca, Habsent in G. rewrite G in Hcall. clear G.
  set (wb := afterDb _ wa) in *.
  assert (Fb : dbFaults (script wb) = []) by (subst wb; rewrite dbFaults_afterDb, Fa; reflexivity).
  assert (Tb : clock wa <= clock wb) by apply clock_afterDb_le.
  pose proof (performAnalysis_staysReliable req wb Fb) as Fp.
  pose proof (performAnalysis_sameStore req wb) as Sp.
  pose proof (performAnalysis_clockAdvances req wb) as Tp.
  pose proof (performAnalysis_fresh req wb) as Rp.
  destruct (performAnalysis req wb) as [[res|e] wp]; [|discriminate].
  simpl in Fp, Sp, Tp, Rp. inversion Hcall; subst resp w1; clear Hcall.
  split; [reflexivity|]. split; [apply Rp; reflexivity|].
  exists (clock wp).
  rewrite (setCache_eq req res host wp Hhost). cbv zeta.
  rewrite (headFault_nil wp Fp). cbn [snd payload].
  split.
  - pose proof (clock_afterDb_le (InsertCache (writtenEntry req res host (clock wp))) wp).
    unfold clockAdvances in *. cbn [clock setStore]. lia.
  - cbn [store setStore cache_entries setCacheEntries].
    unfold sameStore in Sp. rewrite Sp. unfold sameCache in Ca.
    change (store wb) with (store wa). now rewrite Ca.
Qed.


End WithRuntime.
End RepeatedRequest.

Module RepeatedRequestExamples.
Import Scenario Requests Orchestration.

#[local] Existing Instances ModelRuntime.runtime ModelRuntime.unicode ModelRuntime.deployment.



(** With a store that hands back the text bound to the column
    [result], the lookup of the second call finds the row and is a
    miss. *)
Lemma getCache_of_a_text_column_witness :
  cachedFor article (store tenMinutesLater) <> None /\
  fst (CacheService.getCache (D := ModelRuntime.textDeployment)
         (CacheService.generateCacheKey article) tenMinutesLater) = Ok None.
Proof.
  split; [vm_compute; discriminate|].
  apply (CacheFacts.getCache_of_a_text_column (D := ModelRuntime.textDeployment)).
  reflexivity.
Defined.

(** With such a store the second call is not served from the cache:
    both providers are asked again. *)
Lemma second_call_with_a_text_column :
  fetches (trace (snd (AnalysisService.analyzeContent (D := ModelRuntime.textDeployment)
                         article "u-1" tenMinutesLater))) =
  (fetches (trace tenMinutesLater) ++ [OpenAI; Anthropic])%list.
Proof. vm_compute. reflexivity. Qed.

End RepeatedRequestExamples.

(* ------------------------------------------------------------------ *)
(** ** Revocation records are kept until they expire *)

Section Retention.

Context {R : Runtime} {U : Unicode} {D : Deployment}.

Lemma retains_refl w : retains w w.
Proof. split; [apply clockAdvances_refl | intros e H _; exact H]. Qed.

Lemma retains_trans a b c : retains a b -> retains b c -> retains a c.
Proof.
  intros [T1 K1] [T2 K2]. split; [eapply clockAdvances_trans; eassumption|].
  intros e Hin Hexp. apply K2; [|exact Hexp]. apply K1; [exact Hin|].
  unfold clockAdvances in *. lia.
Qed.

Lemma dbFirst_retains {A} s (q : Store -> option A) : Preserves retains (dbFirst s q).
Proof.
  intros w. split; [apply dbFirst_clockAdvances|].
  rewrite dbFirst_eq. destruct (headFault w); intros e H _; exact H.
Qed.

Lemma fetch_retains t : Preserves retains (fetch t).
Proof.
  intros w. split; [apply fetch_clockAdvances|].
  rewrite fetch_eq. destruct (headReply w); intros e H _; exact H.
Qed.

Lemma randomUUID_retains : Preserves retains randomUUID.
Proof. intros w. split; [apply randomUUID_clockAdvances | intros e H _; exact H]. Qed.

(** A statement that removes no revocation record. *)
Lemma dbRun_retains s change :
  (forall st e, In e (token_blacklist st) -> In e (token_blacklist (change st))) ->
  Preserves retains (dbRun s change).
Proof.
  intros Hkeep w. split; [apply dbRun_clockAdvances|].
  rewrite dbRun_eq. destruct (headFault w); intros e H _; simpl; auto.
Qed.

Ltac retains_records :=
  preserves_with retains_refl retains_trans
    ltac:(first [ apply dbFirst_retains | apply fetch_retains | apply randomUUID_retains
                | apply dbRun_retains; intros ? ? ?; simpl;
                  first [ assumption | apply in_or_app; left; assumption ] ]).

Lemma cleanupExpiredTokens_retains :
  Preserves retains AuthService.cleanupExpiredTokens.
Proof.
  intros w. split; [|apply AuthServiceFacts.cleanupExpiredTokens_keepsUnexpired].
  revert w. change (Preserves clockAdvances AuthService.cleanupExpiredTokens).
  unfold AuthService.cleanupExpiredTokens. clock_advances.
Qed.

Lemma addTokenToBlacklist_retains tok uid :
  Preserves retains (AuthService.addTokenToBlacklist tok uid).
Proof. unfold AuthService.addTokenToBlacklist. retains_records. Qed.

Lemma extractUserFromToken_retains authorization env :
  Preserves retains (AuthService.extractUserFromToken authorization env).
Proof.
  unfold AuthService.extractUserFromToken, AuthService.checkTokenBlacklist.
  retains_records.
Qed.

Lemma authenticateWithGoogle_retains idToken env :
  Preserves retains (AuthService.authenticateWithGoogle idToken env).
Proof.
  unfold AuthService.authenticateWithGoogle, AuthService.verifyGoogleToken,
    AuthService.findOrCreateUser, AuthService.generateJWT.
  retains_records.
Qed.

Lemma analyzeContent_retains req uid :
  Preserves retains (AnalysisService.analyzeContent req uid).
Proof.
  unfold AnalysisService.analyzeContent, RateLimitService.checkRateLimit,
    RateLimitService.incrementUsageForUser, RateLimitService.incrementUsage,
    CacheService.getCache, CacheService.deleteCache, CacheService.setCache,
    CacheService.convertCacheEntryToResult,
    AnalysisService.performAnalysis, AnalysisService.analyzeWithOpenAI,
    AnalysisService.analyzeWithAnthropic, AnalysisService.readCompletion,
    AnalysisService.parseAnalysisResult.
  retains_records.
Qed.

End Retention.

(* ------------------------------------------------------------------ *)
(** ** Token service: what a verified token guarantees *)

Module SplitFacts.
Import JsString.

Lemma split_nonempty (sep : ascii) (s : string) : split sep s <> [].
Proof.
  destruct s as [|c r]; simpl; [discriminate|].
  destruct (Ascii.eqb c sep); [discriminate|].
  destruct (split sep r); discriminate.
Qed.

(** The first part of a split has no separator, and the rest of the
    parts are the split of what follows the first separator. *)
Lemma split_cons (sep : ascii) (s h : string) (t : list string) :
  split sep s = h :: t ->
  contains sep h = false /\
  match t with
  | [] => s = h
  | _ :: _ => exists r, s = h ++ String sep r /\ split sep r = t
  end.
Proof.
  revert h t. induction s as [|c r IH]; simpl; intros h t H.
  - inversion H. auto.
  - destruct (Ascii.eqb_spec c sep) as [E|E].
    + inversion H. subst h. split; [reflexivity|].
      destruct (split sep r) as [|x l] eqn:S; [now apply split_nonempty in S|].
      subst c. exists r. rewrite S. auto.
    + destruct (split sep r) as [|h' t'] eqn:S; [now apply split_nonempty in S|].
      inversion H. subst h t. destruct (IH h' t' eq_refl) as [Hc Ht].
      split.
      * simpl. rewrite Hc. now destruct (Ascii.eqb_spec c sep).
      * destruct t' as [|x l].
        -- now subst r.
        -- destruct Ht as (r' & -> & Hr). exists r'. auto.
Qed.

(** A string that splits into three parts is the three parts joined by
    the separator. *)
Lemma split_three (sep : ascii) (s a b c : string) :
  split sep s = [a; b; c] ->
  s = a ++ String sep (b ++ String sep c) /\
  contains sep a = false /\ contains sep b = false /\ contains sep c = false.
Proof.
  intros H. apply split_cons in H as (Ha & r & -> & H).
  apply split_cons in H as (Hb & r' & -> & H).
  apply split_cons in H as (Hc & ->). auto.
Qed.

End SplitFacts.

Module TokenVerification.
Section WithRuntime.

Context {R : Runtime}.
Import AuthService AuthServiceFacts.



(** X3. Authentication fails closed: when the store answers the
    revocation lookup with an error, or the lookup rejects, every
    token, valid ones included, is refused with the opaque message. *)
Theorem revocation_lookup_failure_denies
        (authorization : string) (env : Env) (w : World) :
  headFault w <> DbExecutes ->
  fst (extractUserFromToken authorization env w) =
  Throw "Authentication failed: Invalid token" /\
  store (snd (extractUserFromToken authorization env w)) = store w.
Proof.
  intros Hf. rewrite extractUserFromToken_eq. cbv zeta.
  rewrite checkTokenBlacklist_eq. cbv zeta.
  destruct (headFault w); [contradiction | split; reflexivity ..].
Qed.

(** X4. [cleanupExpiredTokens] never fails and issues one statement.
    When the statement executes, the records left are exactly those
    that were there and whose expiry is not before the instant of the
    call; otherwise the store is as it was.  The other tables are never
    touched. *)
Theorem cleanupExpiredTokens_removes_the_expired_records (w : World) :
  let w' := snd (cleanupExpiredTokens w) in
  fst (cleanupExpiredTokens w) = Ok tt /\
  trace w' = (trace w ++ [EvDb (DeleteExpiredBlacklist (clock w))])%list /\
  users (store w') = users (store w) /\
  usage_analytics (store w') = usage_analytics (store w) /\
  cache_entries (store w') = cache_entries (store w) /\
  match headFault w with
  | DbExecutes =>
      forall e, In e (token_blacklist (store w')) <->
                In e (token_blacklist (store w)) /\ clock w <= expires_at e
  | _ => store w' = store w
  end.
Proof.
  unfold cleanupExpiredTokens, tryCatch, bind, now. cbv beta iota zeta.
  rewrite dbRun_eq. destruct (headFault w); simpl; auto 10.
  do 5 (split; [reflexivity|]). intros e. rewrite filter_In, negb_true_iff, Z.ltb_ge.
  tauto.
Qed.

End WithRuntime.
End TokenVerification.

Module TokenVerificationExamples.
Import Scenario Outage.



(** The store answers the lookup with an error: the valid session token
    of the scenario is refused. *)
Lemma revocation_lookup_failure_denies_witness :
  fst (AuthService.verifyJWT (R := ModelRuntime.runtime) sessionToken "secret" storeDown) =
  Ok (AuthService.jwtPayload alice 1700000000 1700086400) /\
  fst (AuthService.extractUserFromToken (R := ModelRuntime.runtime)
         ("Bearer " ++ sessionToken) env0 storeDown) =
  Throw "Authentication failed: Invalid token".
Proof.
  split; [vm_compute; reflexivity|].
  apply (TokenVerification.revocation_lookup_failure_denies
           (R := ModelRuntime.runtime) ("Bearer " ++ sessionToken) env0 storeDown).
  vm_compute. discriminate.
Defined.

End TokenVerificationExamples.

(* ------------------------------------------------------------------ *)
(** ** Token service: the life of an issued token *)

Module IssuedTokens.
Section WithRuntime.

Context {R : Runtime} {L : RuntimeLaws R}.
Import AuthService AuthServiceFacts.

(** What [verifyJWT] says at [w2] of the token issued at [w]. *)
Lemma verifyJWT_issued (u : User) (secret tok : string) (w w2 : World) :
  fst (generateJWT u secret w) = Ok tok ->
  verifyJWT tok secret w2 =
  if clock w / 1000 + 24 * 60 * 60 <? clock w2 / 1000
  then (Throw "Token expired", w2)
  else (Ok (jwtPayload u (clock w / 1000) (clock w / 1000 + 24 * 60 * 60)), w2).
Proof.
  rewrite TokenRoundTrip.generateJWT_eq. cbv zeta. intros H. inversion H. clear H.
  rewrite TokenRoundTrip.verifyJWT_signed by apply btoaUtf8_no_dot.
  change (Js.getProp "exp" (Some (jwtPayload u (clock w / 1000) (clock w / 1000 + 24 * 60 * 60))))
    with (Some (Some (JInt (clock w / 1000 + 24 * 60 * 60)))).
  cbv beta iota. rewrite TokenRoundTrip.lessThan_JInt.
  destruct (_ <? _); reflexivity.
Qed.

(** X5. Once the second of the clock is past the expiry of an issued
    token, [verifyJWT] refuses the token with ["Token expired"], and
    [requireAuth] refuses it with its collapsed message, whatever the
    store answers. *)
Theorem issued_token_is_refused_once_expired (u : User) (env : Env) (w w2 : World) :
  clock w / 1000 + TOKEN_LIFETIME < clock w2 / 1000 ->
  exists tok,
    generateJWT u (JWT_SECRET env) w = (Ok tok, w) /\
    verifyJWT tok (JWT_SECRET env) w2 = (Throw "Token expired", w2) /\
    fst (AuthMiddleware.requireAuth (Some ("Bearer " ++ tok)) env w2) =
    Throw "Authentication required: Invalid token".
Proof.
  intros Hlate. unfold TOKEN_LIFETIME in Hlate.
  destruct (generateJWT u (JWT_SECRET env) w) as [[tok|e] w'] eqn:G;
    rewrite TokenRoundTrip.generateJWT_eq in G; [|discriminate].
  assert (Hw : w' = w) by (cbv zeta in G; now inversion G). subst w'.
  exists tok. split; [reflexivity|].
  assert (V : verifyJWT tok (JWT_SECRET env) w2 = (Throw "Token expired", w2)).
  { rewrite (verifyJWT_issued u (JWT_SECRET env) tok w w2)
      by (rewrite TokenRoundTrip.generateJWT_eq, G; reflexivity).
    destruct (Z.ltb_spec (clock w / 1000 + 24 * 60 * 60) (clock w2 / 1000)); [reflexivity|lia]. }
  split; [exact V|].
  unfold AuthMiddleware.requireAuth. change ("Bearer " ++ tok) with (String "B" ("earer " ++ tok)).
  cbn [String.eqb Ascii.eqb].
  change (String "B" ("earer " ++ tok)) with ("Bearer " ++ tok).
  unfold JsString.startsWith. rewrite JsStringFacts.prefix_app. cbn [negb].
  unfold tryCatch. rewrite extractUserFromToken_eq. cbv zeta.
  rewrite JsStringFacts.removeFirst_prefix, V.
  destruct (checkTokenBlacklist tok w2) as [[[]|e] wb]; reflexivity.
Qed.

(** X6. A token issued under one secret is refused, with ["Invalid
    token signature"], by a verification under a secret for which the
    HMAC of its first two parts is another one. *)
Theorem issued_token_is_refused_under_another_secret
        (u : User) (secret other : string) (w w2 : World) :
  (forall message, createHMAC message secret <> createHMAC message other) ->
  exists tok,
    generateJWT u secret w = (Ok tok, w) /\
    verifyJWT tok other w2 = (Throw "Invalid token signature", w2).
Proof.
  intros Hdiff. rewrite TokenRoundTrip.generateJWT_eq. cbv zeta.
  eexists. split; [reflexivity|]. unfold verifyJWT.
  rewrite JsStringFacts.split_join3; try apply btoaUtf8_no_dot.
  match goal with
  | |- context [String.eqb ?a ?b] => destruct (String.eqb_spec a b) as [E|E]
  end; [|reflexivity].
  exfalso. exact (Hdiff _ E).
Qed.

(** A sign-in that succeeds answers with the token [generateJWT] issued
    for the user it answers with, in the world it ends in. *)
Lemma authenticateWithGoogle_inv (idToken : string) (env : Env) (w w1 : World)
      (resp : AuthResponse) :
  authenticateWithGoogle idToken env w = (Ok resp, w1) ->
  generateJWT (user resp) (JWT_SECRET env) w1 = (Ok (token resp), w1) /\
  isNewUser resp = (created_at (user resp) =? last_login_at (user resp)).
Proof.
  unfold authenticateWithGoogle, tryCatch, bind.
  destruct (verifyGoogleToken _ _ w) as [[g|e] wa]; [|discriminate].
  destruct (findOrCreateUser g wa) as [[u|e] wb]; [|discriminate].
  rewrite TokenRoundTrip.generateJWT_eq. cbv zeta. unfold ret.
  intros H. inversion H. subst. simpl. auto.
Qed.


End WithRuntime.
End IssuedTokens.

Module SignInProperties.
Section WithRuntime.

Context {R : Runtime}.
Import AuthService AuthServiceFacts.

(** A document in which a property was found is an object. *)
Lemma getProp_found (k : string) (d v : Json) :
  Js.getProp k (Some d) = Some (Some v) -> exists fs, d = JObj fs.
Proof. destruct d; try discriminate. intros _. eexists. reflexivity. Qed.

(** X8. A sign-in that the identity provider does not vouch for (the
    request fails, the status is not a success, the body cannot be
    read, or its audience is not the configured client) fails with
    ["Failed to authenticate with Google"] after the one HTTP call: no
    statement is sent to the store. *)
Theorem unvouched_sign_in_sends_no_statement (idToken : string) (env : Env) (w : World) :
  (forall status assertion,
      headReply w = FetchResponds true status (Some assertion) ->
      Js.getProp "aud" (Some assertion) <> Some (Some (JStr (GOOGLE_CLIENT_ID env)))) ->
  authenticateWithGoogle idToken env w =
  (Throw "Failed to authenticate with Google", afterFetch GoogleTokenInfo w).
Proof.
  intros Hno. unfold authenticateWithGoogle, tryCatch, bind, verifyGoogleToken, bind.
  rewrite fetch_eq.
  destruct (headReply w) as [|[] status [assertion|]] eqn:Hr; try reflexivity.
  specialize (Hno status assertion eq_refl). cbn [negb].
  destruct (Js.getProp "aud" (Some assertion)) as [[[| | |a| |]|]|]; try reflexivity.
  unfold orTypeError, ret at 1. cbv beta iota.
  destruct (String.eqb_spec a (GOOGLE_CLIENT_ID env)) as [->|]; [|reflexivity].
  exfalso. apply Hno. reflexivity.
Qed.


End WithRuntime.
End SignInProperties.

Module IssuedTokensExamples.
Import Scenario SignIn Later.

(** The session token of the scenario, two days after it was issued. *)
Lemma issued_token_is_refused_once_expired_witness :
  exists tok,
    AuthService.generateJWT (R := ModelRuntime.runtime) alice (JWT_SECRET env0) world0 =
    (Ok tok, world0) /\
    AuthService.verifyJWT (R := ModelRuntime.runtime) tok (JWT_SECRET env0) twoDaysLater =
    (Throw "Token expired", twoDaysLater) /\
    fst (AuthMiddleware.requireAuth (R := ModelRuntime.runtime)
           (Some ("Bearer " ++ tok)) env0 twoDaysLater) =
    Throw "Authentication required: Invalid token".
Proof.
  apply (IssuedTokens.issued_token_is_refused_once_expired
           (R := ModelRuntime.runtime) (L := ModelRuntimeFacts.laws)
           alice env0 world0 twoDaysLater).
  vm_compute. reflexivity.
Defined.

Lemma hmac_of_the_model_depends_on_the_secret (message : string) :
  AuthService.createHMAC (R := ModelRuntime.runtime) message "secret" <>
  AuthService.createHMAC (R := ModelRuntime.runtime) message "other".
Proof. unfold AuthService.createHMAC, AuthService.base64Encode. simpl. discriminate. Qed.

(** The session token of the scenario, verified under another secret. *)
Lemma issued_token_is_refused_under_another_secret_witness :
  exists tok,
    AuthService.generateJWT (R := ModelRuntime.runtime) alice "secret" world0 =
    (Ok tok, world0) /\
    AuthService.verifyJWT (R := ModelRuntime.runtime) tok "other" hourLater =
    (Throw "Invalid token signature", hourLater).
Proof.
  apply (IssuedTokens.issued_token_is_refused_under_another_secret
           (R := ModelRuntime.runtime) (L := ModelRuntimeFacts.laws)
           alice "secret" "other" world0 hourLater).
  exact hmac_of_the_model_depends_on_the_secret.
Defined.


(** The identity provider answers for another client. *)
Lemma unvouched_sign_in_sends_no_statement_witness :
  AuthService.authenticateWithGoogle (R := ModelRuntime.runtime) "id-token" env0 otherAudience =
  (Throw "Failed to authenticate with Google", afterFetch GoogleTokenInfo otherAudience) /\
  trace (afterFetch GoogleTokenInfo otherAudience) = [EvFetch GoogleTokenInfo].
Proof.
  split; [|reflexivity].
  apply (SignInProperties.unvouched_sign_in_sends_no_statement
           (R := ModelRuntime.runtime) "id-token" env0 otherAudience).
  intros status assertion H. vm_compute in H. inversion H. discriminate.
Defined.


End IssuedTokensExamples.

(* ------------------------------------------------------------------ *)
(** ** Rate limiter: store failures and an existing counter row *)

Module RateLimitProperties.
Section WithDeployment.

Context {D : Deployment}.
Import RateLimitService RateLimitFacts.

(** X10. The limiter fails open: when the store answers the read of the
    counter with an error, or the read rejects, the request is let
    through without a count, and nothing is written. *)
Theorem checkRateLimit_fails_open (uid : string) (w : World) :
  uid <> "" ->
  headFault w <> DbExecutes ->
  checkRateLimit uid w =
  (Ok allowedBlindly, afterDb (SelectUsage uid (isoDate (clock w))) w).
Proof.
  intros Huid Hf. rewrite checkRateLimit_eq.
  destruct (String.eqb_spec uid "") as [E|_]; [contradiction|]. cbv zeta.
  destruct (headFault w); [contradiction | reflexivity ..].
Qed.

(** One call on a counter row below the limit, in an environment
    without store failure and without latency. *)
Lemma checkRateLimit_step (uid : string) (w : World) (row : UsageAnalytics) :
  uid <> "" ->
  dbFaults (script w) = [] ->
  latencies (script w) = [] ->
  find (usageOf uid (isoDate (clock w))) (usage_analytics (store w)) = Some row ->
  daily_count row < DAILY_LIMIT ->
  exists w1 row1,
    checkRateLimit uid w = (Ok (allowedWith (daily_count row + 1)), w1) /\
    dbFaults (script w1) = [] /\ latencies (script w1) = [] /\ clock w1 = clock w /\
    find (usageOf uid (isoDate (clock w))) (usage_analytics (store w1)) = Some row1 /\
    daily_count row1 = daily_count row + 1.
Proof.
  intros Huid Hf Hl Hrow Hlow. rewrite checkRateLimit_eq.
  destruct (String.eqb_spec uid "") as [E|_]; [contradiction|]. cbv zeta.
  rewrite (headFault_nil w Hf).
  assert (Hc : countOf uid (isoDate (clock w)) (store w) = daily_count row)
    by (unfold countOf; now rewrite Hrow).
  rewrite Hc.
  destruct (Z.leb_spec DAILY_LIMIT (daily_count row)); [lia|].
  rewrite incrementUsage_eq. cbv zeta.
  rewrite headFault_nil by (rewrite dbFaults_afterDb, Hf; reflexivity).
  eexists _, _. split; [reflexivity|]. cbn [snd].
  split; [simpl; now rewrite Hf|].
  split; [simpl; now rewrite Hl|].
  split; [simpl; rewrite Hl; simpl; lia|].
  split; [simpl; apply (find_incremented _ _ _ row Hrow) | reflexivity].
Qed.



End WithDeployment.
End RateLimitProperties.

Module RateLimitExamples.
Import Scenario Outage Orchestration RateLimitService.

#[local] Existing Instances ModelRuntime.runtime ModelRuntime.unicode ModelRuntime.deployment.

Lemma checkRateLimit_fails_open_witness :
  checkRateLimit "u-1" storeDown =
  (Ok allowedBlindly, afterDb (SelectUsage "u-1" (isoDate (clock storeDown))) storeDown).
Proof.
  apply (RateLimitProperties.checkRateLimit_fails_open "u-1" storeDown).
  - discriminate.
  - vm_compute. discriminate.
Defined.



End RateLimitExamples.

(* ------------------------------------------------------------------ *)
(** ** Cache manager: failures, expiry and the round trip *)

Module CacheProperties.
Section WithRuntime.

Context {R : Runtime} {U : Unicode} {D : Deployment}.
Import CacheService.

(** X13. For [getCache] a store failure is a miss: when the store
    answers the lookup with an error, or the lookup rejects, [getCache]
    returns no result after that one statement, which leaves the store
    as it was. *)
Theorem getCache_misses_on_store_failure (cacheKey : string) (w : World) :
  headFault w <> DbExecutes ->
  let parts := JsString.split "_" cacheKey in
  getCache cacheKey w =
  (Ok None, afterDb (SelectCache (nth_error parts 0) (nth_error parts 1) (nth_error parts 2)) w).
Proof.
  intros Hf parts. unfold getCache, tryCatch, bind. cbv zeta. fold parts.
  rewrite dbFirst_eq. destruct (headFault w); [contradiction | reflexivity ..].
Qed.

(** A result is not cached for a locator the platform cannot
    parse: [setCache] then succeeds without sending any statement. *)
Theorem setCache_writes_nothing_without_a_host
        (cacheKey : string) (res : AnalysisResult) (req : AnalysisRequest) (w : World) :
  urlHostname (url req) = None ->
  setCache cacheKey res req w = (Ok tt, w).
Proof. intros H. unfold setCache, tryCatch. now rewrite H. Qed.

Lemma find_filter_negb {A} (f : A -> bool) (l : list A) :
  find f (filter (fun e => negb (f e)) l) = None.
Proof.
  induction l as [|x l IH]; simpl; [reflexivity|].
  destruct (f x) eqn:E; simpl; [exact IH | now rewrite E].
Qed.

End WithRuntime.

Section WithLaws.

Context {R : Runtime} {U : Unicode} {D : Deployment} {L : RuntimeLaws R}.
Import CacheService CacheFacts.



(** X16. A row for whose result column the store hands nothing back
    is a miss, and it stays in the table: the lookup returns no result
    and leaves the store as it was. *)
Theorem unreadable_entry_is_a_miss (req : AnalysisRequest) (w : World) (row : CacheEntry) :
  let select := SelectCache (Some (urlHashOf req)) (Some (contentHashOf req))
                  (Some (modeTag (mode req))) in
  headFault w = DbExecutes ->
  cachedFor req (store w) = Some row ->
  clock (afterDb select w) - cache_created_at row <= 24 * 60 * 60 * 1000 ->
  jsonColumn (result row) = None ->
  getCache (generateCacheKey req) w = (Ok None, afterDb select w).
Proof.
  intros select Hf Hrow Hage Hbad.
  pose proof (getCache_eq req w) as G. cbv zeta in G. fold select in G.
  rewrite Hf, Hrow in G.
  destruct (Z.ltb_spec (24 * 60 * 60 * 1000) (clock (afterDb select w) - cache_created_at row));
    [lia|].
  unfold convertCacheEntryToResult in G. cbv zeta in G. rewrite Hbad in G. exact G.
Qed.

End WithLaws.
End CacheProperties.

Module CachePropertiesExamples.
Import Scenario Outage Requests Orchestration Stored.

#[local] Existing Instances ModelRuntime.runtime ModelRuntime.unicode ModelRuntime.deployment.

Lemma getCache_misses_on_store_failure_witness :
  fst (CacheService.getCache "a_b_quick" storeDown) = Ok None /\
  trace (snd (CacheService.getCache "a_b_quick" storeDown)) =
  [EvDb (SelectCache (Some "a") (Some "b") (Some "quick"))].
Proof.
  rewrite (CacheProperties.getCache_misses_on_store_failure
             "a_b_quick" storeDown).
  - split; reflexivity.
  - vm_compute. discriminate.
Defined.

(** A request whose locator has no scheme. *)
Lemma setCache_writes_nothing_without_a_host_witness :
  CacheService.setCache
    (CacheService.generateCacheKey relative)
    verdictResult relative world0 = (Ok tt, world0).
Proof.
  apply (CacheProperties.setCache_writes_nothing_without_a_host
          ).
  reflexivity.
Defined.



(** A row for [article] whose result column holds no JSON text. *)
Lemma unreadable_entry_is_a_miss_witness :
  fst (CacheService.getCache
         (CacheService.generateCacheKey article)
         garbled) = Ok None /\
  store (snd (CacheService.getCache
                (CacheService.generateCacheKey article)
                garbled)) = store garbled.
Proof.
  rewrite (CacheProperties.unreadable_entry_is_a_miss
             (L := ModelRuntimeFacts.laws)
             article garbled
             {| url_hash := Some (urlHashOf article);
                content_hash := Some (contentHashOf article);
                last_modified := WrittenAt 0; full_url := url article;
                domain := "example.com"; entry_mode := Some "quick";
                result := "not json"; cache_created_at := clock world0 |});
    try (vm_compute; reflexivity).
  - split; reflexivity.
  - vm_compute. discriminate.
Defined.

End CachePropertiesExamples.

(* ------------------------------------------------------------------ *)
(** ** Orchestrator: the calls to the providers *)

Module ProviderCalls.
Section WithRuntime.

Context {R : Runtime} {U : Unicode} {D : Deployment}.
Import AnalysisService AnalysisFacts ServiceEffects ProviderFacts.

(** X17. When the reply of the primary provider carries a document,
    the secondary provider is not called: [performAnalysis] makes the
    one HTTP call and returns the result made of that document, tagged
    with the primary provider, with the word count of the request and
    the time that call took. *)
Theorem primary_success_skips_the_secondary
        (req : AnalysisRequest) (w : World) (doc : Json) :
  carries openaiText (headReply w) doc ->
  performAnalysis req w =
  (Ok (verdictOf doc openai (countWords (text req)) (clock (afterFetch OpenAI w) - clock w)),
   afterFetch OpenAI w) /\
  fetches (trace (snd (performAnalysis req w))) = (fetches (trace w) ++ [OpenAI])%list.
Proof.
  intros H. rewrite performAnalysis_eq, (analyzeWithOpenAI_carries req w doc H).
  split; [reflexivity|]. cbn [snd]. now rewrite trace_afterFetch, fetches_app.
Qed.

(** The HTTP calls of [performAnalysis]: the primary provider, then the
    secondary one if and only if the primary call failed. *)
Lemma performAnalysis_fetches (req : AnalysisRequest) (w : World) :
  fetches (trace (snd (performAnalysis req w))) =
  (fetches (trace w) ++
   match fst (analyzeWithOpenAI req w) with
   | Ok _ => [OpenAI]
   | Throw _ => [OpenAI; Anthropic]
   end)%list.
Proof.
  rewrite performAnalysis_eq.
  pose proof (analyzeWithOpenAI_world req w) as Hw.
  destruct (analyzeWithOpenAI req w) as [[res|e] w1]; simpl in Hw; subst w1.
  - cbn [fst snd]. now rewrite trace_afterFetch, fetches_app.
  - pose proof (analyzeWithAnthropic_world req (afterFetch OpenAI w)) as Hw2.
    destruct (analyzeWithAnthropic req (afterFetch OpenAI w)) as [[res|e'] w2];
      simpl in Hw2; subst w2; cbn [fst snd];
      rewrite !trace_afterFetch, !fetches_app; simpl; now rewrite <- app_assoc.
Qed.

(** X18. One classification makes at most two HTTP calls, in the order
    primary, secondary.  It makes none when the quota refuses the
    request and none on a cache hit, and at least one on a miss. *)
Theorem analyzeContent_makes_at_most_two_provider_calls
        (req : AnalysisRequest) (uid : string) (w : World) :
  exists calls,
    fetches (trace (snd (analyzeContent req uid w))) = (fetches (trace w) ++ calls)%list /\
    (calls = [] \/ calls = [OpenAI] \/ calls = [OpenAI; Anthropic]) /\
    match fst (analyzeContent req uid w) with
    | Ok resp => cacheStatus resp = hit <-> calls = []
    | Throw e =>
        e <> "Content analysis failed. Please try again later." -> calls = []
    end.
Proof.
  rewrite analyzeContent_eq.
  pose proof (checkRateLimit_noFetch uid w) as [Fa _].
  destruct (checkRateLimit_ok uid w) as [rl Hrl].
  destruct (RateLimitService.checkRateLimit uid w) as [r wa]. simpl in Fa, Hrl. subst r.
  destruct (negb (allowed rl)).
  { exists []. rewrite app_nil_r. cbn [fst snd]. auto. }
  pose proof (getCache_noFetch (CacheService.generateCacheKey req) wa) as [Fb _].
  destruct (getCache_ok (CacheService.generateCacheKey req) wa) as [c Hc].
  destruct (CacheService.getCache _ wa) as [r wb]. simpl in Fb, Hc. subst r.
  destruct c as [cached|].
  { exists []. rewrite app_nil_r. cbn [fst snd]. rewrite Fb, Fa.
    split; [reflexivity|]. split; [auto|]. split; reflexivity. }
  pose proof (performAnalysis_fetches req wb) as Fp.
  pose proof (performAnalysis_eq req wb) as Ep.
  destruct (performAnalysis req wb) as [[res|e] wp]; cbn [fst snd] in *.
  - pose proof (setCache_noFetch (CacheService.generateCacheKey req) res req wp) as [Fs _].
    eexists. rewrite Fs, Fp, Fb, Fa. split; [reflexivity|].
    destruct (fst (analyzeWithOpenAI req wb)); (split; [auto|]);
      split; intros; discriminate.
  - eexists. rewrite Fp, Fb, Fa. split; [reflexivity|].
    split; [destruct (fst (analyzeWithOpenAI req wb)); auto|].
    intros Hne. exfalso. apply Hne.
    destruct (analyzeWithOpenAI req wb) as [[r1|e1] w1]; [discriminate|].
    destruct (analyzeWithAnthropic req w1) as [[r2|e2] w2]; [discriminate|].
    now inversion Ep.
Qed.

(** [parseAnalysisResult] leaves the world as it is.  Every
    failure has the message ["Failed to parse AI analysis result"].  A
    result comes from a string in which the text from the first opening
    brace to the last closing brace is a JSON document: its fields are
    read from the document, its indicators are never falsy, and its
    metadata are the provider, the given word count and a zero time. *)
Theorem parseAnalysisResult_outcome
        (analysis : Json) (p : Provider) (words : Z) (w : World) :
  snd (parseAnalysisResult analysis p words w) = w /\
  match fst (parseAnalysisResult analysis p words w) with
  | Ok res =>
      (exists s jsonMatch parsed,
          analysis = JStr s /\ JsString.matchBraces s = Some jsonMatch /\
          JSON_parse jsonMatch = Some parsed /\
          Js.getProp "classification" (Some parsed) = Some (classification res) /\
          Js.getProp "confidenceLevel" (Some parsed) = Some (confidenceLevel res) /\
          Js.getProp "confidenceScore" (Some parsed) = Some (confidenceScore res) /\
          Js.getProp "reasoning" (Some parsed) = Some (reasoning res)) /\
      Js.truthy (keyIndicators res) = true /\
      metadata res =
      {| wordCount := Some (JInt words); provider := Some (JStr (providerTag p));
         analysisTime := Some (JInt 0); cacheCreatedAt := None |}
  | Throw e => e = "Failed to parse AI analysis result"
  end.
Proof.
  split; [apply (parseAnalysisResult_unchanged analysis p words w)|].
  unfold parseAnalysisResult, tryCatch.
  destruct analysis as [| b | q | s | items | fields]; try reflexivity.
  destruct (JsString.matchBraces s) as [jsonMatch|] eqn:Hm; [|reflexivity].
  destruct (JSON_parse jsonMatch) as [parsed|] eqn:Hp; [|reflexivity].
  unfold bind.
  destruct (Js.getProp "classification" (Some parsed)) as [cls|] eqn:H1; [|reflexivity].
  destruct (Js.getProp "confidenceLevel" (Some parsed)) as [lvl|] eqn:H2; [|reflexivity].
  destruct (Js.getProp "confidenceScore" (Some parsed)) as [score|] eqn:H3; [|reflexivity].
  destruct (Js.getProp "keyIndicators" (Some parsed)) as [inds|] eqn:H4; [|reflexivity].
  destruct (Js.getProp "reasoning" (Some parsed)) as [why|] eqn:H5; [|reflexivity].
  cbn [orTypeError ret fst]. cbn [classification confidenceLevel confidenceScore reasoning
                                   keyIndicators metadata].
  split; [exists s, jsonMatch, parsed; auto 10|].
  split; [|reflexivity].
  destruct (Js.truthy inds) eqn:T; [exact T | reflexivity].
Qed.

End WithRuntime.
End ProviderCalls.

Module ProviderCallsExamples.
Import Scenario Requests Orchestration Answers.

#[local] Existing Instances ModelRuntime.runtime ModelRuntime.unicode ModelRuntime.deployment.

(** The primary provider answers: its verdict is returned after the one
    call. *)
Lemma primary_success_skips_the_secondary_witness :
  fst (AnalysisService.performAnalysis article primaryUp) =
  Ok (verdictOf verdict AnalysisService.openai 5 2) /\
  fetches (trace (snd (AnalysisService.performAnalysis article primaryUp))) = [OpenAI].
Proof.
  destruct (ProviderCalls.primary_success_skips_the_secondary article primaryUp verdict)
    as [H1 H2].
  { eexists 200, openaiBody, _, _. repeat split; try (vm_compute; reflexivity).
    discriminate. }
  split; [rewrite H1; vm_compute; reflexivity | exact H2].
Defined.

End ProviderCallsExamples.

(* ------------------------------------------------------------------ *)
(** ** Authentication middleware: the other guards *)

Module AccessControlProperties.
Section WithRuntime.

Context {R : Runtime}.
Import AuthMiddleware AccessControl.

(** The three messages of [requireAuth]. *)
Lemma requireAuth_message (authorization : option string) (env : Env) (w : World) (e : string) :
  fst (requireAuth authorization env w) = Throw e ->
  e = "Authentication required: Missing authorization header" \/
  e = "Authentication required: Invalid authorization format" \/
  e = "Authentication required: Invalid token".
Proof.
  unfold requireAuth. destruct authorization as [a|]; [|intros H; inversion H; auto].
  destruct (String.eqb a ""); [intros H; inversion H; auto|].
  destruct (negb (JsString.startsWith "Bearer " a)); [intros H; inversion H; auto|].
  unfold tryCatch. destruct (AuthService.extractUserFromToken a env w) as [[u|e'] w'];
    intros H; inversion H; auto.
Qed.

(** The messages of [requireAuth] are recognised by the handlers. *)
Lemma requireAuth_message_is_recognised
      (authorization : option string) (env : Env) (w : World) (e : string) :
  fst (requireAuth authorization env w) = Throw e ->
  Http.includes "Authentication" e = true /\
  Http.includes "Authentication required" e = true.
Proof.
  intros H. destruct (requireAuth_message _ _ _ _ H) as [-> | [-> | ->]];
    split; reflexivity.
Qed.

(** X21. [optionalAuth] against [requireAuth].  A request that
    [requireAuth] admits is admitted by [optionalAuth] with the same
    claims.  A request without a header, or with a header without the
    scheme prefix, gets no claims and causes no I/O.  A request with
    the scheme prefix whose token is refused is not answered with
    [null]: [optionalAuth] fails, with the message of
    [extractUserFromToken]. *)
Theorem optionalAuth_fails_on_a_refused_token
        (authorization : option string) (env : Env) (w : World) :
  match requireAuth authorization env w with
  | (Ok user, w') => optionalAuth authorization env w = (Ok (Some user), w')
  | (Throw e, w') =>
      if String.eqb e "Authentication required: Invalid token"
      then exists a e',
          authorization = Some a /\
          AuthService.extractUserFromToken a env w = (Throw e', w') /\
          optionalAuth authorization env w = (Throw e', w')
      else optionalAuth authorization env w = (Ok None, w) /\ w' = w
  end.
Proof.
  unfold requireAuth, optionalAuth, tryReturn.
  destruct authorization as [a|]; [|simpl; auto].
  destruct (String.eqb a ""); [simpl; auto|].
  destruct (negb (JsString.startsWith "Bearer " a)); [simpl; auto|].
  cbn [orb]. unfold tryCatch, bind.
  destruct (AuthService.extractUserFromToken a env w) as [[u|e'] w'] eqn:X; [reflexivity|].
  simpl. exists a, e'. auto.
Qed.

(** The claims of a token that [verifyJWT] accepts are not [null]. *)
Lemma verifyJWT_claims (tok secret : string) (w : World) (claims : Json) :
  fst (AuthService.verifyJWT tok secret w) = Ok claims -> claims <> JNull.
Proof.
  unfold AuthService.verifyJWT. intros H.
  destruct (JsString.split "." tok) as [|h [|p [|s [|x l]]]]; try discriminate H.
  destruct (negb _); [discriminate H|].
  unfold bind, AuthService.base64Decode in H.
  destruct (atobUtf8 p) as [decoded|]; [|discriminate H].
  unfold ret at 1 in H. cbv beta iota in H.
  destruct (JSON_parse decoded) as [payload|]; [|discriminate H].
  destruct (Js.getProp "exp" (Some payload)) as [exp|] eqn:E; [|discriminate H].
  unfold orTypeError, ret, now, throw in H. cbv beta iota in H.
  destruct (AuthService.lessThan exp (clock w / 1000)); [discriminate H|].
  inversion H. subst payload. intros ->. discriminate E.
Qed.

(** The claims [requireAuth] returns are not [null]. *)
Lemma requireAuth_claims (authorization : option string) (env : Env) (w : World)
      (user : Json) :
  fst (requireAuth authorization env w) = Ok user -> user <> JNull.
Proof.
  unfold requireAuth. destruct authorization as [a|]; [|discriminate].
  destruct (String.eqb a ""); [discriminate|].
  destruct (negb (JsString.startsWith "Bearer " a)); [discriminate|].
  unfold tryCatch. rewrite AuthServiceFacts.extractUserFromToken_eq. cbv zeta.
  destruct (AuthService.checkTokenBlacklist _ w) as [[[]|e] w1]; [|discriminate].
  cbn [fst]. destruct (fst (AuthService.verifyJWT _ _ w)) as [claims|e] eqn:V;
    [|discriminate].
  intros H. inversion H. subst claims. exact (verifyJWT_claims _ _ _ _ V).
Qed.

(** X22. [requireAdmin] admits a request only if [requireAuth] admits
    it and the [email] of its claims is the configured one; it returns
    the claims of [requireAuth].  Its failures are those of
    [requireAuth] and ["Admin privileges required"]. *)
Theorem requireAdmin_admits_only_the_configured_email
        (authorization : option string) (env : Env) (w : World) :
  match fst (requireAdmin authorization env w) with
  | Ok user =>
      fst (requireAuth authorization env w) = Ok user /\
      Js.optProp "email" (Some user) = Some (JStr "admin@example.com")
  | Throw e =>
      fst (requireAuth authorization env w) = Throw e \/
      e = "Admin privileges required" /\
      exists user, fst (requireAuth authorization env w) = Ok user /\
                   Js.optProp "email" (Some user) <> Some (JStr "admin@example.com")
  end.
Proof.
  unfold requireAdmin, bind.
  pose proof (requireAuth_claims authorization env w) as Hclaims.
  destruct (requireAuth authorization env w) as [[user|e] w']; [|left; reflexivity].
  specialize (Hclaims user eq_refl). cbn [fst] in *.
  assert (E : Js.getProp "email" (Some user) = Some (Js.optProp "email" (Some user)))
    by (destruct user; [contradiction | reflexivity ..]).
  rewrite E. cbn [orTypeError ret]. unfold isAdminEmail.
  destruct (Js.optProp "email" (Some user)) as [[|b|q|s|items|fields]|] eqn:P;
    try (cbn [negb]; unfold throw; cbn [fst]; right; split; [reflexivity|]; exists user;
         split; [reflexivity | rewrite P; discriminate]).
  destruct (String.eqb_spec s "admin@example.com") as [->|Hne];
    cbn [negb]; unfold throw, ret; cbn [fst].
  - split; [reflexivity | exact P].
  - right. split; [reflexivity|]. exists user.
    split; [reflexivity | rewrite P; congruence].
Qed.

End WithRuntime.
End AccessControlProperties.

(* ------------------------------------------------------------------ *)
(** ** Rate limiter: usage statistics *)

Module RateLimitUsageProperties.
Section WithDeployment.

Context {D : Deployment}.
Import RateLimitService RateLimitUsage.


End WithDeployment.
End RateLimitUsageProperties.

Module AccessControlExamples.
Import Scenario AuthMiddleware AccessControl.

#[local] Existing Instances ModelRuntime.runtime.

(** A header with the scheme prefix and a malformed token. *)
Lemma optionalAuth_throws :
  fst (optionalAuth (Some "Bearer not-a-token") env0 world0) =
  Throw "Invalid token format" /\
  fst (optionalAuth (Some "Token abc") env0 world0) = Ok None.
Proof. split; vm_compute; reflexivity. Qed.

End AccessControlExamples.

(* ------------------------------------------------------------------ *)
(** ** Validation of the request body *)

Module ValidationProperties.
Section WithPlatform.

Context {U : Unicode} {C : CodeUnits} {W : UrlApi}.
Import ValidationService.

Lemma validateText_valid (j : Json) :
  valid (validateText j) = true ->
  exists t, j = JStr t /\
            MIN_TEXT_LENGTH <= len (trim t) <= MAX_TEXT_LENGTH /\
            3 <= Z.of_nat (List.length (splitWhiteSpace (trim t))).
Proof.
  destruct j as [|b|q|t|items|fields]; try discriminate. unfold validateText. cbv zeta.
  destruct (Z.eqb_spec (len (trim t)) 0); [discriminate|].
  destruct (Z.ltb_spec (len (trim t)) MIN_TEXT_LENGTH); [discriminate|].
  destruct (Z.ltb_spec MAX_TEXT_LENGTH (len (trim t))); [discriminate|].
  destruct (Z.ltb_spec (Z.of_nat (List.length (splitWhiteSpace (trim t)))) 3);
    [discriminate|].
  intros _. exists t. auto.
Qed.

Lemma validateUrl_valid (j : Json) :
  valid (validateUrl j) = true ->
  exists u urlObj,
    j = JStr u /\ 0 < len u <= MAX_URL_LENGTH /\ newURL u = Some urlObj /\
    (protocol urlObj = "http:" \/ protocol urlObj = "https:") /\
    hostname urlObj <> "" /\ isPrivateOrLocalhost (hostname urlObj) = false.
Proof.
  destruct j as [|b|q|u|items|fields]; try discriminate. unfold validateUrl.
  destruct (Z.eqb_spec (len u) 0); [discriminate|].
  destruct (Z.ltb_spec MAX_URL_LENGTH (len u)); [discriminate|].
  destruct (newURL u) as [urlObj|] eqn:N; [|discriminate].
  destruct (String.eqb_spec (protocol urlObj) "http:") as [P1|P1];
    destruct (String.eqb_spec (protocol urlObj) "https:") as [P2|P2];
    cbn [orb negb]; try discriminate;
    (destruct (String.eqb_spec (hostname urlObj) ""); [discriminate|]);
    (destruct (isPrivateOrLocalhost (hostname urlObj)) eqn:P; [discriminate|]);
    intros _; exists u, urlObj; unfold len in *; repeat split; auto; try lia.
Qed.

Lemma validateMode_valid (j : Json) :
  valid (validateMode j) = true -> j = JStr "quick" \/ j = JStr "deep".
Proof.
  destruct j as [|b|q|m|items|fields]; try discriminate. unfold validateMode.
  destruct (String.eqb_spec m "quick") as [->|]; [auto|].
  destruct (String.eqb_spec m "deep") as [->|]; [auto|]. discriminate.
Qed.

(** A result that refuses names a reason. *)
Lemma refusal_has_a_reason (requestData : Json) (v : ValidationResult) :
  validateAnalysisRequest requestData = Some v ->
  valid v = false ->
  exists msg, error v = Some msg /\ msg <> "".
Proof.
  assert (Hr : forall msg, msg <> "" ->
                 forall r, r = rejected msg -> exists m, error r = Some m /\ m <> "").
  { intros msg Hm r ->. exists msg. auto. }
  assert (Ht : forall j, valid (validateText j) = false ->
                         exists m, error (validateText j) = Some m /\ m <> "").
  { intros j. unfold validateText.
    destruct j; try (intros _; eapply Hr; [|reflexivity]; discriminate). cbv zeta.
    repeat match goal with
           | |- context [if ?c then _ else _] => destruct c
           end;
      try discriminate; intros _; (eapply Hr; [|reflexivity]); discriminate. }
  assert (Hu : forall j, valid (validateUrl j) = false ->
                         exists m, error (validateUrl j) = Some m /\ m <> "").
  { intros j. unfold validateUrl.
    destruct j; try (intros _; eapply Hr; [|reflexivity]; discriminate).
    destruct (len s =? 0); [intros _; eapply Hr; [|reflexivity]; discriminate|].
    destruct (MAX_URL_LENGTH <? len s); [intros _; eapply Hr; [|reflexivity]; discriminate|].
    destruct (newURL s); [|intros _; eapply Hr; [|reflexivity]; discriminate].
    repeat match goal with
           | |- context [if ?c then _ else _] => destruct c
           end;
      try discriminate; intros _; (eapply Hr; [|reflexivity]); discriminate. }
  assert (Hm : forall j, valid (validateMode j) = false ->
                         exists m, error (validateMode j) = Some m /\ m <> "").
  { intros j. unfold validateMode.
    destruct j; try (intros _; eapply Hr; [|reflexivity]; discriminate).
    destruct (negb _); [|discriminate].
    intros _. eapply Hr; [|reflexivity]. discriminate. }
  unfold validateAnalysisRequest, present. intros H V.
  destruct (Js.getProp "text" (Some requestData)) as [text|]; [|discriminate].
  destruct (Js.truthy text);
    [|inversion H; eapply Hr; [|reflexivity]; discriminate].
  destruct text as [t|]; [|inversion H; eapply Hr; [|reflexivity]; discriminate].
  destruct (Js.getProp "url" (Some requestData)) as [url|]; [|discriminate].
  destruct (Js.truthy url);
    [|inversion H; eapply Hr; [|reflexivity]; discriminate].
  destruct url as [u|]; [|inversion H; eapply Hr; [|reflexivity]; discriminate].
  destruct (Js.getProp "mode" (Some requestData)) as [mode|]; [|discriminate].
  destruct (Js.truthy mode);
    [|inversion H; eapply Hr; [|reflexivity]; discriminate].
  destruct mode as [m|]; [|inversion H; eapply Hr; [|reflexivity]; discriminate].
  cbv zeta in H.
  destruct (valid (validateText t)) eqn:Vt; cbn [negb] in H;
    [|inversion H; subst v; now apply Ht].
  destruct (valid (validateUrl u)) eqn:Vu; cbn [negb] in H;
    [|inversion H; subst v; now apply Hu].
  destruct (valid (validateMode m)) eqn:Vm; cbn [negb] in H;
    [|inversion H; subst v; now apply Hm].
  inversion H. subst v. discriminate V.
Qed.


End WithPlatform.
End ValidationProperties.

Module ValidationExamples.
Import ValidationService Bodies.

#[local] Existing Instances ModelRuntime.runtime ModelRuntime.unicode ModelRuntime.deployment.
#[local] Existing Instances ModelUrl.codeUnits ModelUrl.api.


(** Bodies that the validation refuses, with the reason it gives. *)
Lemma refused_bodies :
  validateAnalysisRequest localBody =
  Some (rejected "URL cannot be localhost or private IP address") /\
  validateAnalysisRequest shortBody =
  Some (rejected "Text must be at least 10 characters long") /\
  validateAnalysisRequest (JStr "text") =
  Some (rejected "Text content is required") /\
  validateAnalysisRequest JNull = None.
Proof. repeat split; vm_compute; reflexivity. Qed.

End ValidationExamples.

(* ------------------------------------------------------------------ *)
(** ** Controllers: what a request is answered with *)

Module MessageFacts.

Lemma contains_app (c : ascii) (a b : string) :
  JsString.contains c (a ++ b) = JsString.contains c a || JsString.contains c b.
Proof.
  induction a as [|d a IH]; simpl; [reflexivity|]. rewrite IH. apply orb_assoc.
Qed.

(** A text without the first character of the needle does not include
    the needle. *)
Lemma includes_without_initial (c : ascii) (needle s : string) :
  JsString.contains c s = false -> Http.includes (String c needle) s = false.
Proof.
  induction s as [|d s IH]; simpl; [reflexivity|].
  intros H. apply orb_false_iff in H as [Hd Hs]. rewrite (IH Hs).
  destruct (ascii_dec c d) as [->|]; [|reflexivity].
  rewrite Ascii.eqb_refl in Hd. discriminate.
Qed.

Lemma uint_without_letter (d : Decimal.uint) :
  JsString.contains "A" (NilEmpty.string_of_uint d) = false.
Proof. induction d; simpl; auto. Qed.

Lemma showOpt_without_letter (o : option Z) : JsString.contains "A" (Js.showOpt o) = false.
Proof.
  destruct o as [z|]; [|reflexivity]. unfold Js.showOpt, Js.showZ, NilZero.string_of_int.
  destruct (Z.to_int z) as [d|d]; [|cbn [JsString.contains Ascii.eqb orb]];
    unfold NilZero.string_of_uint; destruct d; try reflexivity; apply uint_without_letter.
Qed.

(** The quota error is not taken for an authentication error. *)
Lemma quota_message_is_not_recognised (o : option Z) :
  Http.includes "Authentication"
    ("Rate limit exceeded. Retry after " ++ Js.showOpt o ++ " seconds") = false.
Proof.
  apply includes_without_initial. rewrite !contains_app, showOpt_without_letter. reflexivity.
Qed.

End MessageFacts.

Module ControllerProperties.
Section WithRuntime.

Context {R : Runtime} {U : Unicode} {D : Deployment} {C : CodeUnits} {W : UrlApi}.
Context {L : CodeUnitsLaws C}.
Import AuthMiddleware AccessControl AnalysisController AuthController Routes.
Import AccessControlProperties.

(** A request that [requireAuth] refuses is answered with status 401
    and the message of [requireAuth], in the world it left. *)
Lemma handleAnalysisRequest_unauthenticated
      (request : Http.Request) (env : Env) (mode : Mode) (w : World) (e : string) :
  fst (requireAuth (Http.authorization request) env w) = Throw e ->
  handleAnalysisRequest request env mode w =
  (Ok (Http.createErrorResponse e 401 None),
   snd (requireAuth (Http.authorization request) env w)).
Proof.
  intros H. destruct (requireAuth_message_is_recognised _ _ _ _ H) as [H1 H2].
  unfold handleAnalysisRequest, tryCatch, bind.
  destruct (requireAuth (Http.authorization request) env w) as [r w']. simpl in H. subst r.
  rewrite H1. unfold createAuthErrorResponse. now rewrite H2.
Qed.

(** The only I/O of [requireAuth] is the revocation lookup. *)
Lemma requireAuth_world (authorization : option string) (env : Env) (w : World) :
  snd (requireAuth authorization env w) = w \/
  exists a,
    authorization = Some a /\
    snd (requireAuth authorization env w) =
    afterDb (SelectBlacklist (sha256hex (JsString.removeFirst "Bearer " a)) (clock w)) w.
Proof.
  unfold requireAuth. destruct authorization as [a|]; [|left; reflexivity].
  destruct (String.eqb a ""); [left; reflexivity|].
  destruct (negb (JsString.startsWith "Bearer " a)); [left; reflexivity|].
  right. exists a. split; [reflexivity|]. unfold tryCatch.
  rewrite AuthServiceFacts.extractUserFromToken_eq. cbv zeta.
  rewrite AuthServiceFacts.checkTokenBlacklist_eq. cbv zeta.
  destruct (headFault w); [destruct (find _ _)|..];
    try reflexivity; destruct (fst _); reflexivity.
Qed.

(** X25. A request that [requireAuth] refuses is answered with status
    401 and the message of [requireAuth].  The body is not read, and
    neither the limiter nor the cache nor a provider is asked: the only
    I/O, if any, is the revocation lookup. *)
Theorem unauthenticated_request_is_answered_401
        (request : Http.Request) (env : Env) (mode : Mode) (w : World) (e : string) :
  fst (requireAuth (Http.authorization request) env w) = Throw e ->
  fst (handleAnalysisRequest request env mode w) =
  Ok (Http.createErrorResponse e 401 None) /\
  (snd (handleAnalysisRequest request env mode w) = w \/
   exists a,
     Http.authorization request = Some a /\
     snd (handleAnalysisRequest request env mode w) =
     afterDb (SelectBlacklist (sha256hex (JsString.removeFirst "Bearer " a)) (clock w)) w).
Proof.
  intros H. rewrite (handleAnalysisRequest_unauthenticated request env mode w e H).
  split; [reflexivity|]. apply requireAuth_world.
Qed.

(** X26. A request whose body the validation refuses is answered with
    status 400 and the reason of the validation, in the world
    [requireAuth] left: the refusal costs no quota. *)
Theorem invalid_body_is_answered_400_without_quota
        (request : Http.Request) (env : Env) (mode : Mode) (w : World)
        (user requestData : Json) (v : ValidationService.ValidationResult) :
  fst (requireAuth (Http.authorization request) env w) = Ok user ->
  Http.json request = Ok requestData ->
  ValidationService.validateAnalysisRequest requestData = Some v ->
  ValidationService.valid v = false ->
  exists reason,
    ValidationService.error v = Some reason /\
    handleAnalysisRequest request env mode w =
    (Ok (Http.createErrorResponse reason 400 None),
     snd (requireAuth (Http.authorization request) env w)).
Proof.
  intros Hauth Hjson Hv Hno.
  destruct (ValidationProperties.refusal_has_a_reason requestData v Hv Hno)
    as (reason & Hreason & Hne).
  exists reason. split; [exact Hreason|].
  unfold handleAnalysisRequest, tryCatch, bind.
  destruct (requireAuth (Http.authorization request) env w) as [r w']. simpl in Hauth. subst r.
  unfold Http.readJson. rewrite Hjson, Hv. cbn [orTypeError ret]. rewrite Hno, Hreason.
  cbn [negb]. destruct (String.eqb_spec reason ""); [contradiction | reflexivity].
Qed.

(** X27. A request of an authenticated identity that the limiter
    refuses is answered with status 500 and the error ["Analysis
    failed"], the quota error being its [message]; the cache and the
    providers are not asked.  The route's [mode] plays no part. *)
Theorem refused_quota_is_answered_500
        (request : Http.Request) (env : Env) (mode : Mode) (w : World)
        (user requestData : Json) (v : ValidationService.ValidationResult)
        (uid : string) (rl : RateLimitResult) :
  let wa := snd (requireAuth (Http.authorization request) env w) in
  fst (requireAuth (Http.authorization request) env w) = Ok user ->
  Http.json request = Ok requestData ->
  ValidationService.validateAnalysisRequest requestData = Some v ->
  ValidationService.valid v = true ->
  Js.getProp "userId" (Some user) = Some (Some (JStr uid)) ->
  fst (RateLimitService.checkRateLimit uid wa) = Ok rl ->
  allowed rl = false ->
  handleAnalysisRequest request env mode w =
  (Ok (Http.createErrorResponse "Analysis failed" 500
         (Some ("Rate limit exceeded. Retry after " ++ Js.showOpt (retryAfter rl) ++
                " seconds"))),
   snd (RateLimitService.checkRateLimit uid wa)).
Proof.
  intros wa Hauth Hjson Hv Hyes Huid Hrl Hno. subst wa.
  unfold handleAnalysisRequest, tryCatch, bind.
  destruct (requireAuth (Http.authorization request) env w) as [r w']. simpl in *. subst r.
  unfold Http.readJson. rewrite Hjson, Hv. cbn [orTypeError ret]. rewrite Hyes. cbn [negb].
  rewrite Huid. cbn [orTypeError ret Js.strOrEmpty].
  rewrite AnalysisFacts.analyzeContent_eq.
  destruct (RateLimitService.checkRateLimit uid w') as [r wb].
  simpl in Hrl. subst r. rewrite Hno. cbn [negb snd].
  now rewrite MessageFacts.quota_message_is_not_recognised.
Qed.

(** What a successful logout did. *)
Lemma handleLogout_inv (request : Http.Request) (env : Env) (w w1 : World)
      (resp : Http.Response) :
  handleLogout request env w = (Ok resp, w1) ->
  Http.status resp = 200 ->
  exists a user wa uid wb,
    Http.authorization request = Some a /\
    AuthService.extractUserFromToken a env w = (Ok user, wa) /\
    AuthService.addTokenToBlacklist (substringFrom 7 a) uid wa = (Ok tt, wb) /\
    w1 = snd (AuthService.cleanupExpiredTokens wb).
Proof.
  unfold handleLogout, tryCatch, bind. intros H Hs.
  destruct (Http.authorization request) as [a|];
    [|inversion H; subst resp; discriminate Hs].
  destruct (String.eqb a ""); [inversion H; subst resp; discriminate Hs|].
  destruct (AuthService.extractUserFromToken a env w) as [[user|e] wa] eqn:X;
    [|inversion H; subst resp; discriminate Hs].
  destruct (Js.getProp "userId" (Some user)) as [uid|];
    [|inversion H; subst resp; discriminate Hs].
  cbn [orTypeError ret] in H.
  destruct (AuthService.addTokenToBlacklist (substringFrom 7 a) (Js.strOrEmpty uid) wa)
    as [[[]|e] wb] eqn:B; [|inversion H; subst resp; discriminate Hs].
  pose proof (AuthServiceFacts.cleanupExpiredTokens_keepsUnexpired wb) as K.
  destruct (AuthService.cleanupExpiredTokens wb) as [[[]|e] wc] eqn:Hc.
  - inversion H. subst. exists a, user, wa, (Js.strOrEmpty uid), wb.
    repeat split; try assumption. now rewrite Hc.
  - inversion H; subst resp; discriminate Hs.
Qed.



(** A handler that answers every error answers every request. *)
Lemma tryCatch_answers {A} (m : M A) (h : string -> M A) (w : World) :
  (forall e w', exists a, fst (h e w') = Ok a) ->
  exists a, fst (tryCatch m h w) = Ok a.
Proof.
  intros Hh. unfold tryCatch. destruct (m w) as [[a|e] w']; [eexists; reflexivity|].
  apply Hh.
Qed.

(** X30. Every request is answered: [handleRoutes] never fails, so that
    the handler of last resort of the worker is never used.  A
    preflight request is answered with the CORS response without any
    I/O, whatever its path and its headers, and so is, with status 404,
    a request for a path or a method that is not routed. *)
Theorem every_request_is_answered (request : Http.Request) (env : Env) (w : World) :
  (exists resp,
      fst (handleRoutes request env w) = Ok resp /\
      fetchHandler request env w = handleRoutes request env w) /\
  (Http.method request = "OPTIONS" ->
   handleRoutes request env w = (Ok Http.createCorsResponse, w)) /\
  (Http.method request <> "OPTIONS" ->
   Http.method request <> "POST" \/
   ~ In (Http.pathname request)
        ["/google/sign_in"; "/auth/logout"; "/auth/verify"; "/analyze-quick";
         "/analyze-deep"; "/"] ->
   handleRoutes request env w =
   (Ok {| Http.status := 404; Http.headers := []; Http.body := Some "Not found" |}, w)).
Proof.
  assert (Hanswers : exists resp, fst (handleRoutes request env w) = Ok resp).
  { unfold handleRoutes. destruct (String.eqb (Http.method request) "OPTIONS");
      [eexists; reflexivity|].
    apply tryCatch_answers. intros e w'. eexists. reflexivity. }
  split; [|split].
  - destruct Hanswers as [resp Hresp]. exists resp. split; [exact Hresp|].
    unfold fetchHandler, tryCatch.
    destruct (handleRoutes request env w) as [[r|e] w']; [reflexivity | discriminate].
  - intros Hm. unfold handleRoutes. now rewrite Hm.
  - intros Hno Hroute. unfold handleRoutes, routed.
    destruct (String.eqb_spec (Http.method request) "OPTIONS") as [|_]; [contradiction|].
    unfold tryCatch.
    destruct (String.eqb_spec (Http.method request) "POST") as [Hp|Hp].
    + destruct Hroute as [Hroute | Hroute]; [contradiction|].
      rewrite !andb_true_r.
      repeat match goal with
             | |- context [String.eqb (Http.pathname request) ?p] =>
                 destruct (String.eqb_spec (Http.pathname request) p) as [Hx|_];
                 [exfalso; apply Hroute; rewrite Hx; simpl; tauto|]
             end.
      reflexivity.
    + rewrite !andb_false_r. reflexivity.
Qed.

End WithRuntime.
End ControllerProperties.

Module ModelUrlFacts.

Lemma codeUnitsLaws : CodeUnitsLaws ModelUrl.codeUnits.
Proof. constructor. intros p s _. apply JsStringFacts.dropChars_app. Qed.

End ModelUrlFacts.

Module ControllerExamples.
Import Scenario Outage Bodies Visits.

#[local] Existing Instances ModelRuntime.runtime ModelRuntime.unicode ModelRuntime.deployment.
#[local] Existing Instances ModelUrl.codeUnits ModelUrl.api.

(** A request without a header. *)
Lemma unauthenticated_request_is_answered_401_witness :
  AnalysisController.handleAnalysisRequest
    anonymous env0 quick world0 =
  (Ok (Http.createErrorResponse
         "Authentication required: Missing authorization header" 401 None),
   world0).
Proof.
  destruct (ControllerProperties.unauthenticated_request_is_answered_401
           anonymous env0 quick world0
              "Authentication required: Missing authorization header") as [H1 _].
  { reflexivity. }
  apply injective_projections; [exact H1 | reflexivity].
Defined.

(** The bearer of the session token asks for a locator of the local
    network. *)
Lemma invalid_body_is_answered_400_without_quota_witness :
  exists reason,
    ValidationService.error
      (ValidationService.rejected "URL cannot be localhost or private IP address") =
    Some reason /\
    AnalysisController.handleAnalysisRequest
      (asking localBody) env0 quick hourLater =
    (Ok (Http.createErrorResponse reason 400 None),
     snd (AuthMiddleware.requireAuth
            (Http.authorization (asking localBody)) env0 hourLater)).
Proof.
  apply (ControllerProperties.invalid_body_is_answered_400_without_quota
           (asking localBody) env0 quick hourLater
           (AuthService.jwtPayload alice 1700000000 1700086400) localBody);
    vm_compute; reflexivity.
Defined.

(** The bearer of the session token has used the quota of the day. *)
Lemma refused_quota_is_answered_500_witness :
  fst (AnalysisController.handleAnalysisRequest
         (asking articleBody) env0 quick exhaustedLater) =
  Ok (Http.createErrorResponse "Analysis failed" 500
        (Some "Rate limit exceeded. Retry after 2800 seconds")).
Proof.
  rewrite (ControllerProperties.refused_quota_is_answered_500
           (asking articleBody) env0 quick exhaustedLater
             (AuthService.jwtPayload alice 1700000000 1700086400) articleBody
             ValidationService.accepted "u-1"
             {| allowed := false; retryAfter := Some 2800;
                message := Some "Daily limit exceeded"; currentCount := Some 50 |});
    vm_compute; reflexivity.
Defined.



End ControllerExamples.
